(** * cxgui: the workflow GUI (vhsgui.pyw) and the signal monitor (cxcheck.pyw)

    A shallow embedding of the two front ends and the properties their
    specification states about them.

    - [Py]        the Python built-ins the code calls: [str] methods, [in],
                  [range], [str], exceptions;
    - [Json]      values returned by [json.load], and Python's [in] and item
                  assignment on them;
    - [Config]    [ConfigManager.load_config];
    - [OsPath]    [os.path];
    - [Gui]       the [VHSGui] widget: its fields, its slots and the Qt events
                  that call them;
    - [CxCheck]   [detect_cxadc_devices] and [DeviceMonitorWorker];
    - [Scenario]  the example scenarios of the specification.

    A [string] holds the UTF-8 encoding of a text. [strip] knows the white
    space of Unicode; [lower] and [upper] change the letters below 128,
    which are the only ones in the texts that the program compares.
    What the program asks of the world (the file system, Qt, the child
    processes) is an argument of the function that asks, and what it does to
    the world is a list of effects that the function returns. *)

From Stdlib Require Import ZArith Ascii List Lia Bool Sorted.
From Stdlib Require String.
From Stdlib Require Import Floats.SpecFloat.
From stdpp Require Import base gmap strings list pretty sorting.

Local Set Warnings "-register-all,-clear-no-such-hyp".
Local Open Scope Z_scope.

(* ===================================================================== *)
(** ** Python built-ins *)
(* ===================================================================== *)

Module Py.

(** Exceptions that the modelled code can meet. *)
Inductive exc :=
| TypeError | AttributeError | ValueError | UnicodeDecodeError
| JSONDecodeError | IOError | TimeoutExpired | RecursionError.

(** A call either returns or raises. *)
Inductive outcome (A : Type) :=
| Return (a : A)
| Raise (e : exc).
Arguments Return {A} a.
Arguments Raise {A} e.

Global Instance outcome_ret : MRet outcome := λ A a, Return a.
Global Instance outcome_bind : MBind outcome := λ A B f x,
  match x with
  | Return a => f a
  | Raise e => Raise e
  end.

Definition returns {A} (x : outcome A) : Prop := ∃ a, x = Return a.

(** [c.lower()] and [c.upper()] on one letter below 128; the other bytes
    are kept. The program lowers a text only to look for [no such file] in
    it, and the lower case of a character beyond 127 never puts a letter
    of that marker in front of the letter that follows it there (only
    U+212A gives a letter below 128 alone, [k], and U+0130 gives [i] with a
    combining dot after it); it raises to upper case only the names of the
    stages. *)
Definition lower_ascii (c : ascii) : ascii :=
  let n := nat_of_ascii c in
  if ((65 <=? n) && (n <=? 90))%nat then ascii_of_nat (n + 32) else c.

Definition upper_ascii (c : ascii) : ascii :=
  let n := nat_of_ascii c in
  if ((97 <=? n) && (n <=? 122))%nat then ascii_of_nat (n - 32) else c.

Fixpoint lower (s : string) : string :=
  match s with
  | EmptyString => EmptyString
  | String c r => String (lower_ascii c) (lower r)
  end.

Fixpoint upper (s : string) : string :=
  match s with
  | EmptyString => EmptyString
  | String c r => String (upper_ascii c) (upper r)
  end.

(** [str.isspace], by the UTF-8 encoding of the code point. One byte: tab,
    line feed, vertical tab, form feed, carriage return, the four
    separators 28..31 and the space. *)
Definition is_space1 (c : ascii) : bool :=
  let n := nat_of_ascii c in
  (((9 <=? n) && (n <=? 13)) || ((28 <=? n) && (n <=? 32)))%nat.

(** Two bytes: U+0085 and U+00A0 (C2 85, C2 A0). Three bytes: U+1680
    (E1 9A 80); U+2000..U+200A, U+2028, U+2029 and U+202F (E2 80 80..8A,
    E2 80 A8, E2 80 A9, E2 80 AF); U+205F (E2 81 9F); U+3000 (E3 80 80).
    These are all the code points that [str.isspace] accepts. *)
Definition is_space2 (a b : ascii) : bool :=
  let a := nat_of_ascii a in
  let b := nat_of_ascii b in
  ((a =? 194) && ((b =? 133) || (b =? 160)))%nat.

Definition is_space3 (a b c : ascii) : bool :=
  let a := nat_of_ascii a in
  let b := nat_of_ascii b in
  let c := nat_of_ascii c in
  (((a =? 225) && (b =? 154) && (c =? 128))
   || ((a =? 226) && (b =? 128)
       && (((128 <=? c) && (c <=? 138)) || (c =? 168) || (c =? 169) || (c =? 175)))
   || ((a =? 226) && (b =? 129) && (c =? 159))
   || ((a =? 227) && (b =? 128) && (c =? 128)))%nat.

(** [s.lstrip()]: the leading white space is dropped, code point by code
    point. *)
Fixpoint lstrip (s : string) : string :=
  match s with
  | EmptyString => EmptyString
  | String a r =>
      if is_space1 a then lstrip r
      else
        match r with
        | EmptyString => s
        | String b r' =>
            if is_space2 a b then lstrip r'
            else
              match r' with
              | EmptyString => s
              | String c r'' => if is_space3 a b c then lstrip r'' else s
              end
        end
  end.

(** [s.rstrip()]: the text is cut at the first place from which on it is
    white space only. *)
Fixpoint rstrip (s : string) : string :=
  match s with
  | EmptyString => EmptyString
  | String c r =>
      match lstrip s with
      | EmptyString => EmptyString
      | _ => String c (rstrip r)
      end
  end.

Definition strip (s : string) : string := rstrip (lstrip s).

(** [s.startswith(p)], and the rest of [s] after [p]. *)
Fixpoint strip_prefix (p s : string) : option string :=
  match p, s with
  | EmptyString, _ => Some s
  | String a p', String b s' => if Ascii.eqb a b then strip_prefix p' s' else None
  | String _ _, EmptyString => None
  end.

(** [needle in hay] on two [str]. *)
Fixpoint str_in (needle hay : string) : bool :=
  match strip_prefix needle hay with
  | Some _ => true
  | None =>
      match hay with
      | EmptyString => false
      | String _ hay' => str_in needle hay'
      end
  end.

(** [s.replace(a, b)] for single characters [a] and [b]. *)
Fixpoint replace_char (a b : ascii) (s : string) : string :=
  match s with
  | EmptyString => EmptyString
  | String c r => String (if Ascii.eqb c a then b else c) (replace_char a b r)
  end.

(** [sep.join(l)]. *)
Fixpoint join (sep : string) (l : list string) : string :=
  match l with
  | [] => ""
  | [x] => x
  | x :: r => x +:+ sep +:+ join sep r
  end.

(** [str(n)] for an [int]. *)
Definition str_of_int (n : Z) : string := pretty n.

(** [range(n)]. *)
Definition range (n : Z) : list Z := seqZ 0 n.

End Py.

(* ===================================================================== *)
(** ** JSON values, as [json.load] returns them *)
(* ===================================================================== *)

Module Json.
Import Py.

(** [None], [bool], [int], [float], [str], [list] and [dict]. *)
Inductive json :=
| JNull
| JBool (b : bool)
| JInt (z : Z)
| JFloat (f : spec_float)
| JStr (s : string)
| JList (l : list json)
| JDict (m : gmap string json).

Definition is_str (key : string) (v : json) : bool :=
  match v with
  | JStr s => String.eqb s key
  | _ => false
  end.

(** [key in data] for a [str] key: a key test on a dict, an element test on
    a list, a substring test on a str; the other values are not
    containers. *)
Definition contains (data : json) (key : string) : outcome bool :=
  match data with
  | JDict m => Return (bool_decide (is_Some (m !! key)))
  | JList l => Return (existsb (is_str key) l)
  | JStr s => Return (str_in key s)
  | JNull | JBool _ | JInt _ | JFloat _ => Raise TypeError
  end.

(** [data[key] = v] for a [str] key: only a dict takes it. *)
Definition setitem (data : json) (key : string) (v : json) : outcome json :=
  match data with
  | JDict m => Return (JDict (<[key:=v]> m))
  | _ => Raise TypeError
  end.

End Json.

(* ===================================================================== *)
(** ** vhsgui.pyw: ConfigManager *)
(* ===================================================================== *)

Module Config.
Import Py Json.

Definition CONFIG_FILE : string := "vhsgui.json".

(** The dict literal [defaults] of [load_config], in source order. *)
Definition defaults_items : list (string * json) :=
  [ ("decode_path", JStr "");
    ("tbc_export_path", JStr "");
    ("last_input_file", JStr "");
    ("window_width", JInt 900);
    ("window_height", JInt 750) ].

Definition defaults : gmap string json := list_to_map defaults_items.

(** What [load_config] finds at [CONFIG_FILE]: no file; a file that
    [open] or [read] refuses with an [OSError]; bytes that the text
    decoder rejects; text that is not JSON; JSON text that [json.load]
    refuses to build, because an integer in it has more digits than [int]
    converts (a [ValueError] that is no [JSONDecodeError]) or because it is
    nested too deeply (a [RecursionError]); or a JSON value. *)
Inductive config_file :=
| Absent
| Unreadable
| Undecodable
| Malformed
| TooLong
| TooDeep
| Holds (data : json).

Definition path_exists (f : config_file) : bool :=
  match f with
  | Absent => false
  | _ => true
  end.

(** [open(CONFIG_FILE, 'r')] followed by [json.load(f)]. *)
Definition json_load (f : config_file) : outcome json :=
  match f with
  | Absent | Unreadable => Raise IOError
  | Undecodable => Raise UnicodeDecodeError
  | Malformed => Raise JSONDecodeError
  | TooLong => Raise ValueError
  | TooDeep => Raise RecursionError
  | Holds data => Return data
  end.

(** [for key in defaults: if key not in data: data[key] = defaults[key]] *)
Fixpoint merge_defaults (items : list (string * json)) (data : json) : outcome json :=
  match items with
  | [] => Return data
  | (key, v) :: rest =>
      present ← contains data key;
      data' ← (if negb present then setitem data key v else Return data);
      merge_defaults rest data'
  end.

(** [except (json.JSONDecodeError, IOError): return defaults] *)
Definition load_config (f : config_file) : outcome json :=
  if negb (path_exists f) then Return (JDict defaults)
  else
    match (data ← json_load f; merge_defaults defaults_items data) with
    | Raise JSONDecodeError | Raise IOError => Return (JDict defaults)
    | r => r
    end.

End Config.

(* ===================================================================== *)
(** ** os.path *)
(* ===================================================================== *)

Module OsPath.
Import Py.

(** The functions of [os.path] that build and split names. They are
    [posixpath] or [ntpath] depending on the platform; [os.path.exists] asks
    the file system and is an argument of the slots that call it. *)
Class os_path := {
  path_join : string → string → string;
  path_dirname : string → string;
  path_basename : string → string
}.

Definition filesystem := string → bool.

Definition sep : ascii := "/"%char.

(** [(p[:i], p[i:])] for [i = p.rfind('/') + 1]. *)
Fixpoint split_last_sep (p : string) : string * string :=
  match p with
  | EmptyString => (EmptyString, EmptyString)
  | String c r =>
      match split_last_sep r with
      | (EmptyString, tail) =>
          if Ascii.eqb c sep then (String c EmptyString, tail)
          else (EmptyString, String c tail)
      | (head, tail) => (String c head, tail)
      end
  end.

Fixpoint all_sep (s : string) : bool :=
  match s with
  | EmptyString => true
  | String c r => Ascii.eqb c sep && all_sep r
  end.

(** [s.rstrip('/')]. *)
Fixpoint rstrip_sep (s : string) : string :=
  match s with
  | EmptyString => EmptyString
  | String c r =>
      match rstrip_sep r with
      | EmptyString => if Ascii.eqb c sep then EmptyString else String c EmptyString
      | r' => String c r'
      end
  end.

Fixpoint ends_with_sep (s : string) : bool :=
  match s with
  | EmptyString => false
  | String c EmptyString => Ascii.eqb c sep
  | String _ r => ends_with_sep r
  end.

Definition posix_basename (p : string) : string := snd (split_last_sep p).

Definition posix_dirname (p : string) : string :=
  let head := fst (split_last_sep p) in
  if negb (String.eqb head "") && negb (all_sep head) then rstrip_sep head else head.

Definition posix_join (a b : string) : string :=
  match b with
  | String c _ =>
      if Ascii.eqb c sep then b
      else if String.eqb a "" || ends_with_sep a then a +:+ b
      else a +:+ String sep b
  | EmptyString =>
      if String.eqb a "" || ends_with_sep a then a else a +:+ String sep ""
  end.

Definition posixpath : os_path :=
  {| path_join := posix_join; path_dirname := posix_dirname; path_basename := posix_basename |}.

End OsPath.

(* ===================================================================== *)
(** ** vhsgui.pyw: the VHSGui widget *)
(* ===================================================================== *)

Module Gui.
Import Py Json OsPath.

(** [QProcess.ExitStatus] and [QProcess.ProcessState]. *)
Inductive ExitStatus := NormalExit | CrashExit.
Inductive ProcessState := NotRunning | Starting | Running.

(** The part of [QProcess] that the widget reads and writes. The state
    changes when Qt delivers [started], [errorOccurred] or [finished];
    [exitStatus] and [exitCode] are those of the last process that
    finished. *)
Record QProcess := {
  state : ProcessState;
  workingDirectory : string;
  exitStatus : ExitStatus;
  exitCode : Z
}.

Inductive Icon := Critical | Warning | Information.

(** What a slot does to the world outside the widget: a modal message box, a
    call of [ConfigManager.save_config] (a write of [CONFIG_FILE], whose
    [IOError] is swallowed), and the requests to the operating system made
    by [QProcess.start] and [QProcess.kill]. *)
Inductive Effect :=
| MessageBox (icon : Icon) (title text : string)
| SaveConfig (config_data : gmap string json)
| ProcessStart (program : string) (arguments : list string) (cwd : string)
| ProcessKill.

(** The input widgets, which the user edits and the slots read. *)
Record Form := {
  path_decode : string;
  path_export : string;
  input_file : string;
  output_name : string;
  combo_format : string;
  combo_system : string;
  spin_threads : Z;
  combo_freq : string;
  check_recheck : bool
}.

Record VHSGui := {
  form : Form;
  width : Z;
  height : Z;
  config : gmap string json;
  process : QProcess;
  current_step : option string;
  work_dir : string;
  btn_run : bool;
  btn_stop : bool;
  log_output : string
}.

Definition set_config (v : gmap string json) (g : VHSGui) : VHSGui :=
  {| form := form g; width := width g; height := height g; config := v;
     process := process g; current_step := current_step g; work_dir := work_dir g;
     btn_run := btn_run g; btn_stop := btn_stop g; log_output := log_output g |}.

Definition set_process (v : QProcess) (g : VHSGui) : VHSGui :=
  {| form := form g; width := width g; height := height g; config := config g;
     process := v; current_step := current_step g; work_dir := work_dir g;
     btn_run := btn_run g; btn_stop := btn_stop g; log_output := log_output g |}.

Definition set_current_step (v : option string) (g : VHSGui) : VHSGui :=
  {| form := form g; width := width g; height := height g; config := config g;
     process := process g; current_step := v; work_dir := work_dir g;
     btn_run := btn_run g; btn_stop := btn_stop g; log_output := log_output g |}.

Definition set_work_dir (v : string) (g : VHSGui) : VHSGui :=
  {| form := form g; width := width g; height := height g; config := config g;
     process := process g; current_step := current_step g; work_dir := v;
     btn_run := btn_run g; btn_stop := btn_stop g; log_output := log_output g |}.

Definition set_btn_run (v : bool) (g : VHSGui) : VHSGui :=
  {| form := form g; width := width g; height := height g; config := config g;
     process := process g; current_step := current_step g; work_dir := work_dir g;
     btn_run := v; btn_stop := btn_stop g; log_output := log_output g |}.

Definition set_btn_stop (v : bool) (g : VHSGui) : VHSGui :=
  {| form := form g; width := width g; height := height g; config := config g;
     process := process g; current_step := current_step g; work_dir := work_dir g;
     btn_run := btn_run g; btn_stop := v; log_output := log_output g |}.

Definition set_log_output (v : string) (g : VHSGui) : VHSGui :=
  {| form := form g; width := width g; height := height g; config := config g;
     process := process g; current_step := current_step g; work_dir := work_dir g;
     btn_run := btn_run g; btn_stop := btn_stop g; log_output := v |}.

Definition set_form (v : Form) (g : VHSGui) : VHSGui :=
  {| form := v; width := width g; height := height g; config := config g;
     process := process g; current_step := current_step g; work_dir := work_dir g;
     btn_run := btn_run g; btn_stop := btn_stop g; log_output := log_output g |}.

Definition set_size (w h : Z) (g : VHSGui) : VHSGui :=
  {| form := form g; width := w; height := h; config := config g;
     process := process g; current_step := current_step g; work_dir := work_dir g;
     btn_run := btn_run g; btn_stop := btn_stop g; log_output := log_output g |}.

Definition LF : ascii := "010"%char.
Definition CR : ascii := "013"%char.
Definition nl : string := String LF "".
Definition dquote : string := String (ascii_of_nat 34) "".

(** [QProcess.setWorkingDirectory]. *)
Definition setWorkingDirectory (dir : string) (p : QProcess) : QProcess :=
  {| state := state p; workingDirectory := dir;
     exitStatus := exitStatus p; exitCode := exitCode p |}.

(** [QProcess.start]: a process that is not idle is left alone (Qt only
    warns); otherwise the exit fields are reset, the state becomes
    [Starting] and the program is handed to the operating system. *)
Definition QProcess_start (program : string) (arguments : list string) (p : QProcess)
  : QProcess * list Effect :=
  match state p with
  | NotRunning =>
      ({| state := Starting; workingDirectory := workingDirectory p;
          exitStatus := NormalExit; exitCode := 0 |},
       [ProcessStart program arguments (workingDirectory p)])
  | _ => (p, [])
  end.

(** [append_log_text]: the text goes to the end of the log, carriage returns
    replaced by line feeds. *)
Definition safe_text (text : string) : string := replace_char CR LF text.

Definition append_log_text (text : string) (g : VHSGui) : VHSGui :=
  set_log_output (log_output g +:+ safe_text text) g.

(** [closeEvent]. *)
Definition closeEvent (g : VHSGui) : VHSGui * list Effect :=
  let cfg := <["window_width" := JInt (width g)]> (config g) in
  let cfg := <["window_height" := JInt (height g)]> cfg in
  (set_config cfg g, [SaveConfig cfg]).

Section Slots.
Context {os : os_path}.
Variable fs : filesystem.  (* [fs p] is [os.path.exists(p)] *)

(** The argument list of the decode stage. *)
Definition decode_args (f : Form) (input_filename output_arg : string) : list string :=
  let args := ["vhs"] in
  let args := args ++ ["--tape_format"; combo_format f] in
  let args := args ++ ["--system"; combo_system f] in
  let args := args ++ ["--threads"; str_of_int (spin_threads f)] in
  let freq_text := combo_freq f in
  let args :=
    if str_in "28" freq_text then args ++ ["--frequency"; "28"]
    else if str_in "40" freq_text then args ++ ["--frequency"; "40"]
    else args in
  let args := if check_recheck f then args ++ ["--recheck_phase"] else args in
  let args := args ++ [input_filename] in
  args ++ [output_arg].

(** [start_process], the slot of the START button. *)
Definition start_process (g : VHSGui) : VHSGui * list Effect :=
  let decode_exe := strip (path_decode (form g)) in
  let export_exe := strip (path_export (form g)) in
  let input_full_path := strip (input_file (form g)) in
  let output_base_name := strip (output_name (form g)) in
  if negb (fs decode_exe) then
    (g, [MessageBox Critical "Error" ("Decode executable not found:" +:+ nl +:+ decode_exe)])
  else if negb (fs export_exe) then
    (g, [MessageBox Critical "Error" ("Export executable not found:" +:+ nl +:+ export_exe)])
  else if negb (fs input_full_path) then
    (g, [MessageBox Critical "Error" ("Input file not found:" +:+ nl +:+ input_full_path)])
  else if String.eqb output_base_name "" then
    (g, [MessageBox Warning "Error" "Please specify an output name."])
  else
    let cfg := <["decode_path" := JStr decode_exe]> (config g) in
    let cfg := <["tbc_export_path" := JStr export_exe]> cfg in
    let cfg := <["last_input_file" := JStr input_full_path]> cfg in
    let g := set_config cfg g in
    let saved := [SaveConfig cfg] in
    let g := set_work_dir (path_dirname input_full_path) g in
    let input_filename := path_basename input_full_path in
    let output_arg := path_join (work_dir g) output_base_name in
    let g := set_process (setWorkingDirectory (work_dir g) (process g)) g in
    let g := set_btn_run false g in
    let g := set_btn_stop true g in
    let g := set_log_output "" g in
    let g := set_current_step (Some "decode") g in
    let args := decode_args (form g) input_filename output_arg in
    let g := append_log_text
               ("--- STARTING DECODE ---" +:+ nl +:+ "Command: "
                +:+ path_basename decode_exe +:+ " " +:+ join " " args +:+ nl +:+ nl) g in
    let '(p, started) := QProcess_start decode_exe args (process g) in
    (set_process p g, saved ++ started).

(** [kill_process], the slot of the STOP button. [QProcess.kill] asks the
    operating system to end the child and returns; [state()] keeps
    answering [Running] until Qt has seen the child die and delivers
    [finished]. *)
Definition kill_process (g : VHSGui) : VHSGui * list Effect :=
  match state (process g) with
  | Running =>
      (append_log_text (nl +:+ nl +:+ "!!! PROCESS STOPPED BY USER !!!" +:+ nl) g,
       [ProcessKill])
  | _ => (g, [])
  end.

(** [handle_output], on text already decoded from the process output. *)
Definition handle_output (text : string) (g : VHSGui) : VHSGui * list Effect :=
  (append_log_text text g, []).

Definition tbc_filename (g : VHSGui) : string :=
  strip (output_name (form g)) +:+ ".tbc".

Definition export_filename (g : VHSGui) : string :=
  strip (output_name (form g)) +:+ ".tbcexported.mkv".

(** [start_export]. *)
Definition start_export (g : VHSGui) : VHSGui * list Effect :=
  let g := set_current_step (Some "export") g in
  let export_exe := strip (path_export (form g)) in
  let full_tbc_path := path_join (work_dir g) (tbc_filename g) in
  if negb (fs full_tbc_path) then
    let g := append_log_text
               (nl +:+ "Error: Could not find generated file: " +:+ tbc_filename g +:+ nl) g in
    (set_btn_run true g, [])
  else
    let g := set_process (setWorkingDirectory (work_dir g) (process g)) g in
    let args := [tbc_filename g; export_filename g] in
    let g := set_btn_stop true g in
    let g := append_log_text
               ("Command: " +:+ path_basename export_exe +:+ " "
                +:+ dquote +:+ tbc_filename g +:+ dquote +:+ " "
                +:+ dquote +:+ export_filename g +:+ dquote +:+ nl +:+ nl) g in
    let '(p, started) := QProcess_start export_exe args (process g) in
    (set_process p g, started).

(** The file whose presence [process_finished] takes as success. *)
Definition expected_mkv (g : VHSGui) : string :=
  path_join (work_dir g) (export_filename g).

(** [process_finished], the slot of [QProcess.finished]. [None.upper()]
    raises [AttributeError]. *)
Definition process_finished (g : VHSGui) : outcome (VHSGui * list Effect) :=
  let g := set_btn_stop false g in
  match exitStatus (process g) with
  | CrashExit => Return (set_btn_run true g, [])
  | NormalExit =>
      if negb (exitCode (process g) =? 0) then
        match current_step g with
        | None => Raise AttributeError
        | Some step =>
            let g := append_log_text
                       (nl +:+ "!!! " +:+ upper step +:+ " FAILED (Exit Code "
                        +:+ str_of_int (exitCode (process g)) +:+ ") !!!" +:+ nl) g in
            Return (set_btn_run true g, [])
        end
      else if bool_decide (current_step g = Some "decode") then
        let g := append_log_text
                   (nl +:+ nl +:+ "--- DECODE COMPLETE. STARTING EXPORT ---" +:+ nl) g in
        Return (start_export g)
      else if bool_decide (current_step g = Some "export") then
        let '(g, shown) :=
          if fs (expected_mkv g) then
            (append_log_text
               (nl +:+ nl +:+ "--- ALL TASKS COMPLETED SUCCESSFULLY ---" +:+ nl) g,
             [MessageBox Information "Success" "Workflow Finished!"])
          else
            (append_log_text
               (nl +:+ nl +:+ "!!! ERROR: Output file not found !!!" +:+ nl
                +:+ "Expected: " +:+ expected_mkv g +:+ nl
                +:+ "Check log for errors above.") g,
             [MessageBox Warning "Export Failed"
                "The process finished, but the output .mkv file is missing."]) in
        let g := set_btn_run true g in
        Return (set_current_step None g, shown)
      else Return (g, [])
  end.

End Slots.

(** *** The event loop *)

(** What Qt delivers to the widget: clicks on the two buttons, output of the
    process, the three notifications of [QProcess], edits of the input
    widgets, resizes, and the request to close the window. *)
Inductive Event :=
| RunClicked
| StopClicked
| ReadyRead (text : string)
| ProcStarted
| ProcFailedToStart
| ProcFinished (status : ExitStatus) (code : Z)
| FormEdited (f : Form)
| Resized (w h : Z)
| CloseRequested.

Definition set_state (s : ProcessState) (p : QProcess) : QProcess :=
  {| state := s; workingDirectory := workingDirectory p;
     exitStatus := exitStatus p; exitCode := exitCode p |}.

(** The process object once Qt has reaped the child. *)
Definition finished (status : ExitStatus) (code : Z) (p : QProcess) : QProcess :=
  {| state := NotRunning; workingDirectory := workingDirectory p;
     exitStatus := status; exitCode := code |}.

(** One turn of the event loop, on the file system as it is at that moment.
    A disabled button emits no click; [started] and [finished] follow the
    states of [QProcess]; no slot is connected to [errorOccurred]. *)
Definition dispatch {os : os_path} (fs : filesystem) (ev : Event) (g : VHSGui)
  : outcome (VHSGui * list Effect) :=
  match ev with
  | RunClicked => Return (if btn_run g then start_process fs g else (g, []))
  | StopClicked => Return (if btn_stop g then kill_process g else (g, []))
  | ReadyRead text => Return (handle_output text g)
  | ProcStarted =>
      match state (process g) with
      | Starting => Return (set_process (set_state Running (process g)) g, [])
      | _ => Return (g, [])
      end
  | ProcFailedToStart =>
      match state (process g) with
      | Starting => Return (set_process (set_state NotRunning (process g)) g, [])
      | _ => Return (g, [])
      end
  | ProcFinished status code =>
      match state (process g) with
      | Running => process_finished fs (set_process (finished status code (process g)) g)
      | _ => Return (g, [])
      end
  | FormEdited f => Return (set_form f g, [])
  | Resized w h => Return (set_size w h g, [])
  | CloseRequested => Return (closeEvent g)
  end.

(** A session: the events in order, each with the file system of its
    moment; the effects are collected in order. *)
Fixpoint session {os : os_path} (evs : list (filesystem * Event)) (g : VHSGui)
  : outcome (VHSGui * list Effect) :=
  match evs with
  | [] => Return (g, [])
  | (fs, ev) :: rest =>
      '(g1, out1) ← dispatch fs ev g;
      '(g2, out2) ← session rest g1;
      Return (g2, out1 ++ out2)
  end.

Definition QProcess_new : QProcess :=
  {| state := NotRunning; workingDirectory := ""; exitStatus := NormalExit; exitCode := 0 |}.

(** The widget as [__init__] leaves it, for the configuration [cfg] that was
    loaded and the input widgets [f] as [init_ui] and
    [auto_locate_executables] filled them. *)
Definition init (cfg : gmap string json) (f : Form) (w h : Z) : VHSGui :=
  {| form := f; width := w; height := h; config := cfg; process := QProcess_new;
     current_step := None; work_dir := ""; btn_run := true; btn_stop := false;
     log_output := "" |}.

(** *** Vocabulary of the specification *)

(** A stage exits with code [c]: Qt reports that the process ended by itself
    and returned [c] (a process that crashed or was killed is reported with
    [CrashExit], and Qt gives its [exitCode] no meaning). *)
Definition exit_with (c : Z) : Event := ProcFinished NormalExit c.

(** The stage [step] is running. *)
Definition stage_running (step : string) (g : VHSGui) : Prop :=
  state (process g) = Running ∧ current_step g = Some step.

Definition is_message (e : Effect) : bool :=
  match e with MessageBox _ _ _ => true | _ => false end.

(** Something new is shown to the user: text in the log or a message box. *)
Definition surfaced (g g' : VHSGui) (out : list Effect) : Prop :=
  log_output g' ≠ log_output g ∨ Exists (λ e, is_message e = true) out.

(** The workflow is reported to have succeeded. *)
Definition success_reported (out : list Effect) : Prop :=
  MessageBox Information "Success" "Workflow Finished!" ∈ out.

(** The workflow is reported to have failed at the export stage. *)
Definition export_failure_reported (out : list Effect) : Prop :=
  MessageBox Warning "Export Failed"
    "The process finished, but the output .mkv file is missing." ∈ out.

(** While a process is starting or running, the widget knows which stage it
    belongs to. *)
Definition stage_known (g : VHSGui) : Prop :=
  state (process g) ≠ NotRunning →
  current_step g = Some "decode" ∨ current_step g = Some "export".

(** The preconditions of a run request. *)
Definition run_preconditions (fs : filesystem) (f : Form) : bool :=
  fs (strip (path_decode f)) && fs (strip (path_export f))
  && fs (strip (input_file f)) && negb (String.eqb (strip (output_name f)) "").

End Gui.

(* ===================================================================== *)
(** ** cxcheck.pyw *)
(* ===================================================================== *)

Module CxCheck.
Import Py.

Definition SYNC_THRESHOLD : Z := 60.

(** *** Device detection *)

Definition backslash : string := String (ascii_of_nat 92) "".

(** [f'\\\\.\\cxadc{dev}'] *)
Definition device_path (dev : Z) : string :=
  backslash +:+ backslash +:+ "." +:+ backslash +:+ "cxadc" +:+ str_of_int dev.

Definition test_cmd (dev : Z) : list string :=
  [ "ffmpeg"; "-hide_banner"; "-f"; "rawvideo"; "-pixel_format"; "gray8";
    "-video_size"; "16x16"; "-i"; device_path dev; "-t"; "0.1"; "-f"; "null"; "-" ].

(** What [subprocess.Popen(test_cmd, ...)] followed by [proc.stderr.read()]
    gives: the text of the error channel, or an exception (no ffmpeg on the
    path, text that cannot be decoded). *)
Inductive probe :=
| Stderr (text : string)
| Fails (e : exc).

Definition marker : string := "no such file".

(** The body of the loop: [detected.append(dev)] unless the lowered error
    text holds the marker; the bare [except] drops every failure. *)
Definition detect_step (popen : list string → probe) (detected : list Z) (dev : Z) : list Z :=
  match popen (test_cmd dev) with
  | Stderr text =>
      let stderr := lower text in
      if negb (str_in marker stderr) then detected ++ [dev] else detected
  | Fails _ => detected
  end.

Definition detect_cxadc_devices (popen : list string → probe) (max_devices : Z) : list Z :=
  foldl (detect_step popen) [] (range max_devices).

(** The test of the loop body. *)
Definition kept (popen : list string → probe) (dev : Z) : bool :=
  match popen (test_cmd dev) with
  | Stderr text => negb (str_in marker (lower text))
  | Fails _ => false
  end.

(** The error text of a probe holds the marker, in any letter case. *)
Definition has_marker (text : string) : Prop :=
  ∃ before after, lower text = before +:+ marker +:+ after.

(** *** The pattern [lavfi\.signalstats\.YMIN=([0-9\.]+)] *)

Definition is_digit (c : ascii) : bool :=
  let n := nat_of_ascii c in ((48 <=? n) && (n <=? 57))%nat.

Definition in_class (c : ascii) : bool := is_digit c || Ascii.eqb c "."%char.

(** The longest prefix made of digits and dots. *)
Fixpoint take_class (s : string) : string :=
  match s with
  | EmptyString => EmptyString
  | String c r => if in_class c then String c (take_class r) else EmptyString
  end.

Fixpoint all_in_class (s : string) : bool :=
  match s with
  | EmptyString => true
  | String c r => in_class c && all_in_class r
  end.

(** A match of the pattern at the start of [s]: group 1. *)
Definition match_here (s : string) : option string :=
  match strip_prefix "lavfi.signalstats.YMIN=" s with
  | Some rest =>
      match take_class rest with
      | EmptyString => None
      | group => Some group
      end
  | None => None
  end.

(** [pattern.search(line)]: group 1 of the leftmost match. *)
Fixpoint search (line : string) : option string :=
  match match_here line with
  | Some group => Some group
  | None =>
      match line with
      | EmptyString => None
      | String _ r => search r
      end
  end.

(** *** [float] on the text the pattern captures

    A float is a binary64 number, decoded ([spec_float]). *)

Definition prec : Z := 53.
Definition emax : Z := 1024.

(** Leading digits of [s] appended to the digits already read: the number
    read so far, how many digits were added, and what follows them. *)
Fixpoint read_digits (s : string) (acc : Z) (count : nat) : Z * nat * string :=
  match s with
  | EmptyString => (acc, count, s)
  | String c r =>
      if is_digit c then read_digits r (10 * acc + (Z.of_nat (nat_of_ascii c) - 48)) (S count)
      else (acc, count, s)
  end.

(** The binary64 number nearest to [n / 10^k], ties to even. *)
Definition decimal (n : Z) (k : nat) : spec_float :=
  match n with
  | Zpos p => SFdiv prec emax (S754_finite false p 0) (S754_finite false (Z.to_pos (10 ^ Z.of_nat k)) 0)
  | _ => S754_zero false
  end.

(** [float(s)] for a text of digits and dots: digits with at most one dot
    among them; anything else is a [ValueError]. *)
Definition float_of_str (s : string) : outcome spec_float :=
  let '(n, ni, rest) := read_digits s 0 0 in
  match rest with
  | EmptyString => if (ni =? 0)%nat then Raise ValueError else Return (decimal n 0)
  | String c rest =>
      if Ascii.eqb c "."%char then
        let '(n, nf, rest) := read_digits rest n 0 in
        match rest with
        | EmptyString =>
            if (ni + nf =? 0)%nat then Raise ValueError else Return (decimal n nf)
        | _ => Raise ValueError
        end
      else Raise ValueError
  end.

(** The number that a float stands for is below the integer [n]; no number
    is attached to NaN, and the infinities are beyond every integer. *)
Definition float_below (x : spec_float) (n : Z) : Prop :=
  match x with
  | S754_zero _ => 0 < n
  | S754_infinity s => s = true
  | S754_nan => False
  | S754_finite s m e =>
      let v := if s then Z.neg m else Z.pos m in
      if 0 <=? e then v * 2 ^ e < n else v < n * 2 ^ (- e)
  end.

(** The floats that [float] returns on digits and dots: zero, a positive
    binary64 number in canonical form, or infinity when the text is beyond
    the largest of them. *)
Definition nonneg_float (x : spec_float) : Prop :=
  match x with
  | S754_zero s | S754_infinity s => s = false
  | S754_nan => False
  | S754_finite s m e => s = false ∧ bounded prec emax m e = true
  end.

(** [float(n)] for an int [n], and [x < n] for a float [x] and an int [n]
    that binary64 holds exactly. *)
Definition float_of_int (n : Z) : spec_float := binary_normalize prec emax n 0 false.

Definition float_lt_int (x : spec_float) (n : Z) : bool :=
  SFltb x (float_of_int n).

(** *** DeviceMonitorWorker *)

(** The arguments of [stats_update.emit]: a Signal Sample. *)
Record Sample := {
  sample_device : Z;
  sample_ymin : spec_float;
  sample_has_signal : bool
}.

(** The metric read from one line of the error channel, if the line has
    one: lines without the marker are skipped, lines that the pattern does
    not match are ignored, and a [ValueError] of [float] is dropped. *)
Definition extract_metric (line : string) : option spec_float :=
  if negb (str_in "lavfi.signalstats.YMIN" line) then None
  else
    match search line with
    | Some group =>
        match float_of_str group with
        | Return ymin => Some ymin
        | Raise _ => None
        end
    | None => None
    end.

(** What the loop body of [run] emits for one line. *)
Definition monitor_line (device_id : Z) (line : string) : option Sample :=
  match extract_metric line with
  | Some ymin =>
      let has_signal := float_lt_int ymin SYNC_THRESHOLD in
      Some {| sample_device := device_id; sample_ymin := ymin;
              sample_has_signal := has_signal |}
  | None => None
  end.

(** The child process behind a [subprocess.Popen] handle, as far as
    [stop_process] can tell: whether it has exited already, and whether it
    exits within the one second that [wait] allows after [terminate]. *)
Record Popen := {
  exited : bool;
  exits_in_time : bool
}.

(** The requests that reach the child. *)
Inductive Action := Terminate | Kill.

Record Worker := {
  device_id : Z;
  is_running : bool;
  process : option Popen
}.

(** [Popen.terminate] and [Popen.kill] return at once when the child has
    exited; [Popen.wait(timeout=1)] raises when it is still there after the
    second. *)
Definition terminate (p : Popen) : list Action :=
  if exited p then [] else [Terminate].

Definition kill (p : Popen) : list Action :=
  if exited p then [] else [Kill].

Definition wait (p : Popen) : outcome unit :=
  if exited p || exits_in_time p then Return tt else Raise TimeoutExpired.

(** [stop_process]. *)
Definition stop_process (w : Worker) : Worker * list Action :=
  let w := {| device_id := device_id w; is_running := false; process := process w |} in
  match process w with
  | Some p =>
      let done :=
        terminate p ++
        match wait p with
        | Return _ => []
        | Raise _ => kill p
        end in
      ({| device_id := device_id w; is_running := is_running w; process := None |}, done)
  | None => (w, [])
  end.

(** The loop of [run] over the lines of the error channel; each line comes
    with the value of [is_running] that the loop reads when it arrives. *)
Fixpoint monitor_loop (device_id : Z) (stderr : list (bool * string)) : list Sample :=
  match stderr with
  | [] => []
  | (running, line) :: rest =>
      if negb running then []
      else
        match monitor_line device_id line with
        | Some s => s :: monitor_loop device_id rest
        | None => monitor_loop device_id rest
        end
  end.

(** [run]: [spawn] is what [subprocess.Popen(ffmpeg_cmd, ...)] gives. An
    exception is swallowed, and [stop_process] runs in every case. *)
Definition run (w : Worker) (spawn : outcome Popen) (stderr : list (bool * string))
  : Worker * list Sample * list Action :=
  match spawn with
  | Return p =>
      let w := {| device_id := device_id w; is_running := is_running w; process := Some p |} in
      let emitted := monitor_loop (device_id w) stderr in
      let '(w, done) := stop_process w in
      (w, emitted, done)
  | Raise _ =>
      let '(w, done) := stop_process w in
      (w, [], done)
  end.

End CxCheck.


(* ===================================================================== *)
(** ** Scenarios *)
(* ===================================================================== *)

(** The example of the specification: input file [tape1.u8], output base
    [tape1], on a POSIX system. *)
Module Scenario.
Import Py Json OsPath Gui.

Definition form0 : Form :=
  {| path_decode := "/opt/vhs/decode.exe";
     path_export := "/opt/vhs/tbc-video-export.exe";
     input_file := "/caps/tape1.u8";
     output_name := "tape1";
     combo_format := "vhs"; combo_system := "pal"; spin_threads := 8;
     combo_freq := "Auto"; check_recheck := true |}.

(** File systems: nothing is there; the tools and the capture only; those
    and the decoded [.tbc]. *)
Definition nothing : filesystem := λ _, false.

Definition inputs : filesystem := λ p,
  bool_decide (p ∈ ["/opt/vhs/decode.exe"; "/opt/vhs/tbc-video-export.exe"; "/caps/tape1.u8"]).

Definition decoded : filesystem := λ p,
  inputs p || String.eqb p "/caps/tape1.tbc".

(** All the files of the run are there. *)
Definition exported : filesystem := λ p,
  decoded p || String.eqb p "/caps/tape1.tbcexported.mkv".

(** The files of another tape are there: its [.tbc] besides the tools and
    the capture; its [.mkv] besides the decoded file. *)
Definition stray_tbc : filesystem := λ p,
  inputs p || String.eqb p "/caps/tape2.tbc".

Definition stray_mkv : filesystem := λ p,
  decoded p || String.eqb p "/caps/tape2.tbcexported.mkv".

Definition idle : VHSGui := init Config.defaults form0 900 750.

(** The widget after the events [evs], or unchanged if a slot raised. *)
Definition after (evs : list (filesystem * Event)) (g : VHSGui) : VHSGui :=
  match session (os := posixpath) evs g with
  | Return (g', _) => g'
  | Raise _ => g
  end.

(** What the events [evs] show and do, in order. *)
Definition shown (evs : list (filesystem * Event)) (g : VHSGui) : list Effect :=
  match session (os := posixpath) evs g with
  | Return (_, out) => out
  | Raise _ => []
  end.

(** The decode stage is running, the export stage is running. *)
Definition decoding : VHSGui :=
  after [(inputs, RunClicked); (inputs, ProcStarted)] idle.

Definition exporting : VHSGui :=
  after [(decoded, exit_with 0); (decoded, ProcStarted)] decoding.

(** A monitor whose ffmpeg ignores the request to terminate. *)
Definition stubborn : CxCheck.Worker :=
  {| CxCheck.device_id := 0; CxCheck.is_running := true;
     CxCheck.process := Some {| CxCheck.exited := false; CxCheck.exits_in_time := false |} |}.

(** Probes of four devices: the second and the fourth are not there, and
    ffmpeg says so in different letter cases. A probe is told by the
    device that its command names. *)
Definition four_probes (cmd : list string) : CxCheck.probe :=
  if bool_decide ("\\.\cxadc1" ∈ cmd) then
    CxCheck.Stderr "Error opening input: No such file or directory"
  else if bool_decide ("\\.\cxadc3" ∈ cmd) then
    CxCheck.Stderr "NO SUCH FILE"
  else CxCheck.Stderr "Input #0, rawvideo, from cxadc".

End Scenario.

(* ===================================================================== *)
(** ** vhsgui.pyw: saving the configuration *)
(* ===================================================================== *)

Module Store.
Import Py Json Config.

(** What happens to the write of [save_config]: the file is opened and the
    whole record is written; [open] refuses with an [OSError]; or the
    writing stops half way with an [OSError]. *)
Inductive write :=
| Written
| OpenRefused
| WriteBroken.

(** [ConfigManager.save_config]: the file afterwards. [json.load] reads
    back the value that [json.dump] wrote; a file that was opened for
    writing and not completed holds no JSON text, since the closing brace
    of the record comes last. The [IOError] is swallowed in both cases. *)
Definition save_config (w : write) (config_data : gmap string json) (disk : config_file)
  : config_file :=
  match w with
  | Written => Holds (JDict config_data)
  | OpenRefused => disk
  | WriteBroken => Malformed
  end.

(** The names of the five recognised keys. *)
Definition default_keys : list string := defaults_items.*1.

(** A record holds every recognised key. *)
Definition complete (m : gmap string json) : Prop :=
  ∀ key, key ∈ default_keys → is_Some (m !! key).

Definition is_dict (data : json) : bool :=
  match data with
  | JDict _ => true
  | _ => false
  end.

(** A JSON value in which Python finds every recognised key with [in]. *)
Definition holds_all_keys (data : json) : Prop :=
  ∀ key, key ∈ default_keys → contains data key = Return true.

End Store.

(* ===================================================================== *)
(** ** vhsgui.pyw: what holds of the widget during a session *)
(* ===================================================================== *)

Module Session.
Import Py Json OsPath Gui.

(** The text holds no carriage return. *)
Fixpoint no_cr (s : string) : bool :=
  match s with
  | EmptyString => true
  | String c r => negb (Ascii.eqb c CR) && no_cr r
  end.

(** The buttons, the process and the recorded stage agree: the START
    button is enabled only while no process is there; while a process is
    starting or running, the STOP button is enabled and the stage is
    recorded; the process works in [work_dir]; and the log holds no carriage
    return. *)
Definition consistent (g : VHSGui) : Prop :=
  (btn_run g = true → state (process g) = NotRunning)
  ∧ (state (process g) ≠ NotRunning →
     btn_stop g = true
     ∧ (current_step g = Some "decode" ∨ current_step g = Some "export"))
  ∧ workingDirectory (process g) = work_dir g
  ∧ no_cr (log_output g) = true.

(** The widget is stuck: no process, and the START button disabled. *)
Definition wedged (g : VHSGui) : Prop :=
  btn_run g = false ∧ state (process g) = NotRunning.

(** A process is started among the effects. *)
Definition starts (out : list Effect) : Prop :=
  ∃ program args cwd, ProcessStart program args cwd ∈ out.

(** The events that can change the form or the working directory: an edit
    of a field, and a click on START. *)
Definition edits (ev : Event) : bool :=
  match ev with
  | FormEdited _ | RunClicked => true
  | _ => false
  end.

(** [posixpath.isabs]: the path starts with a slash. *)
Definition is_abs (p : string) : bool :=
  match p with
  | String c _ => Ascii.eqb c sep
  | EmptyString => false
  end.

(** The text that [kill_process] adds to the log. *)
Definition stop_message : string :=
  nl +:+ nl +:+ "!!! PROCESS STOPPED BY USER !!!" +:+ nl.

End Session.

(* ===================================================================== *)
(** ** cxcheck.pyw: the rows and the main window *)
(* ===================================================================== *)

Module Monitor.
Import Py CxCheck.

(** *** Texts of digits and dots *)

Fixpoint count_dots (s : string) : nat :=
  match s with
  | EmptyString => 0
  | String c r => (if Ascii.eqb c "."%char then 1 else 0) + count_dots r
  end.

Fixpoint has_digit (s : string) : bool :=
  match s with
  | EmptyString => false
  | String c r => is_digit c || has_digit r
  end.

(** The number of leading digits, and what follows them. *)
Fixpoint count_leading (s : string) : nat :=
  match s with
  | EmptyString => 0
  | String c r => if is_digit c then S (count_leading r) else 0
  end.

Fixpoint skip_digits (s : string) : string :=
  match s with
  | EmptyString => s
  | String c r => if is_digit c then skip_digits r else s
  end.

(** The lines of the error channel, each read while [is_running] holds. *)
Definition running (lines : list string) : list (bool * string) :=
  (λ line, (true, line)) <$> lines.

(** *** [DeviceRow] *)

(** [int(x)] for a float [x]: the number with its fraction dropped; an
    infinity gives [OverflowError] and NaN gives [ValueError]. *)
Inductive failure :=
| OverflowError
| NanValueError.

Inductive result (A : Type) :=
| Done (a : A)
| Failed (e : failure).
Arguments Done {A} a.
Arguments Failed {A} e.

Definition int_of_float (x : spec_float) : result Z :=
  match x with
  | S754_zero _ => Done 0
  | S754_infinity _ => Failed OverflowError
  | S754_nan => Failed NanValueError
  | S754_finite s m e =>
      let magnitude := if 0 <=? e then Z.pos m * 2 ^ e else Z.pos m / 2 ^ (- e) in
      Done (if s then - magnitude else magnitude)
  end.

Record DeviceRow := {
  row_device : Z;
  lbl_name : string;
  lbl_status : string;
  status_style : string;
  lbl_value : string;
  progress : Z
}.

Definition SIGNAL : string := "● SIGNAL".
Definition NO_SIGNAL : string := "○ NO SIGNAL".

(** [DeviceRow(device_id)]: [setRange(0, 255)] resets the bar, whose value
    is then one below the minimum. *)
Definition DeviceRow_new (device_id : Z) : DeviceRow :=
  {| row_device := device_id;
     lbl_name := "cxadc" +:+ str_of_int device_id;
     lbl_status := "WAITING...";
     status_style := "background-color: gray; color: white; border-radius: 4px;";
     lbl_value := "YMIN: --";
     progress := -1 |}.

(** [QProgressBar.setValue] on a bar of range 0 to 255: a value outside
    the range has no effect, and a value that is no C [int] is refused. *)
Definition setValue (value : Z) (row : DeviceRow) : result DeviceRow :=
  if negb ((-2147483648 <=? value) && (value <=? 2147483647)) then Failed OverflowError
  else if (0 <=? value) && (value <=? 255) then
    Done {| row_device := row_device row; lbl_name := lbl_name row;
            lbl_status := lbl_status row; status_style := status_style row;
            lbl_value := lbl_value row; progress := value |}
  else Done row.

(** [update_data]. *)
Definition update_data (ymin : spec_float) (has_signal : bool) (row : DeviceRow)
  : result DeviceRow :=
  match int_of_float ymin with
  | Failed e => Failed e
  | Done n =>
      let row := {| row_device := row_device row; lbl_name := lbl_name row;
                    lbl_status := lbl_status row; status_style := status_style row;
                    lbl_value := "YMIN: " +:+ str_of_int n; progress := progress row |} in
      let bar_val := Z.max 0 (255 - n) in
      match setValue bar_val row with
      | Failed e => Failed e
      | Done row =>
          if has_signal then
            Done {| row_device := row_device row; lbl_name := lbl_name row;
                    lbl_status := SIGNAL;
                    status_style := "background-color: #2e7d32; color: white; border-radius: 4px; font-weight: bold;";
                    lbl_value := lbl_value row; progress := progress row |}
          else
            Done {| row_device := row_device row; lbl_name := lbl_name row;
                    lbl_status := NO_SIGNAL;
                    status_style := "background-color: #c62828; color: white; border-radius: 4px;";
                    lbl_value := lbl_value row; progress := progress row |}
      end
  end.

(** *** [MainWindow] *)

(** What the scroll area shows, top down: a text or the row of a device. *)
Inductive Widget :=
| Label (text : string)
| RowOf (device_id : Z).

Record MainWindow := {
  workers : list Worker;
  device_rows : gmap Z DeviceRow;
  container_layout : list Widget
}.

Definition MainWindow_new : MainWindow :=
  {| workers := []; device_rows := ∅; container_layout := [] |}.

(** [DeviceMonitorWorker(dev_id)]. *)
Definition DeviceMonitorWorker (device_id : Z) : Worker :=
  {| device_id := device_id; is_running := true; process := None |}.

(** The body of the loop of [init_devices]. *)
Definition add_device (w : MainWindow) (dev_id : Z) : MainWindow :=
  {| workers := workers w ++ [DeviceMonitorWorker dev_id];
     device_rows := <[dev_id := DeviceRow_new dev_id]> (device_rows w);
     container_layout := container_layout w ++ [RowOf dev_id] |}.

(** [init_devices]. *)
Definition init_devices (popen : list string → probe) (w : MainWindow) : MainWindow :=
  let devices := detect_cxadc_devices popen 8 in
  match devices with
  | [] =>
      {| workers := workers w; device_rows := device_rows w;
         container_layout := container_layout w ++ [Label "No cxadc devices found."] |}
  | _ => foldl add_device w devices
  end.

(** [handle_update], the slot of [stats_update]. *)
Definition handle_update (s : Sample) (w : MainWindow) : result MainWindow :=
  match device_rows w !! sample_device s with
  | Some row =>
      match update_data (sample_ymin s) (sample_has_signal s) row with
      | Done row =>
          Done {| workers := workers w;
                  device_rows := <[sample_device s := row]> (device_rows w);
                  container_layout := container_layout w |}
      | Failed e => Failed e
      end
  | None => Done w
  end.

(** The slot on the samples that reach it, one after the other; the first
    failure ends the run of the application. *)
Fixpoint handle_all (samples : list Sample) (w : MainWindow) : result MainWindow :=
  match samples with
  | [] => Done w
  | s :: rest =>
      match handle_update s w with
      | Done w => handle_all rest w
      | Failed e => Failed e
      end
  end.

End Monitor.

(* ===================================================================== *)
(** ** Further scenarios *)
(* ===================================================================== *)

Module Cases.
Import Py Json OsPath Gui CxCheck Monitor Scenario.

(** The tool writes a progress line that ends in a carriage return. *)
Definition progress_events : list (filesystem * Event) :=
  [ (inputs, RunClicked); (inputs, ProcStarted);
    (inputs, ReadyRead ("frame 1" +:+ String CR "frame 2")) ].

(** The decode tool cannot be started; the user then clicks START and
    STOP. *)
Definition launching : VHSGui := after [(inputs, RunClicked)] idle.

Definition clicks : list (filesystem * Event) :=
  [ (inputs, RunClicked); (inputs, StopClicked) ].

(** A line of ffmpeg's [metadata=mode=print] filter, and the sample that
    the monitor of device 0 makes of it. *)
Definition dark_line : string :=
  "[Parsed_metadata_3 @ 0x5581] lavfi.signalstats.YMIN=16".

Definition sample_of (line : string) : Sample :=
  default {| sample_device := 0; sample_ymin := S754_nan; sample_has_signal := false |}
          (monitor_line 0 line).

(** A metric of 310 digits. *)
Fixpoint zeros (n : nat) : string :=
  match n with
  | O => EmptyString
  | S n => String "0" (zeros n)
  end.

Definition huge_line : string := "lavfi.signalstats.YMIN=1" +:+ zeros 309.

(** Fields with white space beyond code point 127 around them: a no-break
    space (C2 A0) after the output name, an ideographic space (E3 80 80)
    before the path of the decode tool; and an output name that is a
    no-break space only. *)
Definition nbsp : string := String (ascii_of_nat 194) (String (ascii_of_nat 160) "").
Definition wide_space : string :=
  String (ascii_of_nat 227) (String (ascii_of_nat 128) (String (ascii_of_nat 128) "")).

Definition padded_form : Form :=
  {| path_decode := wide_space +:+ "/opt/vhs/decode.exe";
     path_export := "/opt/vhs/tbc-video-export.exe" +:+ nbsp;
     input_file := " /caps/tape1.u8";
     output_name := "tape1" +:+ nbsp;
     combo_format := "vhs"; combo_system := "pal"; spin_threads := 8;
     combo_freq := "Auto"; check_recheck := true |}.

Definition blank_name_form : Form :=
  {| path_decode := "/opt/vhs/decode.exe";
     path_export := "/opt/vhs/tbc-video-export.exe";
     input_file := "/caps/tape1.u8";
     output_name := nbsp;
     combo_format := "vhs"; combo_system := "pal"; spin_threads := 8;
     combo_freq := "Auto"; check_recheck := true |}.

(** The capture is named by a relative path with a directory part. *)
Definition relative_form : Form :=
  {| path_decode := "/opt/vhs/decode.exe";
     path_export := "/opt/vhs/tbc-video-export.exe";
     input_file := "caps/tape1.u8";
     output_name := "tape1";
     combo_format := "vhs"; combo_system := "pal"; spin_threads := 8;
     combo_freq := "Auto"; check_recheck := true |}.

(** The window of the four probes, and the same window after a first
    sample of device 0. *)
Definition window : MainWindow := init_devices four_probes MainWindow_new.

Definition window_later : MainWindow :=
  match handle_all [sample_of dark_line] window with
  | Done w => w
  | Failed _ => window
  end.

End Cases.
(* ===================================================================== *)
(** * Properties *)
(* ===================================================================== *)

(** ** The workflow sequencer *)

Section GuiSpec.
Import Py Json OsPath Gui.
Context {os : os_path}.
Implicit Types (g : VHSGui) (ev : Event) (out : list Effect) (fs : filesystem).

Lemma QProcess_start_cases program args p :
  (state p = NotRunning ∧
   QProcess_start program args p =
     ({| state := Starting; workingDirectory := workingDirectory p;
         exitStatus := NormalExit; exitCode := 0 |},
      [ProcessStart program args (workingDirectory p)]))
  ∨ (state p ≠ NotRunning ∧ QProcess_start program args p = (p, [])).
Proof. unfold QProcess_start. destruct (state p); naive_solver. Qed.

(** The three ways in which [start_export] and hence a successful decode
    stage can end. *)
Lemma start_export_missing fs g :
  fs (path_join (work_dir g) (tbc_filename g)) = false →
  start_export fs g =
    (set_btn_run true
       (append_log_text
          (nl +:+ "Error: Could not find generated file: " +:+ tbc_filename g +:+ nl)
          (set_current_step (Some "export") g)), []).
Proof.
  intros H. unfold start_export. cbv zeta.
  destruct (fs _) eqn:E; [|done]. cbn in *. congruence.
Qed.

Lemma start_export_step fs g :
  current_step (start_export fs g).1 = Some "export".
Proof.
  unfold start_export, QProcess_start. cbv zeta.
  destruct (fs _); cbn [negb]; [|reflexivity].
  by destruct (state _).
Qed.

Lemma process_finished_cases fs g :
  match exitStatus (process g), bool_decide (exitCode (process g) = 0) with
  | CrashExit, _ =>
      process_finished fs g = Return (set_btn_run true (set_btn_stop false g), [])
  | NormalExit, false =>
      match current_step g with
      | Some step =>
          process_finished fs g =
            Return (set_btn_run true
                      (append_log_text
                         (nl +:+ "!!! " +:+ upper step +:+ " FAILED (Exit Code "
                          +:+ str_of_int (exitCode (process g)) +:+ ") !!!" +:+ nl)
                         (set_btn_stop false g)), [])
      | None => process_finished fs g = Raise AttributeError
      end
  | NormalExit, true =>
      if bool_decide (current_step g = Some "decode") then
        process_finished fs g =
          Return (start_export fs
                    (append_log_text
                       (nl +:+ nl +:+ "--- DECODE COMPLETE. STARTING EXPORT ---" +:+ nl)
                       (set_btn_stop false g)))
      else if bool_decide (current_step g = Some "export") then
        ∃ g', process_finished fs g = Return (g', [
          if fs (expected_mkv g)
          then MessageBox Information "Success" "Workflow Finished!"
          else MessageBox Warning "Export Failed"
                 "The process finished, but the output .mkv file is missing." ])
          ∧ btn_run g' = true ∧ btn_stop g' = false ∧ current_step g' = None
          ∧ process g' = process g
      else process_finished fs g = Return (set_btn_stop false g, [])
  end.
Proof.
  unfold process_finished. cbv zeta.
  change (exitStatus (process (set_btn_stop false g))) with (exitStatus (process g)).
  change (exitCode (process (set_btn_stop false g))) with (exitCode (process g)).
  change (current_step (set_btn_stop false g)) with (current_step g).
  destruct (exitStatus (process g)); [|done].
  case_bool_decide as Hc.
  - rewrite Hc. cbn [Z.eqb negb].
    case_bool_decide; [done|]. case_bool_decide; [|done].
    change (expected_mkv (set_btn_stop false g)) with (expected_mkv g).
    destruct (fs (expected_mkv g)); eexists; (split; [reflexivity|done]).
  - apply Z.eqb_neq in Hc. rewrite Hc. cbn [negb]. by destruct (current_step g).
Qed.

Local Ltac rejected :=
  left; split; [done|]; do 2 eexists; split; [|reflexivity]; done.

(** What [start_process] emits: one message box when a precondition fails,
    otherwise a save of the configuration followed by at most one start. *)
Lemma start_process_out fs g :
  (run_preconditions fs (form g) = false ∧
   ∃ icon text, icon ≠ Information ∧
     start_process fs g = (g, [MessageBox icon "Error" text]))
  ∨ (run_preconditions fs (form g) = true ∧
     ∃ cfg started,
       (start_process fs g).2 = SaveConfig cfg :: started ∧
       current_step (start_process fs g).1 = Some "decode" ∧
       (started = [] ∨ ∃ program args cwd, started = [ProcessStart program args cwd])).
Proof.
  unfold run_preconditions, start_process.
  destruct (fs (strip (path_decode (form g)))); cbn [negb andb]; [|by rejected].
  destruct (fs (strip (path_export (form g)))); cbn [negb andb]; [|by rejected].
  destruct (fs (strip (input_file (form g)))); cbn [negb andb]; [|by rejected].
  destruct (String.eqb (strip (output_name (form g))) ""); cbn [negb]; [by rejected|].
  right. split; [done|]. cbv zeta. unfold QProcess_start.
  destruct (state _); cbn; eauto 10.
Qed.

Lemma kill_process_out g :
  (state (process g) = Running ∧ (kill_process g).2 = [ProcessKill])
  ∨ (state (process g) ≠ Running ∧ kill_process g = (g, [])).
Proof. unfold kill_process. destruct (state (process g)); naive_solver. Qed.

Lemma start_export_out fs g :
  (start_export fs g).2 = [] ∨
  (fs (path_join (work_dir g) (tbc_filename g)) = true ∧
   ∃ cwd, (start_export fs g).2 =
     [ProcessStart (strip (path_export (form g))) [tbc_filename g; export_filename g] cwd]).
Proof.
  unfold start_export, QProcess_start. cbv zeta.
  destruct (fs _) eqn:E; cbn [negb]; [|by left].
  destruct (state _); cbn; eauto.
Qed.

(** [dispatch] on the end of a process: the slot runs on the process object
    that Qt has updated, and only for a process that was running. *)
Lemma dispatch_finished fs status code g :
  dispatch fs (ProcFinished status code) g =
    match state (process g) with
    | Running => process_finished fs (set_process (finished status code (process g)) g)
    | _ => Return (g, [])
    end.
Proof. reflexivity. Qed.

Lemma success_reported_singleton e :
  success_reported [e] ↔ e = MessageBox Information "Success" "Workflow Finished!".
Proof. unfold success_reported. rewrite list_elem_of_singleton. naive_solver. Qed.

Lemma success_reported_nil : ¬ success_reported [].
Proof. unfold success_reported. by intros ?%elem_of_nil. Qed.

(** The turns of the event loop that run a slot with effects, and the
    others, which emit nothing. *)
Lemma dispatch_cases fs ev g g' out :
  dispatch fs ev g = Return (g', out) →
  (ev = RunClicked ∧ btn_run g = true ∧ start_process fs g = (g', out))
  ∨ (ev = StopClicked ∧ btn_stop g = true ∧ kill_process g = (g', out))
  ∨ (∃ status code, ev = ProcFinished status code ∧ state (process g) = Running ∧
       process_finished fs (set_process (finished status code (process g)) g)
         = Return (g', out))
  ∨ (ev = CloseRequested ∧ closeEvent g = (g', out))
  ∨ (out = [] ∧ config g' = config g ∧ current_step g' = current_step g ∧
     ev ≠ CloseRequested ∧ (ev = RunClicked → btn_run g = false) ∧
     (ev = StopClicked → btn_stop g = false) ∧
     ∀ status code, ev = ProcFinished status code → state (process g) ≠ Running).
Proof.
  intros Hd. destruct ev; cbn in Hd.
  - destruct (btn_run g) eqn:?; simplify_eq; [by left|]. do 4 right. naive_solver.
  - destruct (btn_stop g) eqn:?; simplify_eq; [right; by left|]. do 4 right. naive_solver.
  - simplify_eq. do 4 right. naive_solver.
  - destruct (state (process g)); simplify_eq; do 4 right; naive_solver.
  - destruct (state (process g)); simplify_eq; do 4 right; naive_solver.
  - destruct (state (process g)) eqn:?; simplify_eq;
      [do 4 right; naive_solver..|right; right; left; eauto].
  - simplify_eq. do 4 right. naive_solver.
  - simplify_eq. do 4 right. naive_solver.
  - simplify_eq. right; right; right; left. done.
Qed.

(** C1. Success of the workflow is reported exactly when the export stage
    exits with code 0 and the file [<outputBase>.tbcexported.mkv] is then in
    the working directory; when the export stage exits with code 0 and the
    file is not there, failure is reported. The output base is the text of
    the output name field without the white space around it, and the file
    is looked for under [work_dir]. Stated for one turn of the event loop,
    from any state of the widget: [ev] is the event, [out] what the turn
    shows and does. *)
Theorem C1_success_iff_export_ok fs ev g g' out :
  dispatch fs ev g = Return (g', out) →
  let artifact :=
    path_join (work_dir g) (strip (output_name (form g)) +:+ ".tbcexported.mkv") in
  (success_reported out ↔
     ev = exit_with 0 ∧ stage_running "export" g ∧ fs artifact = true)
  ∧ (ev = exit_with 0 → stage_running "export" g → fs artifact = false →
     export_failure_reported out ∧ ¬ success_reported out).
Proof.
  intros Hd. cbv zeta.
  change (path_join (work_dir g) (strip (output_name (form g)) +:+ ".tbcexported.mkv"))
    with (expected_mkv g).
  revert Hd.
  unfold stage_running, exit_with.
  intros [(-> & _ & Hs)|[(-> & _ & Hs)|[(status & code & -> & Hrun & Hs)|[(-> & Hs)|Hs]]]]%dispatch_cases.
  - split; [|done]. split; [|naive_solver]. replace out with (start_process fs g).2 by by rewrite Hs.
    destruct (start_process_out fs g) as [(_ & icon & text & ? & ->)|(_ & cfg & st & -> & _ & Hst)];
      cbn [snd].
    + rewrite success_reported_singleton. naive_solver.
    + unfold success_reported. rewrite elem_of_cons.
      destruct Hst as [->|(? & ? & ? & ->)]; rewrite ?elem_of_cons, elem_of_nil; naive_solver.
  - split; [|done]. split; [|naive_solver]. replace out with (kill_process g).2 by by rewrite Hs.
    destruct (kill_process_out g) as [[_ ->]|[_ ->]]; cbn [snd].
    + rewrite success_reported_singleton. naive_solver.
    + by intros ?%success_reported_nil.
  - pose proof (process_finished_cases fs (set_process (finished status code (process g)) g)) as Hc.
    cbn [process exitStatus exitCode set_process finished] in Hc.
    change (current_step (set_process _ g)) with (current_step g) in Hc.
    change (expected_mkv (set_process _ g)) with (expected_mkv g) in Hc.
    destruct status.
    2:{ rewrite Hc in Hs. simplify_eq.
        split; [split; [by intros ?%success_reported_nil|naive_solver]|naive_solver]. }
    case_bool_decide as Hcode.
    2:{ destruct (current_step g); rewrite Hc in Hs; simplify_eq.
        split; [split; [by intros ?%success_reported_nil|naive_solver]|naive_solver]. }
    subst code. case_bool_decide as Hdec.
    { rewrite Hc in Hs. rewrite Hdec.
      split; [split; [|naive_solver]|naive_solver].
      injection Hs as Hs. replace out with (start_export fs (append_log_text
        (nl +:+ nl +:+ "--- DECODE COMPLETE. STARTING EXPORT ---" +:+ nl)
        (set_btn_stop false (set_process (finished NormalExit 0 (process g)) g)))).2
        by by rewrite Hs.
      destruct (start_export_out fs (append_log_text
        (nl +:+ nl +:+ "--- DECODE COMPLETE. STARTING EXPORT ---" +:+ nl)
        (set_btn_stop false (set_process (finished NormalExit 0 (process g)) g))))
        as [->|(_ & ? & ->)]; cbn [snd].
      - by intros ?%success_reported_nil.
      - rewrite success_reported_singleton. naive_solver. }
    case_bool_decide as Hexp.
    2:{ rewrite Hc in Hs. simplify_eq.
        split; [split; [by intros ?%success_reported_nil|naive_solver]|naive_solver]. }
    destruct Hc as (g1 & Hc & _). rewrite Hc in Hs. simplify_eq.
    rewrite success_reported_singleton. unfold export_failure_reported.
    rewrite list_elem_of_singleton.
    destruct (fs (expected_mkv g)); naive_solver.
  - split; [|done]. split; [|naive_solver]. unfold closeEvent in Hs. simplify_eq.
    rewrite success_reported_singleton. naive_solver.
  - destruct Hs as (-> & _ & _ & _ & _ & _ & Hs).
    split; [split; [by intros ?%success_reported_nil|naive_solver]|naive_solver].
Qed.

(** C2. The export stage is started only when the decode stage has exited
    normally with code 0: a turn of the event loop that starts a process is
    either a run request, which starts the decode stage, or the normal exit
    with code 0 of the decode stage, which starts the export stage. When the
    decode stage ends in any other way, nothing is started, the process
    stays idle and the run button is enabled again. *)
Theorem C2_export_only_after_decode_ok fs ev g g' out :
  dispatch fs ev g = Return (g', out) →
  (∀ program args cwd, ProcessStart program args cwd ∈ out →
     (ev = RunClicked ∧ current_step g' = Some "decode")
     ∨ (ev = exit_with 0 ∧ stage_running "decode" g ∧ current_step g' = Some "export" ∧
        program = strip (path_export (form g)) ∧
        args = [tbc_filename g; export_filename g]))
  ∧ (∀ status code, ev = ProcFinished status code → stage_running "decode" g →
     ev ≠ exit_with 0 →
     out = [] ∧ state (process g') = NotRunning ∧ btn_run g' = true ∧
     current_step g' = Some "decode").
Proof.
  unfold stage_running, exit_with.
  intros [(-> & _ & Hs)|[(-> & _ & Hs)|[(status & code & -> & Hrun & Hs)|[(-> & Hs)|Hs]]]]%dispatch_cases.
  - split; [|done]. intros program args cwd Hin. left. split; [done|].
    destruct (start_process_out fs g) as [(_ & icon & text & ? & Hr)|(_ & cfg & st & _ & Hstep & _)].
    + rewrite Hr in Hs. simplify_eq. apply list_elem_of_singleton in Hin. done.
    + by rewrite Hs in Hstep.
  - split; [|done]. intros program args cwd Hin.
    destruct (kill_process_out g) as [[_ Hr]|[_ Hr]]; rewrite Hs in Hr; simplify_eq/=.
    + by apply list_elem_of_singleton in Hin.
    + by apply elem_of_nil in Hin.
  - pose proof (process_finished_cases fs (set_process (finished status code (process g)) g)) as Hc.
    cbn [process exitStatus exitCode set_process finished] in Hc.
    change (current_step (set_process _ g)) with (current_step g) in Hc.
    change (expected_mkv (set_process _ g)) with (expected_mkv g) in Hc.
    destruct status.
    2:{ rewrite Hc in Hs. simplify_eq.
        split; [by intros ??? ?%elem_of_nil|]. intros ?? _ [_ ?] _. done. }
    case_bool_decide as Hcode.
    2:{ destruct (current_step g) eqn:Hstep; rewrite Hc in Hs; simplify_eq.
        split; [by intros ??? ?%elem_of_nil|]. intros ?? _ [_ ?] _.
        repeat split; try done. cbn. congruence. }
    subst code. case_bool_decide as Hdec.
    { rewrite Hc in Hs. injection Hs as Hs.
      split; [|intros ?? ? _ ?; congruence].
      intros program args cwd Hin. right.
      pose proof (start_export_step fs (append_log_text
        (nl +:+ nl +:+ "--- DECODE COMPLETE. STARTING EXPORT ---" +:+ nl)
        (set_btn_stop false (set_process (finished NormalExit 0 (process g)) g)))) as Hstep.
      destruct (start_export_out fs (append_log_text
        (nl +:+ nl +:+ "--- DECODE COMPLETE. STARTING EXPORT ---" +:+ nl)
        (set_btn_stop false (set_process (finished NormalExit 0 (process g)) g))))
        as [Hr|(_ & ? & Hr)]; rewrite Hs in Hr, Hstep; cbn [fst snd] in *; subst out.
      - by apply elem_of_nil in Hin.
      - apply list_elem_of_singleton in Hin. by simplify_eq. }
    case_bool_decide as Hexp.
    + destruct Hc as (g1 & Hc & _). rewrite Hc in Hs. simplify_eq.
      split; [|intros ?? _ [_ ?] _; congruence].
      intros ??? Hin%list_elem_of_singleton. by destruct (fs _).
    + rewrite Hc in Hs. simplify_eq.
      split; [by intros ??? ?%elem_of_nil|]. intros ?? _ [_ ?] _. done.
  - split; [|done]. unfold closeEvent in Hs. simplify_eq.
    by intros ??? ?%list_elem_of_singleton.
  - destruct Hs as (-> & _ & _ & _ & _ & _ & Hs).
    split; [by intros ??? ?%elem_of_nil|]. intros ?? -> [? _] _. by edestruct Hs.
Qed.

(** C6. A run request whose decode executable, export executable or input
    file does not exist, or whose output base name is empty, shows one error
    box and changes nothing: the widget is returned as it was (configuration,
    workflow step, process, buttons and log), and neither a write of the
    configuration nor a process start is among the effects. *)
Theorem C6_run_request_rejected fs g :
  fs (strip (path_decode (form g))) = false
  ∨ fs (strip (path_export (form g))) = false
  ∨ fs (strip (input_file (form g))) = false
  ∨ strip (output_name (form g)) = "" →
  ∃ icon text,
    icon ≠ Information ∧ start_process fs g = (g, [MessageBox icon "Error" text]).
Proof.
  intros Hpre.
  destruct (start_process_out fs g) as [(_ & icon & text & ? & ->)|(Hok & _)]; [by eauto|].
  unfold run_preconditions in Hok.
  repeat (apply andb_prop in Hok as [Hok ?]).
  destruct Hpre as [?|[?|[?|Hname]]]; [congruence..|].
  rewrite Hname in *. done.
Qed.

(** C8, as the code has it. When a stage exits normally with a nonzero code,
    the sequence halts (nothing is started, the process stays idle, the run
    button is enabled again) and the log receives the name of the stage and
    the exit code. When a stage ends abnormally, the sequence halts in the
    same way and the slot shows nothing: the log is left as it was and no box
    is shown. *)
Theorem C8_stage_failure_halts fs g step status code :
  stage_running step g →
  ProcFinished status code ≠ exit_with 0 →
  ∃ g', dispatch fs (ProcFinished status code) g = Return (g', []) ∧
        state (process g') = NotRunning ∧ btn_run g' = true ∧ btn_stop g' = false ∧
        current_step g' = Some step ∧
        log_output g' =
          match status with
          | NormalExit =>
              log_output g +:+
              safe_text (nl +:+ "!!! " +:+ upper step +:+ " FAILED (Exit Code "
                         +:+ str_of_int code +:+ ") !!!" +:+ nl)
          | CrashExit => log_output g
          end.
Proof.
  intros [Hrun Hstep] Hne. rewrite dispatch_finished, Hrun.
  pose proof (process_finished_cases fs (set_process (finished status code (process g)) g)) as Hc.
  cbn [process exitStatus exitCode set_process finished] in Hc.
  change (current_step (set_process _ g)) with (current_step g) in Hc.
  destruct status.
  - case_bool_decide; [by subst|]. rewrite Hstep in Hc. rewrite Hc.
    eexists. split; [done|]. by repeat split.
  - rewrite Hc. eexists. split; [done|]. by repeat split.
Qed.

(** C9, as the code has it. The configuration is written to disk in exactly
    two turns of the event loop: the close of the window, and a run request
    that passes its preconditions. *)
Theorem C9_config_written_on_close_and_run fs ev g g' out :
  dispatch fs ev g = Return (g', out) →
  (∃ cfg, SaveConfig cfg ∈ out) ↔
    ev = CloseRequested
    ∨ (ev = RunClicked ∧ btn_run g = true ∧ run_preconditions fs (form g) = true).
Proof.
  intros [(-> & Hbtn & Hs)|[(-> & _ & Hs)|[(status & code & -> & Hrun & Hs)|[(-> & Hs)|Hs]]]]%dispatch_cases.
  - destruct (start_process_out fs g) as [(Hpre & icon & text & ? & Hr)|(Hpre & cfg & st & Hr & _)];
      rewrite Hs in Hr; simplify_eq/=.
    + split; [|intros [?|(_ & _ & ?)]; congruence]. by intros [cfg ?%list_elem_of_singleton].
    + split; [by right|]. intros _. exists cfg. apply elem_of_cons. by left.
  - split; [|naive_solver]. intros [cfg Hin]. exfalso.
    destruct (kill_process_out g) as [[_ Hr]|[_ Hr]]; rewrite Hs in Hr; simplify_eq/=.
    + by apply list_elem_of_singleton in Hin.
    + by apply elem_of_nil in Hin.
  - split; [|naive_solver]. intros [cfg Hin]. exfalso.
    pose proof (process_finished_cases fs (set_process (finished status code (process g)) g)) as Hc.
    cbn [process exitStatus exitCode set_process finished] in Hc.
    change (current_step (set_process _ g)) with (current_step g) in Hc.
    change (expected_mkv (set_process _ g)) with (expected_mkv g) in Hc.
    destruct status.
    2:{ rewrite Hc in Hs. simplify_eq. by apply elem_of_nil in Hin. }
    case_bool_decide as Hcode.
    2:{ destruct (current_step g); rewrite Hc in Hs; simplify_eq. by apply elem_of_nil in Hin. }
    case_bool_decide as Hdec.
    { rewrite Hc in Hs. injection Hs as Hs.
      destruct (start_export_out fs (append_log_text
        (nl +:+ nl +:+ "--- DECODE COMPLETE. STARTING EXPORT ---" +:+ nl)
        (set_btn_stop false (set_process (finished NormalExit code (process g)) g))))
        as [Hr|(_ & ? & Hr)]; rewrite Hs in Hr; cbn [snd] in Hr; subst out.
      - by apply elem_of_nil in Hin.
      - by apply list_elem_of_singleton in Hin. }
    case_bool_decide as Hexp.
    + destruct Hc as (g1 & Hc & _). rewrite Hc in Hs. simplify_eq.
      apply list_elem_of_singleton in Hin. by destruct (fs _).
    + rewrite Hc in Hs. simplify_eq. by apply elem_of_nil in Hin.
  - unfold closeEvent in Hs. simplify_eq. split; [by left|]. intros _.
    eexists. by apply list_elem_of_singleton.
  - destruct Hs as (-> & _ & _ & Hnc & Hnr & _). split; [by intros [? ?%elem_of_nil]|].
    intros [?|(Hev & Hbtn & _)]; [done|]. specialize (Hnr Hev). congruence.
Qed.

(** C10. When the decode stage exits with code 0 and the file
    [<outputBase>.tbc] is not in the working directory, the export stage is
    not started: the turn has no effect on the outside (no process start),
    the log receives the error message, which names the file, after the
    note that decoding is complete, the run button is enabled again and the
    process stays idle. The output base is the text of the output name
    field without the white space around it. *)
Theorem C10_missing_tbc_halts fs g :
  stage_running "decode" g →
  fs (path_join (work_dir g) (strip (output_name (form g)) +:+ ".tbc")) = false →
  ∃ g', dispatch fs (exit_with 0) g = Return (g', []) ∧
        state (process g') = NotRunning ∧ btn_run g' = true ∧ btn_stop g' = false ∧
        log_output g' =
          (log_output g +:+
           safe_text (nl +:+ nl +:+ "--- DECODE COMPLETE. STARTING EXPORT ---" +:+ nl))
          +:+ safe_text (nl +:+ "Error: Could not find generated file: "
                         +:+ (strip (output_name (form g)) +:+ ".tbc") +:+ nl).
Proof.
  change (strip (output_name (form g)) +:+ ".tbc") with (tbc_filename g).
  intros [Hrun Hstep] Htbc. unfold exit_with. rewrite dispatch_finished, Hrun.
  pose proof (process_finished_cases fs (set_process (finished NormalExit 0 (process g)) g)) as Hc.
  cbn [process exitStatus exitCode set_process finished] in Hc.
  change (current_step (set_process _ g)) with (current_step g) in Hc.
  case_bool_decide; [|done]. case_bool_decide; [|done]. rewrite Hc.
  rewrite start_export_missing by done. eexists. split; [done|]. by repeat split.
Qed.

(** *** Sessions

    No slot raises in a session that starts from the widget as [__init__]
    leaves it: the only exception in the slots, [None.upper()] in
    [process_finished], needs a process that ends while no stage is
    recorded. *)
Lemma dispatch_returns fs ev g :
  stage_known g → ∃ g' out, dispatch fs ev g = Return (g', out) ∧ stage_known g'.
Proof.
  unfold stage_known. intros Hinv.
  assert (∀ g', g' = g → state (process g') ≠ NotRunning →
    current_step g' = Some "decode" ∨ current_step g' = Some "export") as Hsame
    by (by intros ? ->).
  destruct ev; cbn [dispatch].
  - destruct (btn_run g); [|by eauto].
    destruct (start_process fs g) as [g' out] eqn:Hs. exists g', out. split; [done|].
    destruct (start_process_out fs g) as [(_ & ? & ? & _ & Hr)|(_ & ? & ? & _ & Hstep & _)];
      rewrite Hs in *; simplify_eq/=; eauto.
  - destruct (btn_stop g); [|by eauto]. unfold kill_process.
    destruct (state (process g)) eqn:Hst; eauto.
  - unfold handle_output. do 2 eexists. split; [done|]. apply Hinv.
  - destruct (state (process g)) eqn:Hst; eauto.
  - destruct (state (process g)) eqn:Hst; eauto.
  - destruct (state (process g)) eqn:Hst; eauto.
    pose proof (process_finished_cases fs (set_process (finished status code (process g)) g)) as Hc.
    cbn [process exitStatus exitCode set_process finished] in Hc.
    change (current_step (set_process _ g)) with (current_step g) in Hc.
    destruct status; [|rewrite Hc; do 2 eexists; split; [done|]; by cbn].
    case_bool_decide.
    + case_bool_decide.
      * rewrite Hc. destruct (start_export _ _) as [g' out] eqn:Hs.
        do 2 eexists. split; [done|]. intros _. right.
        pose proof (start_export_step fs (append_log_text
          (nl +:+ nl +:+ "--- DECODE COMPLETE. STARTING EXPORT ---" +:+ nl)
          (set_btn_stop false (set_process (finished NormalExit code (process g)) g)))) as Hstep.
        by rewrite Hs in Hstep.
      * case_bool_decide.
        -- destruct Hc as (g' & -> & _ & _ & _ & Hp). do 2 eexists. split; [done|].
           by rewrite Hp.
        -- rewrite Hc. do 2 eexists. split; [done|]. by cbn.
    + destruct Hinv as [Hstep|Hstep]; [done|..]; rewrite Hstep in Hc; rewrite Hc;
        do 2 eexists; (split; [done|]); by cbn.
  - do 2 eexists. split; [done|]. apply Hinv.
  - do 2 eexists. split; [done|]. apply Hinv.
  - unfold closeEvent. do 2 eexists. split; [done|]. apply Hinv.
Qed.

Lemma session_returns evs g :
  stage_known g → ∃ g' out, session evs g = Return (g', out) ∧ stage_known g'.
Proof.
  revert g. induction evs as [|[fs ev] evs IH]; intros g Hinv; [by exists g, []|].
  destruct (dispatch_returns fs ev g Hinv) as (g1 & out1 & Hd & Hinv1).
  destruct (IH g1 Hinv1) as (g2 & out2 & Hs & Hinv2).
  exists g2, (out1 ++ out2). split; [|done]. cbn [session]. rewrite Hd. cbn. by rewrite Hs.
Qed.

Lemma session_from_init_returns evs cfg f w h :
  returns (session evs (init cfg f w h)).
Proof.
  destruct (session_returns evs (init cfg f w h)) as (g' & out & -> & _).
  { intros Hst. by destruct Hst. }
  by eexists.
Qed.

End GuiSpec.

(** ** The configuration store *)

Section ConfigSpec.
Import Py Json Config.

(** On a dict, the merging loop is the union with the defaults, the values
    of the dict taking precedence. *)
Lemma merge_defaults_dict items (m : gmap string json) :
  merge_defaults items (JDict m) = Return (JDict (m ∪ list_to_map items)).
Proof.
  revert m. induction items as [|[key v] items IH]; intros m.
  - cbn. by rewrite (right_id_L ∅ (∪)).
  - cbn [merge_defaults contains]. cbn [mbind outcome_bind].
    case_bool_decide as Hin; cbn [negb setitem mbind outcome_bind].
    + rewrite IH. do 2 f_equal. cbn [list_to_map foldr].
      destruct Hin as [x Hx]. apply map_eq. intros k.
      rewrite !lookup_union. destruct (decide (k = key)) as [->|].
      * by rewrite Hx, !union_Some_l.
      * by rewrite lookup_insert_ne.
    + rewrite IH. do 2 f_equal. cbn [list_to_map foldr].
      apply eq_None_not_Some in Hin. cbn [fst snd].
      by rewrite <-insert_union_l, <-insert_union_r.
Qed.

Lemma defaults_dom :
  dom defaults =
    {[ "decode_path"; "tbc_export_path"; "last_input_file"; "window_width";
       "window_height" ]}.
Proof. unfold defaults, defaults_items. cbn [list_to_map foldr]. set_solver. Qed.

(** What the specification says of [load_config], where the code agrees:
    no file gives the defaults, which have exactly the five keys; a dict on
    disk gives its own entries and the defaults for the keys it lacks; text
    that is not JSON and a file that cannot be opened give the defaults. *)
Lemma load_config_spec :
  load_config Absent = Return (JDict defaults)
  ∧ (∀ m : gmap string json,
       load_config (Holds (JDict m)) = Return (JDict (m ∪ defaults))
       ∧ ∀ key, (m ∪ defaults) !! key =
           match m !! key with Some v => Some v | None => defaults !! key end)
  ∧ load_config Malformed = Return (JDict defaults)
  ∧ load_config Unreadable = Return (JDict defaults).
Proof.
  split; [done|]. split; [|done]. intros m. split.
  - unfold load_config. cbn [path_exists negb json_load mbind outcome_bind].
    by rewrite merge_defaults_dict.
  - intros key. rewrite lookup_union. by destruct (m !! key), (defaults !! key).
Qed.

(** C4, where the code departs from it. Two files make [load_config] raise
    to its caller: one whose bytes are not text in the encoding of the
    platform, and one that holds JSON which is no object, such as [[]]. The
    [except] clause lets [UnicodeDecodeError] and [TypeError] through. *)
Theorem C4_load_config_raises :
  load_config Undecodable = Raise UnicodeDecodeError
  ∧ load_config (Holds (JList [])) = Raise TypeError
  ∧ ¬ returns (load_config Undecodable)
  ∧ ¬ returns (load_config (Holds (JList []))).
Proof.
  repeat split; try reflexivity; by intros [? ?].
Qed.

End ConfigSpec.

(** ** Python strings *)

Section PyFacts.
Import Py.

Lemma strip_prefix_spec p s r : strip_prefix p s = Some r ↔ s = p +:+ r.
Proof.
  revert s. induction p as [|a p IH]; intros s; cbn.
  - naive_solver.
  - destruct s as [|b s]; [naive_solver|].
    destruct (Ascii.eqb_spec a b) as [->|Hne].
    + rewrite IH. split; [by intros ->|by intros [= ->]].
    + split; [done|]. by intros [= -> _].
Qed.

(** [needle in hay] holds exactly when [hay] is some text, then [needle],
    then some text. *)
Lemma str_in_spec needle hay :
  str_in needle hay = true ↔ ∃ before after, hay = before +:+ needle +:+ after.
Proof.
  induction hay as [|c hay IH]; cbn [str_in].
  - destruct (strip_prefix needle "") as [r|] eqn:Hp.
    + apply strip_prefix_spec in Hp. split; [|done]. intros _. by exists "", r.
    + split; [done|]. intros (before & after & Heq).
      destruct before; [|done].
      change ("" = needle +:+ after) in Heq. apply strip_prefix_spec in Heq. congruence.
  - destruct (strip_prefix needle (String c hay)) as [r|] eqn:Hp.
    + apply strip_prefix_spec in Hp. split; [|done]. intros _. by exists "", r.
    + rewrite IH. split.
      * intros (before & after & ->). by exists (String c before), after.
      * intros (before & after & Heq). destruct before as [|c' before].
        -- change (String c hay = needle +:+ after) in Heq.
           apply strip_prefix_spec in Heq. congruence.
        -- cbn in Heq. injection Heq as -> ->. eauto.
Qed.

End PyFacts.

(** ** The device prober *)

Section ProberSpec.
Import Py CxCheck.

Lemma detect_step_kept popen detected dev :
  detect_step popen detected dev =
    if kept popen dev then detected ++ [dev] else detected.
Proof. unfold detect_step, kept. by destruct (popen _). Qed.

(** The loop appends to [detected] the devices it keeps, in order. *)
Lemma detect_loop_filter popen devs detected :
  foldl (detect_step popen) detected devs =
    detected ++ filter (λ dev, kept popen dev = true) devs.
Proof.
  revert detected. induction devs as [|dev devs IH]; intros detected; cbn [foldl].
  - by rewrite filter_nil, app_nil_r.
  - rewrite IH, detect_step_kept, filter_cons.
    destruct (kept popen dev); cbn.
    + rewrite decide_True by done. by rewrite <-app_assoc.
    + by rewrite decide_False by done.
Qed.

Lemma range_sorted m n : StronglySorted Z.lt (seqZ m n).
Proof.
  remember (Z.to_nat n) as k eqn:Hk. revert m n Hk.
  induction k as [|k IH]; intros m n Hk.
  - rewrite seqZ_nil by lia. constructor.
  - rewrite seqZ_cons by lia. constructor; [apply IH; lia|].
    apply Forall_seqZ. lia.
Qed.

Lemma filter_sorted {A} (R : relation A) (P : A → Prop) `{∀ x, Decision (P x)} l :
  StronglySorted R l → StronglySorted R (filter P l).
Proof.
  induction 1 as [|x l _ IH Hall]; [constructor|].
  rewrite filter_cons. case_decide; [|done].
  constructor; [done|]. apply Forall_forall. intros y [_ Hy]%list_elem_of_filter.
  by eapply Forall_forall in Hall.
Qed.

(** C5. For every [max_devices] and every behaviour of the probes, the
    prober returns, in ascending order and without repetition, exactly the
    indices from 0 to [max_devices - 1] whose probe gave an error text that
    does not hold the marker [no such file]; an index whose text holds the
    marker is absent. The probe of an index is the ffmpeg command on the
    device [\\.\cxadc<index>]. (The text is lowered before the test, so
    the marker counts in any letter case; a probe that raised gave no text,
    and its index is absent.) *)
Theorem C5_detect_cxadc_devices popen max_devices :
  let probe_of dev :=
    popen [ "ffmpeg"; "-hide_banner"; "-f"; "rawvideo"; "-pixel_format"; "gray8";
            "-video_size"; "16x16"; "-i"; "\\.\cxadc" +:+ pretty dev;
            "-t"; "0.1"; "-f"; "null"; "-" ] in
  let holds_marker text :=
    ∃ before after, lower text = before +:+ "no such file" +:+ after in
  StronglySorted Z.lt (detect_cxadc_devices popen max_devices)
  ∧ ∀ dev, dev ∈ detect_cxadc_devices popen max_devices ↔
      0 ≤ dev < max_devices
      ∧ ∃ text, probe_of dev = Stderr text ∧ ¬ holds_marker text.
Proof.
  cbv zeta.
  unfold detect_cxadc_devices, range. rewrite detect_loop_filter, app_nil_l. split.
  - apply filter_sorted, range_sorted.
  - intros dev. rewrite list_elem_of_filter, elem_of_seqZ.
    unfold kept.
    change (test_cmd dev) with
      [ "ffmpeg"; "-hide_banner"; "-f"; "rawvideo"; "-pixel_format"; "gray8";
        "-video_size"; "16x16"; "-i"; "\\.\cxadc" +:+ pretty dev;
        "-t"; "0.1"; "-f"; "null"; "-" ].
    destruct (popen _) as [text|e].
    + rewrite negb_true_iff, <-not_true_iff_false, str_in_spec. naive_solver lia.
    + naive_solver.
Qed.

End ProberSpec.

(** ** The line monitor

    [float] is modelled by the division of [SpecFloat], which rounds to the
    nearest binary64 number. The lemmas below show that its results are in
    canonical form, so that the comparison of [SpecFloat], which compares
    exponents first, agrees with the order of the numbers. *)

Section FloatFacts.
Import Py CxCheck.

Lemma digits2_pos_size p : digits2_pos p = Pos.size p.
Proof. induction p as [p IH|p IH|]; cbn; by rewrite ?IH. Qed.

Lemma Zdigits2_log2 m : 0 < m → Zdigits2 m = Z.log2 m + 1.
Proof.
  destruct m as [|p|p]; [lia| |lia]. intros _. cbn [Zdigits2].
  rewrite digits2_pos_size. destruct p as [p|p|]; cbn; lia.
Qed.

Lemma Zdigits2_mono a b : 0 ≤ a ≤ b → Zdigits2 a ≤ Zdigits2 b.
Proof.
  intros [Ha Hab]. destruct (decide (a = 0)) as [->|].
  - destruct b; cbn; lia.
  - rewrite !Zdigits2_log2 by lia. pose proof (Z.log2_le_mono a b Hab). lia.
Qed.

Lemma fexp_mono a b : a ≤ b → fexp prec emax a ≤ fexp prec emax b.
Proof. unfold fexp, emin, prec, emax. lia. Qed.

Lemma fexp_ge_emin a : -1074 ≤ fexp prec emax a.
Proof. unfold fexp, emin, prec, emax. lia. Qed.

Lemma shr_1_m mrs : 0 ≤ shr_m mrs → shr_m (shr_1 mrs) = shr_m mrs / 2.
Proof.
  destruct mrs as [m r s]. destruct m as [|[p|p|]|p]; cbn [shr_1 shr_m]; intros Hm; try done; try lia.
  - apply (Z.div_unique _ _ _ 1); lia.
  - apply (Z.div_unique _ _ _ 0); lia.
Qed.

Lemma iter_shr_m n mrs :
  0 ≤ shr_m mrs → shr_m (SpecFloat.iter_pos shr_1 n mrs) = shr_m mrs / 2 ^ Z.pos n.
Proof.
  revert mrs. induction n as [n IH|n IH|]; intros mrs Hm; cbn [SpecFloat.iter_pos].
  - assert (0 ≤ shr_m (shr_1 mrs)) as H1 by (rewrite shr_1_m by done; apply Z.div_pos; lia).
    assert (0 ≤ shr_m (SpecFloat.iter_pos shr_1 n (shr_1 mrs))) as H2
      by (rewrite IH by done; apply Z.div_pos; lia).
    rewrite IH, IH, shr_1_m by done.
    rewrite !Z.div_div by lia. f_equal.
    replace (Z.pos n~1) with (1 + Z.pos n + Z.pos n) by lia.
    rewrite !Z.pow_add_r by lia. ring.
  - assert (0 ≤ shr_m (SpecFloat.iter_pos shr_1 n mrs)) as H2
      by (rewrite IH by done; apply Z.div_pos; lia).
    rewrite IH, IH by done.
    rewrite !Z.div_div by lia. f_equal.
    replace (Z.pos n~0) with (Z.pos n + Z.pos n) by lia.
    rewrite !Z.pow_add_r by lia. ring.
  - by rewrite shr_1_m.
Qed.

Lemma shr_record_of_loc_m m l : shr_m (shr_record_of_loc m l) = m.
Proof. by destruct l as [|[]]. Qed.

(** After [shr_fexp], a mantissa that is not zero is canonical for its
    exponent, and zero comes with the least exponent. *)
Lemma shr_fexp_post m e l :
  0 ≤ m → e ≤ fexp prec emax (Zdigits2 m + e) →
  ∃ mrs e', shr_fexp prec emax m e l = (mrs, e') ∧ 0 ≤ shr_m mrs
    ∧ (0 < shr_m mrs → fexp prec emax (Zdigits2 (shr_m mrs) + e') = e')
    ∧ (shr_m mrs = 0 → e' = -1074).
Proof.
  intros Hm He. unfold shr_fexp, shr.
  set (n := fexp prec emax (Zdigits2 m + e) - e).
  assert (0 ≤ n) as Hn by lia.
  assert (∃ mrs e', match n with
            | Z.pos p => (SpecFloat.iter_pos shr_1 p (shr_record_of_loc m l), e + n)
            | _ => (shr_record_of_loc m l, e)
            end = (mrs, e') ∧ shr_m mrs = Z.shiftr m n ∧ e' = e + n) as (mrs & e' & -> & Hmrs & ->).
  { destruct n as [|p|p] eqn:Hp; [| |lia].
    - do 2 eexists. split; [done|]. rewrite shr_record_of_loc_m, Z.shiftr_0_r. lia.
    - do 2 eexists. split; [done|]. split; [|done].
      rewrite iter_shr_m, shr_record_of_loc_m by (by rewrite shr_record_of_loc_m).
      by rewrite Z.shiftr_div_pow2. }
  exists mrs, (e + n). split; [done|]. rewrite Hmrs.
  assert (0 ≤ Z.shiftr m n) by (by apply Z.shiftr_nonneg).
  split; [done|]. split.
  - intros Hpos. assert (0 < m) as Hm' by (destruct (decide (m = 0)) as [->|]; [by rewrite Z.shiftr_0_l in Hpos|lia]).
    rewrite Zdigits2_log2 by done. rewrite Z.log2_shiftr by done.
    destruct (decide (Z.log2 m < n)) as [Hlt|Hge].
    + rewrite Z.shiftr_eq_0 in Hpos by (done || lia). lia.
    + rewrite Z.max_r by lia.
      replace (Z.log2 m - n + 1 + (e + n)) with (Zdigits2 m + e)
        by (rewrite Zdigits2_log2 by done; lia).
      unfold n. lia.
  - intros [->|[Hm' Hlt]]%Z.shiftr_eq_0_iff.
    + subst n. cbn [Zdigits2] in *. unfold fexp, emin, prec, emax in *. lia.
    + subst n. rewrite Zdigits2_log2 in * by done. unfold fexp, emin, prec, emax in *. lia.
Qed.

Lemma round_nearest_even_bounds m l :
  m ≤ round_nearest_even m l ≤ m + 1.
Proof. unfold round_nearest_even. destruct l as [|[]]; try destruct (Z.even m); lia. Qed.

(** Rounding a mantissa that is not negative, at an exponent that is not
    above the canonical one, gives zero, a canonical positive number, or
    infinity. *)
Lemma binary_round_aux_nonneg mx ex lx :
  0 ≤ mx → ex ≤ fexp prec emax (Zdigits2 mx + ex) →
  nonneg_float (binary_round_aux prec emax false mx ex lx).
Proof.
  intros Hm He. unfold binary_round_aux.
  destruct (shr_fexp_post mx ex lx Hm He) as (mrs1 & e1 & -> & Hm1 & Hc1 & Hz1).
  set (m2 := round_nearest_even (shr_m mrs1) (loc_of_shr_record mrs1)).
  pose proof (round_nearest_even_bounds (shr_m mrs1) (loc_of_shr_record mrs1)) as Hr.
  fold m2 in Hr.
  assert (e1 ≤ fexp prec emax (Zdigits2 m2 + e1)) as He2.
  { destruct (decide (shr_m mrs1 = 0)) as [Hz|Hnz].
    - rewrite (Hz1 Hz). apply fexp_ge_emin.
    - rewrite <-(Hc1 ltac:(lia)) at 1. apply fexp_mono.
      pose proof (Zdigits2_mono (shr_m mrs1) m2). lia. }
  destruct (shr_fexp_post m2 e1 loc_Exact ltac:(lia) He2) as (mrs2 & e2 & -> & Hm2 & Hc2 & _).
  destruct (shr_m mrs2) as [|m|m] eqn:Hs; [done| |lia].
  destruct (Z.leb_spec e2 (emax - prec)) as [Hle|Hgt]; [|done].
  split; [done|]. unfold bounded, canonical_mantissa.
  apply andb_true_intro. split; [|by apply Z.leb_le].
  apply Z.eqb_eq. apply (Hc2 ltac:(lia)).
Qed.

(** The quotient that [SFdiv] hands to the rounding has enough digits. *)
Lemma SFdiv_core_binary_pre m1 e1 m2 e2 :
  ∃ q e' l, SFdiv_core_binary prec emax (Z.pos m1) e1 (Z.pos m2) e2 = (q, e', l)
    ∧ 0 ≤ q ∧ e' ≤ fexp prec emax (Zdigits2 q + e').
Proof.
  unfold SFdiv_core_binary.
  set (d1 := Zdigits2 (Z.pos m1)). set (d2 := Zdigits2 (Z.pos m2)).
  set (D := d1 + e1 - (d2 + e2)).
  set (e' := Z.min (fexp prec emax D) (e1 - e2)).
  set (s := e1 - e2 - e').
  assert (0 ≤ s) as Hs by lia.
  set (m' := match s with Z.pos _ => Z.shiftl (Z.pos m1) s | 0 => Z.pos m1 | Z.neg _ => 0 end).
  assert (m' = Z.pos m1 * 2 ^ s) as Hm'.
  { unfold m'. destruct s as [|p|p] eqn:Hp; [lia| |lia]. by rewrite Z.shiftl_mul_pow2. }
  clearbody m'.
  change (Z.div_eucl m' (Z.pos m2)) with (Z.div_eucl m' (Z.pos m2)).
  pose proof (Z.div_eucl_eq m' (Z.pos m2) ltac:(done)) as Heq.
  pose proof (Z.mod_pos_bound m' (Z.pos m2) ltac:(done)) as Hmod.
  unfold Z.modulo in Hmod.
  destruct (Z.div_eucl m' (Z.pos m2)) as [q r] eqn:Hdiv.
  exists q, e', (new_location (Z.pos m2) r). split; [done|].
  assert (0 < 2 ^ s) as Hpow by (apply Z.pow_pos_nonneg; lia).
  assert (0 ≤ q) as Hq by nia.
  split; [done|].
  assert (d1 = Z.log2 (Z.pos m1) + 1) as Hd1 by (by apply Zdigits2_log2).
  assert (d2 = Z.log2 (Z.pos m2) + 1) as Hd2 by (by apply Zdigits2_log2).
  pose proof (Z.log2_nonneg (Z.pos m1)) as Hl1.
  pose proof (Z.log2_nonneg (Z.pos m2)) as Hl2.
  destruct (decide (0 ≤ d1 - 1 + s - d2)) as [Hbig|Hsmall].
  - (* the quotient has at least [d1 + s - d2] digits *)
    assert (2 ^ (d1 - 1 + s - d2) ≤ q) as Hlow.
    { assert (2 ^ (d1 - 1 + s - d2) * Z.pos m2 ≤ m') as Hmul.
      { pose proof (Z.log2_spec (Z.pos m1) ltac:(done)) as [H1 _].
        pose proof (Z.log2_spec (Z.pos m2) ltac:(done)) as [_ H2].
        replace (Z.succ (Z.log2 (Z.pos m2))) with d2 in H2 by lia.
        replace (Z.log2 (Z.pos m1)) with (d1 - 1) in H1 by lia.
        assert (0 < 2 ^ (d1 - 1 + s - d2)) by (apply Z.pow_pos_nonneg; lia).
        assert (2 ^ (d1 - 1 + s - d2) * 2 ^ d2 = 2 ^ (d1 - 1) * 2 ^ s) as Hsplit.
        { rewrite <-!Z.pow_add_r by lia. f_equal. lia. }
        rewrite Hm'. nia. }
      assert (0 < 2 ^ (d1 - 1 + s - d2)) by (apply Z.pow_pos_nonneg; lia).
      nia. }
    assert (0 < q) as Hqpos by (pose proof (Z.pow_pos_nonneg 2 (d1 - 1 + s - d2)); lia).
    apply Z.log2_le_pow2 in Hlow; [|done].
    rewrite (Zdigits2_log2 q) by done.
    transitivity (fexp prec emax D); [lia|]. apply fexp_mono. lia.
  - (* the exponent is already the least one *)
    transitivity (-1074); [|apply fexp_ge_emin].
    unfold e', D, fexp, emin, prec, emax in *. lia.
Qed.

Lemma decimal_nonneg n k : nonneg_float (decimal n k).
Proof.
  unfold decimal. destruct n as [|p|p]; [done| |done].
  unfold SFdiv. cbn [xorb].
  destruct (SFdiv_core_binary_pre p 0 (Z.to_pos (10 ^ Z.of_nat k)) 0)
    as (q & e' & l & -> & Hq & He).
  by apply binary_round_aux_nonneg.
Qed.

Lemma float_of_str_nonneg s x : float_of_str s = Return x → nonneg_float x.
Proof.
  unfold float_of_str.
  destruct (read_digits s 0 0) as [[n ni] rest].
  destruct rest as [|c rest].
  - destruct (ni =? 0)%nat; [done|]. intros [= <-]. apply decimal_nonneg.
  - destruct (Ascii.eqb c _); [|done].
    destruct (read_digits rest n 0) as [[n' nf] rest'].
    destruct rest'; [|done].
    destruct (ni + nf =? 0)%nat; [done|]. intros [= <-]. apply decimal_nonneg.
Qed.

Lemma canonical_bounds m e :
  canonical_mantissa prec emax m e = true →
  Z.pos m < 2 ^ 53 ∧ (-1074 < e → 2 ^ 52 ≤ Z.pos m).
Proof.
  unfold canonical_mantissa. intros Hc%Z.eqb_eq.
  change (Z.pos (digits2_pos m)) with (Zdigits2 (Z.pos m)) in Hc.
  rewrite Zdigits2_log2 in Hc by done.
  unfold fexp, emin, prec, emax in Hc. split.
  - apply Z.log2_lt_pow2; lia.
  - intros He. apply Z.log2_le_pow2; lia.
Qed.

Lemma float_of_threshold :
  float_of_int SYNC_THRESHOLD = S754_finite false 8444249301319680 (-47).
Proof. vm_compute. reflexivity. Qed.

(** On the floats that [float] returns, the comparison with the threshold
    is the comparison of the numbers. *)
Lemma float_lt_threshold x :
  nonneg_float x → float_lt_int x SYNC_THRESHOLD = true ↔ float_below x SYNC_THRESHOLD.
Proof.
  unfold float_lt_int. rewrite float_of_threshold. unfold SYNC_THRESHOLD.
  destruct x as [s|s|  |s m e]; cbn [nonneg_float float_below].
  - intros _. split; [lia|reflexivity].
  - intros ->. split; discriminate.
  - intros [].
  - intros [-> [Hc _]%andb_prop]. apply canonical_bounds in Hc as [Hlt Hge].
    unfold SFltb. cbn [SFcompare].
    destruct (Z.compare_spec e (-47)) as [He|He|He].
    + (* same exponent as 60: the mantissas decide *)
      rewrite Pos.compare_cont_spec. unfold Pos.switch_Eq.
      destruct (Z.leb_spec 0 e); [lia|].
      assert (2 ^ (- e) = 140737488355328) as -> by (by replace (- e) with 47 by lia).
      destruct (m ?= 8444249301319680)%positive eqn:Hcmp.
      * apply Pos.compare_eq in Hcmp. apply (f_equal Z.pos) in Hcmp.
        split; [discriminate|lia].
      * apply Pos.compare_lt_iff, Pos2Z.pos_lt_pos in Hcmp.
        split; [intros _; lia|reflexivity].
      * apply Pos.compare_gt_iff, Pos2Z.pos_lt_pos in Hcmp.
        split; [discriminate|lia].
    + (* smaller exponent: below 32 *)
      split; [intros _|reflexivity]. destruct (Z.leb_spec 0 e); [lia|].
      assert (2 ^ 48 ≤ 2 ^ (- e)) by (apply Z.pow_le_mono_r; lia). lia.
    + (* larger exponent: 64 at least *)
      split; [discriminate|]. specialize (Hge ltac:(lia)). destruct (Z.leb_spec 0 e).
      * assert (2 ^ 0 ≤ 2 ^ e) by (apply Z.pow_le_mono_r; lia). nia.
      * assert (2 ^ (- e) ≤ 2 ^ 46) by (apply Z.pow_le_mono_r; lia). lia.
Qed.

(** [float] is only applied to digits and dots: group 1 of a match is not
    empty and holds nothing else. *)
Lemma take_class_in_class s : all_in_class (take_class s) = true.
Proof.
  induction s as [|c s IH]; [done|]. cbn [take_class].
  destruct (in_class c) eqn:Hc; [|done]. cbn [all_in_class]. by rewrite Hc.
Qed.

Lemma search_in_class line group :
  search line = Some group → group ≠ "" ∧ all_in_class group = true.
Proof.
  induction line as [|c line IH]; cbn [search]; unfold match_here.
  - cbn. discriminate.
  - destruct (strip_prefix _ (String c line)) as [rest|]; [|exact IH].
    pose proof (take_class_in_class rest) as Hall.
    destruct (take_class rest) as [|c' group']; [exact IH|].
    intros [= <-]. by split.
Qed.

Lemma extract_metric_nonneg line ymin :
  extract_metric line = Some ymin → nonneg_float ymin.
Proof.
  unfold extract_metric. destruct (negb _); [done|].
  destruct (search line) as [group|]; [|done].
  destruct (float_of_str group) as [x|] eqn:Hf; [|done].
  intros [= <-]. by eapply float_of_str_nonneg.
Qed.

(** C3. For every line of the error channel from which a metric [ymin] is
    extracted, the sample that is emitted carries the device and that
    metric, and it is classified as signal present if and only if the number
    [ymin] is strictly below 60; when [ymin] is 60 the sample says no
    signal. *)
Theorem C3_signal_iff_below_threshold device_id line ymin :
  extract_metric line = Some ymin →
  ∃ has_signal,
    monitor_line device_id line =
      Some {| sample_device := device_id; sample_ymin := ymin;
              sample_has_signal := has_signal |}
    ∧ (has_signal = true ↔ float_below ymin 60)
    ∧ (ymin = float_of_int 60 → has_signal = false).
Proof.
  intros Hx. unfold monitor_line. rewrite Hx. eexists. split; [done|]. split.
  - apply float_lt_threshold. by eapply extract_metric_nonneg.
  - intros ->. vm_compute. reflexivity.
Qed.

(** Over a whole run of the monitor: every sample that is emitted carries
    the device of the worker and is classified by the threshold. *)
Lemma monitor_loop_classified device_id stderr s :
  s ∈ monitor_loop device_id stderr →
  sample_device s = device_id
  ∧ (sample_has_signal s = true ↔ float_below (sample_ymin s) SYNC_THRESHOLD).
Proof.
  induction stderr as [|[running line] stderr IH]; cbn [monitor_loop].
  - by intros ?%elem_of_nil.
  - destruct running; cbn [negb]; [|by intros ?%elem_of_nil].
    unfold monitor_line.
    destruct (extract_metric line) as [ymin|] eqn:Hx; [|exact IH].
    intros [->|Hin]%elem_of_cons; [|by apply IH]. cbn. split; [done|].
    apply float_lt_threshold. by eapply extract_metric_nonneg.
Qed.

(** [run] always ends with the handle dropped and the flag cleared. *)
Lemma run_stops w spawn stderr :
  process (run w spawn stderr).1.1 = None
  ∧ is_running (run w spawn stderr).1.1 = false.
Proof.
  unfold run. destruct spawn as [p|e].
  - by cbn.
  - unfold stop_process. by destruct (process w).
Qed.

End FloatFacts.

(** ** Stopping a process *)

Section StopSpec.
Import Py.

(** C7, as the code has it. [DeviceMonitorWorker.stop_process] is
    idempotent: a second call in succession requests nothing of the child
    and leaves the worker as the first call left it; on a child that has
    exited it requests nothing either. [VHSGui.kill_process] does nothing
    unless [QProcess] reports the state [Running], so it does nothing after
    the process has exited; while [Running] is reported, which lasts until Qt
    delivers [finished], every call requests a kill, adds the stop message
    to the log and leaves the state [Running]. None of the calls raises. *)
Theorem C7_stop_idempotent_where_guarded :
  (∀ w : CxCheck.Worker,
     CxCheck.stop_process (CxCheck.stop_process w).1 = ((CxCheck.stop_process w).1, []))
  ∧ (∀ (w : CxCheck.Worker) p,
       CxCheck.process w = Some p → CxCheck.exited p = true →
       (CxCheck.stop_process w).2 = [])
  ∧ (∀ g : Gui.VHSGui,
       Gui.state (Gui.process g) ≠ Gui.Running → Gui.kill_process g = (g, []))
  ∧ (∀ g : Gui.VHSGui,
       Gui.state (Gui.process g) = Gui.Running →
       (Gui.kill_process g).2 = [Gui.ProcessKill]
       ∧ Gui.state (Gui.process (Gui.kill_process g).1) = Gui.Running
       ∧ Gui.log_output (Gui.kill_process g).1
         = Gui.log_output g +:+ Session.stop_message).
Proof.
  repeat split.
  - intros [dev running [p|]]; reflexivity.
  - intros [dev running proc] p Hp Hex. cbn in Hp. subst proc.
    unfold CxCheck.stop_process, CxCheck.terminate, CxCheck.wait. cbn. by rewrite Hex.
  - intros g Hst. unfold Gui.kill_process. by destruct (Gui.state (Gui.process g)).
  - rename select (_ = Gui.Running) into Hrun. unfold Gui.kill_process. by rewrite Hrun.
  - rename select (_ = Gui.Running) into Hrun. unfold Gui.kill_process. by rewrite Hrun.
  - rename select (_ = Gui.Running) into Hrun. unfold Gui.kill_process. by rewrite Hrun.
Qed.

End StopSpec.

(** ** The scenarios of the specification *)

Section Scenarios.
Import Py Json OsPath Gui Scenario.

Local Ltac compute_eq := vm_compute; reflexivity.

(** Input [tape1.u8], output base [tape1]: decode exits 0 and [tape1.tbc] is
    there, so export is started on [tape1.tbc] and [tape1.tbcexported.mkv];
    export exits 0 and the file is there, so success is reported. *)
Example scenario_success :
  shown [(inputs, RunClicked); (inputs, ProcStarted);
         (decoded, exit_with 0); (decoded, ProcStarted);
         (exported, exit_with 0)] idle
  = [ SaveConfig (config decoding);
      ProcessStart "/opt/vhs/decode.exe"
        ["vhs"; "--tape_format"; "vhs"; "--system"; "pal"; "--threads"; "8";
         "--recheck_phase"; "tape1.u8"; "/caps/tape1"] "/caps";
      ProcessStart "/opt/vhs/tbc-video-export.exe"
        ["tape1.tbc"; "tape1.tbcexported.mkv"] "/caps";
      MessageBox Information "Success" "Workflow Finished!" ].
Proof. compute_eq. Qed.

(** Decode exits with code 1: export is never started. *)
Example scenario_decode_fails :
  shown [(inputs, RunClicked); (inputs, ProcStarted);
         (decoded, ProcFinished NormalExit 1)] idle
  = [ SaveConfig (config decoding);
      ProcessStart "/opt/vhs/decode.exe"
        ["vhs"; "--tape_format"; "vhs"; "--system"; "pal"; "--threads"; "8";
         "--recheck_phase"; "tape1.u8"; "/caps/tape1"] "/caps" ]
  ∧ btn_run (after [(decoded, ProcFinished NormalExit 1)] decoding) = true.
Proof. split; compute_eq. Qed.

(** The export stage of the scenario exits with code 0. When
    [/caps/tape1.tbcexported.mkv] is there, success is reported; when only
    the file of another tape is there, failure is. *)
Lemma C1_witness :
  success_reported (shown [(exported, exit_with 0)] exporting)
  ∧ export_failure_reported (shown [(stray_mkv, exit_with 0)] exporting)
  ∧ ¬ success_reported (shown [(stray_mkv, exit_with 0)] exporting).
Proof.
  split.
  - destruct (C1_success_iff_export_ok (os := posixpath) exported (exit_with 0) exporting
      (after [(exported, exit_with 0)] exporting)
      (shown [(exported, exit_with 0)] exporting)) as [[_ Hback] _].
    + compute_eq.
    + apply Hback. repeat split; compute_eq.
  - destruct (C1_success_iff_export_ok (os := posixpath) stray_mkv (exit_with 0) exporting
      (after [(stray_mkv, exit_with 0)] exporting)
      (shown [(stray_mkv, exit_with 0)] exporting)) as [_ Hfail].
    + compute_eq.
    + apply Hfail; [reflexivity|split; compute_eq|compute_eq].
Defined.

(** The decode stage of the scenario exits with code 1: nothing is started
    and the sequence halts. *)
Lemma C2_witness :
  shown [(inputs, ProcFinished NormalExit 1)] decoding = []
  ∧ state (process (after [(inputs, ProcFinished NormalExit 1)] decoding)) = NotRunning
  ∧ btn_run (after [(inputs, ProcFinished NormalExit 1)] decoding) = true
  ∧ current_step (after [(inputs, ProcFinished NormalExit 1)] decoding) = Some "decode".
Proof.
  destruct (C2_export_only_after_decode_ok (os := posixpath) inputs
    (ProcFinished NormalExit 1) decoding
    (after [(inputs, ProcFinished NormalExit 1)] decoding)
    (shown [(inputs, ProcFinished NormalExit 1)] decoding)) as [_ Hhalt].
  - compute_eq.
  - apply (Hhalt NormalExit 1); [reflexivity|split; compute_eq|discriminate].
Defined.

(** A run request when none of the files exists is rejected, and so is one
    whose output name is a no-break space only, although the files are
    there. *)
Lemma C6_witness :
  (∃ icon text,
     icon ≠ Information
     ∧ start_process (os := posixpath) nothing idle = (idle, [MessageBox icon "Error" text]))
  ∧ ∃ icon text,
      icon ≠ Information
      ∧ start_process (os := posixpath) inputs
          (init Config.defaults Cases.blank_name_form 900 750)
        = (init Config.defaults Cases.blank_name_form 900 750,
           [MessageBox icon "Error" text]).
Proof.
  split.
  - apply C6_run_request_rejected. left. reflexivity.
  - apply C6_run_request_rejected. do 3 right. compute_eq.
Defined.

(** The decode stage of the scenario exits with code 1: the log says so. *)
Lemma C8_witness :
  ∃ g', dispatch (os := posixpath) inputs (ProcFinished NormalExit 1) decoding = Return (g', [])
    ∧ state (process g') = NotRunning ∧ btn_run g' = true ∧ btn_stop g' = false
    ∧ current_step g' = Some "decode"
    ∧ log_output g' =
        log_output decoding +:+
        safe_text (nl +:+ "!!! " +:+ upper "decode" +:+ " FAILED (Exit Code "
                   +:+ str_of_int 1 +:+ ") !!!" +:+ nl).
Proof.
  apply (C8_stage_failure_halts (os := posixpath) inputs decoding "decode" NormalExit 1).
  - split; compute_eq.
  - discriminate.
Defined.

(** C8 as it is stated fails on a crash: the decode stage of the scenario
    is killed by signal 9, and the turn of the event loop that handles it
    adds nothing to the log and shows no box. *)
Lemma C8_crash_shows_nothing :
  stage_running "decode" decoding
  ∧ dispatch (os := posixpath) inputs (ProcFinished CrashExit 9) decoding
    = Return (after [(inputs, ProcFinished CrashExit 9)] decoding, [])
  ∧ ¬ surfaced decoding (after [(inputs, ProcFinished CrashExit 9)] decoding) [].
Proof.
  split; [split; compute_eq|]. split; [compute_eq|].
  intros [Hlog|Hbox].
  - apply Hlog. compute_eq.
  - by apply Exists_nil in Hbox.
Qed.

(** The run request of the scenario writes the configuration. *)
Lemma C9_witness :
  ∃ cfg, SaveConfig cfg ∈ shown [(inputs, RunClicked)] idle.
Proof.
  apply (C9_config_written_on_close_and_run (os := posixpath) inputs RunClicked idle
    (after [(inputs, RunClicked)] idle) (shown [(inputs, RunClicked)] idle)).
  - compute_eq.
  - right. repeat split; compute_eq.
Defined.

(** C9 as it is stated fails on a run request: the request of the scenario
    is no close of the window, and it writes the configuration. *)
Lemma C9_run_request_writes_config :
  RunClicked ≠ CloseRequested
  ∧ dispatch (os := posixpath) inputs RunClicked idle
    = Return (after [(inputs, RunClicked)] idle, shown [(inputs, RunClicked)] idle)
  ∧ SaveConfig (config decoding) ∈ shown [(inputs, RunClicked)] idle.
Proof.
  split; [done|]. split; [compute_eq|].
  replace (shown [(inputs, RunClicked)] idle) with
    [SaveConfig (config decoding);
     ProcessStart "/opt/vhs/decode.exe"
       ["vhs"; "--tape_format"; "vhs"; "--system"; "pal"; "--threads"; "8";
        "--recheck_phase"; "tape1.u8"; "/caps/tape1"] "/caps"] by compute_eq.
  apply elem_of_cons. by left.
Qed.

(** The decode stage of the scenario exits with code 0 and left no
    [/caps/tape1.tbc], although the file of another tape is there: the
    export stage is not started, and the log names [tape1.tbc]. *)
Lemma C10_witness :
  ∃ g', dispatch (os := posixpath) stray_tbc (exit_with 0) decoding = Return (g', [])
    ∧ state (process g') = NotRunning ∧ btn_run g' = true ∧ btn_stop g' = false
    ∧ log_output g' =
        (log_output decoding +:+
         safe_text (nl +:+ nl +:+ "--- DECODE COMPLETE. STARTING EXPORT ---" +:+ nl))
        +:+ safe_text (nl +:+ "Error: Could not find generated file: "
                       +:+ "tape1.tbc" +:+ nl).
Proof.
  apply (C10_missing_tbc_halts (os := posixpath) stray_tbc decoding).
  - split; compute_eq.
  - compute_eq.
Defined.

(** C7 as it is stated fails for the STOP button: two calls of
    [kill_process] in succession on the running decode stage both request a
    kill, and the second one adds the stop message to the log again. *)
Lemma C7_kill_twice_kills_twice :
  (kill_process (kill_process decoding).1).2 = [ProcessKill]
  ∧ log_output (kill_process (kill_process decoding).1).1
    = (log_output decoding +:+ Session.stop_message) +:+ Session.stop_message
  ∧ kill_process (kill_process decoding).1 ≠ ((kill_process decoding).1, []).
Proof.
  split; [compute_eq|]. split; [compute_eq|].
  intros Heq. by apply (f_equal snd) in Heq.
Qed.

(** A monitor whose child ignores the request to terminate is killed by
    the first call of [stop_process]; the second call does nothing. STOP
    during the decode stage of the scenario requests a kill and adds the
    stop message to the log. *)
Lemma C7_witness :
  (CxCheck.stop_process (CxCheck.stop_process stubborn).1
   = ((CxCheck.stop_process stubborn).1, [])
   ∧ (CxCheck.stop_process stubborn).2 = [CxCheck.Terminate; CxCheck.Kill])
  ∧ (kill_process decoding).2 = [ProcessKill]
  ∧ state (process (kill_process decoding).1) = Running
  ∧ log_output (kill_process decoding).1 = log_output decoding +:+ Session.stop_message.
Proof.
  split.
  - split; [|reflexivity].
    apply (proj1 C7_stop_idempotent_where_guarded stubborn).
  - apply (proj2 (proj2 (proj2 C7_stop_idempotent_where_guarded)) decoding). compute_eq.
Defined.

(** A line that reports 16 gives a sample with signal. *)
Lemma C3_witness :
  ∃ has_signal,
    CxCheck.monitor_line 0 "[Parsed_metadata_4] lavfi.signalstats.YMIN=16.000" =
      Some {| CxCheck.sample_device := 0;
              CxCheck.sample_ymin := S754_finite false 4503599627370496 (-48);
              CxCheck.sample_has_signal := has_signal |}
    ∧ (has_signal = true ↔
       CxCheck.float_below (S754_finite false 4503599627370496 (-48)) 60)
    ∧ (S754_finite false 4503599627370496 (-48) = CxCheck.float_of_int 60 →
       has_signal = false).
Proof. apply C3_signal_iff_below_threshold. compute_eq. Defined.

(** The boundary: a line that reports exactly 60 gives no signal, and one
    that reports a number just below 60 gives a signal. A decimal so close
    to 60 that [float] rounds it to 60 gives no signal either. *)
Example threshold_boundary :
  CxCheck.sample_has_signal <$> CxCheck.monitor_line 0 "lavfi.signalstats.YMIN=60" = Some false
  ∧ CxCheck.sample_has_signal <$> CxCheck.monitor_line 0 "lavfi.signalstats.YMIN=59.999" = Some true
  ∧ CxCheck.sample_has_signal <$>
      CxCheck.monitor_line 0 "lavfi.signalstats.YMIN=59.99999999999999999" = Some false
  ∧ CxCheck.monitor_line 0 "lavfi.signalstats.YMIN=5.9.9" = None.
Proof. repeat split; compute_eq. Qed.

(** Four probes, of which the second and the fourth say that the device
    is not there: device 2 is returned, device 1 and device 3 are not. *)
Lemma C5_witness :
  2 ∈ CxCheck.detect_cxadc_devices four_probes 4
  ∧ (1 ∉ CxCheck.detect_cxadc_devices four_probes 4)
  ∧ (3 ∉ CxCheck.detect_cxadc_devices four_probes 4).
Proof.
  destruct (C5_detect_cxadc_devices four_probes 4) as [_ Hmem]. split_and!.
  - apply Hmem. split; [lia|]. exists "Input #0, rawvideo, from cxadc".
    split; [compute_eq|]. intros Hin%str_in_spec. by vm_compute in Hin.
  - intros (_ & text & Hprobe & Hno)%Hmem. vm_compute in Hprobe.
    injection Hprobe as <-. apply Hno, str_in_spec. compute_eq.
  - intros (_ & text & Hprobe & Hno)%Hmem. vm_compute in Hprobe.
    injection Hprobe as <-. apply Hno, str_in_spec. compute_eq.
Defined.

Example detect_four :
  CxCheck.detect_cxadc_devices four_probes 4 = [0; 2]
  ∧ CxCheck.detect_cxadc_devices (λ _, CxCheck.Fails IOError) 8 = []
  ∧ CxCheck.detect_cxadc_devices four_probes (-1) = [].
Proof. repeat split; compute_eq. Qed.

End Scenarios.

(* ===================================================================== *)
(** * Further properties *)
(* ===================================================================== *)

(** ** The widget during a session *)

Section SessionSpec.
Import Py Json OsPath Gui Session.
Context {os : os_path}.
Implicit Types (g : VHSGui) (ev : Event) (out : list Effect) (fs : filesystem).

Lemma no_cr_app a b : no_cr (a +:+ b) = no_cr a && no_cr b.
Proof.
  induction a as [|c a IH]; [done|].
  change (String c a +:+ b) with (String c (a +:+ b)). cbn [no_cr].
  rewrite IH. by destruct (negb _).
Qed.

Lemma no_cr_safe_text text : no_cr (safe_text text) = true.
Proof.
  unfold safe_text. induction text as [|c text IH]; [done|].
  cbn [replace_char no_cr]. rewrite IH.
  by destruct (Ascii.eqb_spec c CR) as [->|Hne]; [|destruct (Ascii.eqb_spec c CR)].
Qed.

Lemma append_log_no_cr text g :
  no_cr (log_output g) = true → no_cr (log_output (append_log_text text g)) = true.
Proof.
  intros Hlog. unfold append_log_text. cbn [log_output set_log_output].
  by rewrite no_cr_app, Hlog, no_cr_safe_text.
Qed.

Lemma consistent_init cfg f w h : consistent (init cfg f w h).
Proof. by repeat split. Qed.

(** An accepted run request, spelled out. *)
Lemma start_process_accepted fs g :
  run_preconditions fs (form g) = true →
  let input := strip (input_file (form g)) in
  let cfg := <["last_input_file" := JStr input]>
               (<["tbc_export_path" := JStr (strip (path_export (form g)))]>
                  (<["decode_path" := JStr (strip (path_decode (form g)))]> (config g))) in
  let args := decode_args (form g) (path_basename input)
                (path_join (path_dirname input) (strip (output_name (form g)))) in
  start_process fs g =
    ({| form := form g; width := width g; height := height g; config := cfg;
        process :=
          match state (process g) with
          | NotRunning =>
              {| state := Starting; workingDirectory := path_dirname input;
                 exitStatus := NormalExit; exitCode := 0 |}
          | _ => setWorkingDirectory (path_dirname input) (process g)
          end;
        current_step := Some "decode"; work_dir := path_dirname input;
        btn_run := false; btn_stop := true;
        log_output :=
          "" +:+ safe_text ("--- STARTING DECODE ---" +:+ nl +:+ "Command: "
                            +:+ path_basename (strip (path_decode (form g))) +:+ " "
                            +:+ join " " args +:+ nl +:+ nl) |},
     SaveConfig cfg ::
       match state (process g) with
       | NotRunning =>
           [ProcessStart (strip (path_decode (form g))) args (path_dirname input)]
       | _ => []
       end).
Proof.
  unfold run_preconditions. intros Hpre.
  apply andb_prop in Hpre as [Hpre Hname]. apply andb_prop in Hpre as [Hpre Hin].
  apply andb_prop in Hpre as [Hdec Hexp]. apply negb_true_iff in Hname.
  unfold start_process. rewrite Hdec, Hexp, Hin, Hname. cbn [negb]. cbv zeta.
  unfold QProcess_start.
  change (state (process (append_log_text ?t ?g))) with (state (process g)).
  cbn [process set_process set_current_step set_log_output set_btn_stop set_btn_run
       set_work_dir set_config setWorkingDirectory state].
  by destruct (state (process g)).
Qed.

(** The export stage when the decoded file is there, spelled out. *)
Lemma start_export_found fs g :
  fs (path_join (work_dir g) (tbc_filename g)) = true →
  let args := [tbc_filename g; export_filename g] in
  start_export fs g =
    ({| form := form g; width := width g; height := height g; config := config g;
        process :=
          match state (process g) with
          | NotRunning =>
              {| state := Starting; workingDirectory := work_dir g;
                 exitStatus := NormalExit; exitCode := 0 |}
          | _ => setWorkingDirectory (work_dir g) (process g)
          end;
        current_step := Some "export"; work_dir := work_dir g;
        btn_run := btn_run g; btn_stop := true;
        log_output :=
          log_output g +:+
          safe_text ("Command: " +:+ path_basename (strip (path_export (form g))) +:+ " "
                     +:+ dquote +:+ tbc_filename g +:+ dquote +:+ " "
                     +:+ dquote +:+ export_filename g +:+ dquote +:+ nl +:+ nl) |},
     match state (process g) with
     | NotRunning => [ProcessStart (strip (path_export (form g))) args (work_dir g)]
     | _ => []
     end).
Proof.
  intros Htbc. unfold start_export. cbv zeta.
  change (fs (path_join (work_dir (set_current_step ?s g)) (tbc_filename (set_current_step ?s g))))
    with (fs (path_join (work_dir g) (tbc_filename g))).
  rewrite Htbc. cbn [negb]. unfold QProcess_start.
  change (state (process (append_log_text ?t ?g))) with (state (process g)).
  cbn [process set_process set_current_step set_btn_stop setWorkingDirectory state].
  by destruct (state (process g)).
Qed.

(** The end of the export stage with code 0, spelled out. *)
Lemma process_finished_export fs g :
  exitStatus (process g) = NormalExit → exitCode (process g) = 0 →
  current_step g = Some "export" →
  process_finished fs g =
    Return
      ({| form := form g; width := width g; height := height g; config := config g;
          process := process g; current_step := None; work_dir := work_dir g;
          btn_run := true; btn_stop := false;
          log_output :=
            log_output g +:+
            safe_text
              (if fs (expected_mkv g)
               then nl +:+ nl +:+ "--- ALL TASKS COMPLETED SUCCESSFULLY ---" +:+ nl
               else nl +:+ nl +:+ "!!! ERROR: Output file not found !!!" +:+ nl
                    +:+ "Expected: " +:+ expected_mkv g +:+ nl
                    +:+ "Check log for errors above.") |},
       [ if fs (expected_mkv g)
         then MessageBox Information "Success" "Workflow Finished!"
         else MessageBox Warning "Export Failed"
                "The process finished, but the output .mkv file is missing." ]).
Proof.
  intros Hst Hcode Hstep. unfold process_finished. cbv zeta.
  change (exitStatus (process (set_btn_stop false g))) with (exitStatus (process g)).
  change (exitCode (process (set_btn_stop false g))) with (exitCode (process g)).
  change (current_step (set_btn_stop false g)) with (current_step g).
  change (expected_mkv (set_btn_stop false g)) with (expected_mkv g).
  rewrite Hst, Hcode, Hstep. cbn [Z.eqb negb].
  rewrite bool_decide_eq_false_2 by done. rewrite bool_decide_eq_true_2 by done.
  by destruct (fs (expected_mkv g)).
Qed.

Lemma start_process_consistent fs g : consistent g → consistent (start_process fs g).1.
Proof.
  intros (Hrun & Hproc & Hwd & Hlog).
  destruct (start_process_out fs g) as [(_ & ? & ? & _ & ->)|(Hpre & _)]; [done|].
  rewrite (start_process_accepted fs g Hpre). cbv zeta. cbn [fst].
  unfold consistent. cbn [btn_run btn_stop process current_step work_dir log_output].
  rewrite no_cr_app, no_cr_safe_text.
  destruct (state (process g)); repeat split; try done; eauto.
Qed.

Lemma start_export_consistent fs g :
  state (process g) = NotRunning → workingDirectory (process g) = work_dir g →
  no_cr (log_output g) = true → btn_run g = false → consistent (start_export fs g).1.
Proof.
  intros Hst Hwd Hlog Hbtn.
  destruct (fs (path_join (work_dir g) (tbc_filename g))) eqn:Htbc.
  - rewrite (start_export_found fs g Htbc). cbv zeta. cbn [fst]. rewrite Hst.
    unfold consistent. cbn [btn_run btn_stop process current_step work_dir log_output state
      workingDirectory].
    rewrite no_cr_app, no_cr_safe_text, Hlog, Hbtn. repeat split; try done; eauto.
  - rewrite (start_export_missing fs g Htbc). cbn [fst].
    unfold consistent, append_log_text.
    cbn [btn_run btn_stop process current_step work_dir log_output state
      workingDirectory set_btn_run set_log_output set_current_step].
    rewrite no_cr_app, no_cr_safe_text, Hlog, Hst. by repeat split.
Qed.

Lemma process_finished_consistent fs g g' out :
  state (process g) = NotRunning → workingDirectory (process g) = work_dir g →
  no_cr (log_output g) = true → btn_run g = false →
  process_finished fs g = Return (g', out) → consistent g'.
Proof.
  intros Hst Hwd Hlog Hbtn Hfin.
  pose proof (process_finished_cases fs g) as Hc.
  destruct (exitStatus (process g)) eqn:Hes.
  2:{ rewrite Hc in Hfin. injection Hfin as <- <-. unfold consistent. cbn.
      rewrite Hst. by repeat split. }
  case_bool_decide as Hcode.
  2:{ destruct (current_step g) as [step|]; rewrite Hc in Hfin; [|done].
      injection Hfin as <- <-. unfold consistent, append_log_text.
      cbn [btn_run btn_stop process current_step work_dir log_output state
        workingDirectory set_btn_run set_btn_stop set_log_output].
      rewrite no_cr_app, no_cr_safe_text, Hlog, Hst. by repeat split. }
  case_bool_decide as Hdec.
  { rewrite Hc in Hfin. injection Hfin as Hfin.
    replace g' with (start_export fs (append_log_text
      (nl +:+ nl +:+ "--- DECODE COMPLETE. STARTING EXPORT ---" +:+ nl)
      (set_btn_stop false g))).1 by by rewrite Hfin.
    apply start_export_consistent; [done|done| |done].
    by apply append_log_no_cr. }
  case_bool_decide as Hexp.
  - clear Hc. rewrite (process_finished_export fs g Hes Hcode Hexp) in Hfin.
    injection Hfin as <- <-. unfold consistent.
    cbn [btn_run btn_stop process current_step work_dir log_output].
    rewrite no_cr_app, no_cr_safe_text, Hlog, Hst. by repeat split.
  - rewrite Hc in Hfin. injection Hfin as <- <-. unfold consistent. cbn.
    rewrite Hst, Hbtn. by repeat split.
Qed.

(** Every turn of the event loop keeps the widget consistent. *)
Lemma dispatch_consistent fs ev g g' out :
  consistent g → dispatch fs ev g = Return (g', out) → consistent g'.
Proof.
  intros Hg Hd. pose proof Hg as (Hrun & Hproc & Hwd & Hlog).
  destruct ev; cbn [dispatch] in Hd.
  - destruct (btn_run g); injection Hd as Hd; [|by subst].
    replace g' with (start_process fs g).1 by by rewrite Hd.
    by apply start_process_consistent.
  - destruct (btn_stop g) eqn:Hstop; injection Hd as Hd; [|by subst].
    unfold kill_process in Hd. destruct (state (process g)) eqn:Hst;
      injection Hd as <- <-; try done.
    unfold consistent, append_log_text.
    cbn [btn_run btn_stop process current_step work_dir log_output set_log_output].
    rewrite no_cr_app, no_cr_safe_text, Hlog. destruct Hg as (? & ? & ? & _).
    by split_and!.
  - injection Hd as <- <-. unfold consistent, append_log_text.
    cbn [btn_run btn_stop process current_step work_dir log_output set_log_output].
    rewrite no_cr_app, no_cr_safe_text, Hlog. by split_and!.
  - destruct (state (process g)) eqn:Hst; injection Hd as <- <-; try done.
    unfold consistent. cbn. destruct Hproc as [? ?]; [done|].
    split_and!; try done. intros Hb. by specialize (Hrun Hb).
  - by destruct (state (process g)) eqn:Hst; injection Hd as <- <-.
  - destruct (state (process g)) eqn:Hst; [by injection Hd as <- <-..|].
    eapply process_finished_consistent; [..|exact Hd]; try done.
    cbn [btn_run set_process]. destruct (btn_run g); [|done]. by specialize (Hrun eq_refl).
  - by injection Hd as <- <-.
  - by injection Hd as <- <-.
  - by injection Hd as <- <-.
Qed.

Lemma session_consistent evs g :
  consistent g → ∃ g' out, session evs g = Return (g', out) ∧ consistent g'.
Proof.
  revert g. induction evs as [|[fs ev] evs IH]; intros g Hg; [by exists g, []|].
  assert (stage_known g) as Hknown by (intros Hst; by apply Hg).
  destruct (dispatch_returns fs ev g Hknown) as (g1 & out1 & Hd & _).
  destruct (IH g1 (dispatch_consistent _ _ _ _ _ Hg Hd)) as (g2 & out2 & Hs & Hg2).
  exists g2, (out1 ++ out2). split; [|done]. cbn [session]. rewrite Hd. cbn. by rewrite Hs.
Qed.

(** X1. In every session, whatever the events and the file system, no slot
    raises, and after each event the buttons, the process and the recorded
    stage agree: the START button is enabled only while no process is there,
    and while a process is starting or running the STOP button is enabled
    and the stage, decode or export, is recorded. *)
Theorem session_keeps_buttons_and_process_in_step evs cfg f w h :
  ∃ g out,
    session evs (init cfg f w h) = Return (g, out)
    ∧ (btn_run g = true → state (process g) = NotRunning)
    ∧ (state (process g) ≠ NotRunning →
       btn_run g = false ∧ btn_stop g = true
       ∧ (current_step g = Some "decode" ∨ current_step g = Some "export")).
Proof.
  destruct (session_consistent evs (init cfg f w h) (consistent_init cfg f w h))
    as (g & out & Hs & Hrun & Hproc & _).
  exists g, out. split; [done|]. split; [done|]. intros Hst.
  destruct (Hproc Hst) as [Hstop Hstep]. split; [|done].
  destruct (btn_run g); [|done]. by specialize (Hrun eq_refl).
Qed.

(** X2. The log never holds a carriage return: every text that reaches it in
    a session, the output of the tools included, has its carriage returns
    replaced by line feeds. *)
Theorem session_log_has_no_carriage_return evs cfg f w h g out :
  session evs (init cfg f w h) = Return (g, out) → no_cr (log_output g) = true.
Proof.
  intros Hs.
  destruct (session_consistent evs (init cfg f w h) (consistent_init cfg f w h))
    as (g' & out' & Hs' & _ & _ & _ & Hlog).
  rewrite Hs in Hs'. by injection Hs' as <- <-.
Qed.

Lemma decode_args_shape f input_filename output_arg :
  ∃ options, decode_args f input_filename output_arg
             = "vhs" :: options ++ [input_filename; output_arg].
Proof.
  unfold decode_args. cbv zeta.
  exists (["--tape_format"; combo_format f; "--system"; combo_system f;
           "--threads"; str_of_int (spin_threads f)] ++
          (if str_in "28" (combo_freq f) then ["--frequency"; "28"]
           else if str_in "40" (combo_freq f) then ["--frequency"; "40"] else []) ++
          (if check_recheck f then ["--recheck_phase"] else [])).
  destruct (str_in "28" (combo_freq f)), (str_in "40" (combo_freq f)), (check_recheck f);
    reflexivity.
Qed.

(** X3. In a session, a click on START whose preconditions hold always
    starts the decode stage, once: START is enabled only while [QProcess] is
    idle, so [QProcess.start] never finds a process to leave alone. The
    tool is started in the directory of the input file, on the name of the
    input file and the output path as the last two arguments; the three
    paths are stored in the configuration, which is written once and is
    otherwise unchanged. *)
Theorem accepted_run_request_starts_decode evs cfg f w h g out fs :
  session evs (init cfg f w h) = Return (g, out) →
  btn_run g = true →
  run_preconditions fs (form g) = true →
  let decode_exe := strip (path_decode (form g)) in
  let export_exe := strip (path_export (form g)) in
  let input := strip (input_file (form g)) in
  ∃ g' options,
    dispatch fs RunClicked g =
      Return (g', [SaveConfig (config g');
                   ProcessStart decode_exe
                     ("vhs" :: options ++
                        [path_basename input;
                         path_join (path_dirname input) (strip (output_name (form g)))])
                     (path_dirname input)])
    ∧ state (process g') = Starting ∧ current_step g' = Some "decode"
    ∧ btn_run g' = false ∧ btn_stop g' = true
    ∧ config g' !! "decode_path" = Some (JStr decode_exe)
    ∧ config g' !! "tbc_export_path" = Some (JStr export_exe)
    ∧ config g' !! "last_input_file" = Some (JStr input)
    ∧ ∀ key, key ∉ ["decode_path"; "tbc_export_path"; "last_input_file"] →
        config g' !! key = config g !! key.
Proof.
  intros Hs Hbtn Hpre. cbv zeta.
  destruct (session_consistent evs (init cfg f w h) (consistent_init cfg f w h))
    as (g0 & out0 & Hs0 & Hrun & _).
  rewrite Hs in Hs0. injection Hs0 as <- <-.
  specialize (Hrun Hbtn). cbn [dispatch]. rewrite Hbtn.
  rewrite (start_process_accepted fs g Hpre). cbv zeta. rewrite Hrun.
  destruct (decode_args_shape (form g) (path_basename (strip (input_file (form g))))
    (path_join (path_dirname (strip (input_file (form g)))) (strip (output_name (form g)))))
    as [options ->].
  cbv beta iota.
  match goal with |- ∃ g' _, Return (?x, _) = _ ∧ _ => exists x, options end.
  split; [reflexivity|].
  cbn [process state current_step btn_run btn_stop config].
  split_and!; try done.
  - rewrite lookup_insert_ne, lookup_insert_ne by done. apply lookup_insert_eq.
  - rewrite lookup_insert_ne by done. apply lookup_insert_eq.
  - apply lookup_insert_eq.
  - intros key Hkey. rewrite !lookup_insert_ne; [done|..];
      intros <-; apply Hkey; set_solver.
Qed.

Lemma bind_Return {A B} (x : A) (k : A → outcome B) : Return x ≫= k = k x.
Proof. reflexivity. Qed.

Lemma session_app evs1 evs2 g :
  session (evs1 ++ evs2) g =
    '(g1, out1) ← session evs1 g; '(g2, out2) ← session evs2 g1; Return (g2, out1 ++ out2).
Proof.
  revert g. induction evs1 as [|[fs ev] evs1 IH]; intros g; cbn [app session].
  - cbn. by destruct (session evs2 g) as [[? ?]|].
  - destruct (dispatch fs ev g) as [[g1 out1]|]; [|done]. cbn. rewrite IH.
    destruct (session evs1 g1) as [[g2 out2]|]; [|done]. cbn.
    destruct (session evs2 g2) as [[g3 out3]|]; [|done]. cbn. by rewrite app_assoc.
Qed.

(** A stuck widget stays stuck: no event enables START or starts a
    process. *)
Lemma wedged_dispatch fs ev g g' out :
  wedged g → dispatch fs ev g = Return (g', out) → wedged g' ∧ ¬ starts out.
Proof.
  intros [Hbtn Hst] Hd. unfold starts.
  destruct ev; cbn [dispatch] in Hd; rewrite ?Hbtn, ?Hst in Hd.
  - injection Hd as <- <-. split; [done|]. by intros (? & ? & ? & ?%elem_of_nil).
  - destruct (btn_stop g); unfold kill_process in Hd; rewrite ?Hst in Hd;
      injection Hd as <- <-; (split; [done|]); by intros (? & ? & ? & ?%elem_of_nil).
  - injection Hd as <- <-. split; [done|]. by intros (? & ? & ? & ?%elem_of_nil).
  - injection Hd as <- <-. split; [done|]. by intros (? & ? & ? & ?%elem_of_nil).
  - injection Hd as <- <-. split; [done|]. by intros (? & ? & ? & ?%elem_of_nil).
  - injection Hd as <- <-. split; [done|]. by intros (? & ? & ? & ?%elem_of_nil).
  - injection Hd as <- <-. split; [done|]. by intros (? & ? & ? & ?%elem_of_nil).
  - injection Hd as <- <-. split; [done|]. by intros (? & ? & ? & ?%elem_of_nil).
  - unfold closeEvent in Hd. injection Hd as <- <-. split; [done|].
    by intros (? & ? & ? & ?%list_elem_of_singleton).
Qed.

Lemma wedged_session evs g g' out :
  wedged g → session evs g = Return (g', out) → wedged g' ∧ ¬ starts out.
Proof.
  revert g out. induction evs as [|[fs ev] evs IH]; intros g out Hg; cbn [session].
  - intros [= <- <-]. split; [done|]. by intros (? & ? & ? & ?%elem_of_nil).
  - destruct (dispatch fs ev g) as [[g1 out1]|] eqn:Hd; [|done]. cbn.
    destruct (session evs g1) as [[g2 out2]|] eqn:Hs; [|done]. cbn.
    intros [= <- <-].
    destruct (wedged_dispatch _ _ _ _ _ Hg Hd) as [Hg1 Hn1].
    destruct (IH _ _ Hg1 Hs) as [Hg2 Hn2]. split; [done|].
    intros (p & a & c & [?|?]%elem_of_app); [apply Hn1|apply Hn2]; by exists p, a, c.
Qed.

(** X4. No slot is connected to [errorOccurred]: when the program that was
    started fails to start, the widget is left with no process and START
    disabled, and no later event, click or notification, enables START
    again or starts a process. *)
Theorem failed_start_leaves_widget_stuck fs evs g g' out :
  state (process g) = Starting →
  btn_run g = false →
  session ((fs, ProcFailedToStart) :: evs) g = Return (g', out) →
  btn_run g' = false ∧ state (process g') = NotRunning ∧ ¬ starts out.
Proof.
  intros Hst Hbtn. cbn [session dispatch]. rewrite Hst. cbn.
  destruct (session evs _) as [[g2 out2]|] eqn:Hs; [|done]. cbn. intros [= <- <-].
  assert (wedged (set_process (set_state NotRunning (process g)) g)) as Hw
    by (split; [exact Hbtn|reflexivity]).
  destruct (wedged_session _ _ _ _ Hw Hs) as [[? ?] ?]. by split_and!.
Qed.

(** X5. A click on STOP while a stage is running, followed by the end of the
    killed process, asks for one kill, adds the stop message to the log
    once and says nothing else, starts nothing, and leaves START enabled and
    STOP disabled; the stage that was stopped stays recorded. *)
Theorem stop_then_exit_halts_quietly fs1 fs2 code step g :
  stage_running step g →
  btn_stop g = true →
  ∃ g', session [(fs1, StopClicked); (fs2, ProcFinished CrashExit code)] g
          = Return (g', [ProcessKill])
    ∧ state (process g') = NotRunning ∧ btn_run g' = true ∧ btn_stop g' = false
    ∧ current_step g' = Some step
    ∧ log_output g' = log_output g +:+ stop_message.
Proof.
  intros [Hrun Hstep] Hstop. cbn [session dispatch]. rewrite Hstop.
  assert (kill_process g
          = (append_log_text (nl +:+ nl +:+ "!!! PROCESS STOPPED BY USER !!!" +:+ nl) g,
             [ProcessKill])) as -> by (unfold kill_process; by rewrite Hrun).
  set (g1 := append_log_text _ g).
  rewrite bind_Return. cbv beta iota.
  change (state (process g1)) with (state (process g)). rewrite Hrun.
  pose proof (process_finished_cases fs2
    (set_process (finished CrashExit code (process g1)) g1)) as Hc.
  cbn [process exitStatus set_process finished] in Hc. rewrite Hc.
  cbn [mbind outcome_bind app]. eexists. split; [reflexivity|].
  cbn [process set_process set_btn_run set_btn_stop state finished btn_run btn_stop
       current_step log_output].
  split_and!; try done.
Qed.

(** What a turn of the event loop does to the configuration: entries are
    added or replaced, never removed, and what is written to disk is the
    record as the turn leaves it. *)
Local Ltac no_save :=
  let Hin := fresh in
  intros ? Hin;
  repeat (apply elem_of_cons in Hin as [Hin|Hin]; [discriminate Hin|]);
  by apply elem_of_nil in Hin.

Lemma start_export_config fs g :
  config (start_export fs g).1 = config g
  ∧ ∀ cfg, SaveConfig cfg ∈ (start_export fs g).2 → cfg = config g.
Proof.
  destruct (fs (path_join (work_dir g) (tbc_filename g))) eqn:Htbc.
  - rewrite (start_export_found fs g Htbc). cbv zeta. cbn [fst snd config].
    split; [done|]. destruct (state (process g)); no_save.
  - rewrite (start_export_missing fs g Htbc). cbn [fst snd]. split; [done|]. no_save.
Qed.

Lemma process_finished_config fs g g' out :
  process_finished fs g = Return (g', out) →
  config g' = config g ∧ ∀ cfg, SaveConfig cfg ∈ out → cfg = config g'.
Proof.
  intros Hfin. pose proof (process_finished_cases fs g) as Hc.
  destruct (exitStatus (process g)) eqn:Hes.
  2:{ rewrite Hc in Hfin. injection Hfin as <- <-. split; [done|]. no_save. }
  case_bool_decide as Hcode.
  2:{ destruct (current_step g) as [step|]; rewrite Hc in Hfin; [|done].
      injection Hfin as <- <-. split; [done|]. no_save. }
  case_bool_decide as Hdec.
  { rewrite Hc in Hfin. injection Hfin as Hfin.
    destruct (start_export_config fs (append_log_text
      (nl +:+ nl +:+ "--- DECODE COMPLETE. STARTING EXPORT ---" +:+ nl)
      (set_btn_stop false g))) as [Hcfg Hout].
    rewrite Hfin in Hcfg, Hout. cbn [fst snd] in Hcfg, Hout. split; [done|].
    intros cfg Hin. rewrite (Hout cfg Hin). by rewrite Hcfg. }
  case_bool_decide as Hexp.
  - clear Hc. rewrite (process_finished_export fs g Hes Hcode Hexp) in Hfin.
    injection Hfin as <- <-. split; [done|]. destruct (fs (expected_mkv g)); no_save.
  - rewrite Hc in Hfin. injection Hfin as <- <-. split; [done|]. no_save.
Qed.

Lemma dispatch_config fs ev g g' out :
  dispatch fs ev g = Return (g', out) →
  (∀ key, is_Some (config g !! key) → is_Some (config g' !! key))
  ∧ ∀ cfg, SaveConfig cfg ∈ out → cfg = config g'.
Proof.
  intros
    [(-> & _ & Hs)|[(-> & _ & Hs)|[(status & code & -> & Hrun & Hs)|[(-> & Hs)|Hs]]]]%dispatch_cases.
  - destruct (start_process_out fs g) as [(_ & ? & ? & _ & Hr)|(Hpre & _)].
    + rewrite Hr in Hs. injection Hs as <- <-. split; [done|]. no_save.
    + rewrite (start_process_accepted fs g Hpre) in Hs. cbv zeta in Hs.
      injection Hs as <- <-. cbn [config]. split.
      * intros key Hkey. rewrite !lookup_insert_is_Some'. auto.
      * intros cfg [Hin|Hin]%elem_of_cons; [by injection Hin|].
        revert cfg Hin. destruct (state (process g)); no_save.
  - unfold kill_process in Hs. destruct (state (process g)); injection Hs as <- <-;
      (split; [done|]); no_save.
  - apply process_finished_config in Hs as [Hcfg Hout]. split; [|done].
    by rewrite Hcfg.
  - unfold closeEvent in Hs. injection Hs as <- <-. cbn [config set_config]. split.
    + intros key Hkey. rewrite !lookup_insert_is_Some'. auto.
    + by intros cfg [= ->]%list_elem_of_singleton.
  - destruct Hs as (-> & -> & _). split; [done|]. no_save.
Qed.

Lemma session_config evs g g' out :
  session evs g = Return (g', out) →
  (∀ key, is_Some (config g !! key) → is_Some (config g' !! key))
  ∧ ∀ cfg, SaveConfig cfg ∈ out →
      ∀ key, is_Some (config g !! key) → is_Some (cfg !! key).
Proof.
  revert g out. induction evs as [|[fs ev] evs IH]; intros g out; cbn [session].
  - intros [= <- <-]. split; [done|]. no_save.
  - destruct (dispatch fs ev g) as [[g1 out1]|] eqn:Hd; [|done]. cbn.
    destruct (session evs g1) as [[g2 out2]|] eqn:Hs; [|done]. cbn.
    intros [= <- <-].
    destruct (dispatch_config _ _ _ _ _ Hd) as [Hgrow1 Hout1].
    destruct (IH _ _ Hs) as [Hgrow2 Hout2]. split; [by auto|].
    intros cfg [Hin|Hin]%elem_of_app key Hkey.
    + rewrite (Hout1 cfg Hin). auto.
    + eapply Hout2; eauto.
Qed.

(** Only an edit and a run request change the form and the working
    directory. *)
Lemma start_export_keeps_form fs g :
  form (start_export fs g).1 = form g ∧ work_dir (start_export fs g).1 = work_dir g.
Proof.
  destruct (fs (path_join (work_dir g) (tbc_filename g))) eqn:Htbc.
  - by rewrite (start_export_found fs g Htbc).
  - by rewrite (start_export_missing fs g Htbc).
Qed.

Lemma process_finished_keeps_form fs g g' out :
  process_finished fs g = Return (g', out) →
  form g' = form g ∧ work_dir g' = work_dir g.
Proof.
  intros Hfin. pose proof (process_finished_cases fs g) as Hc.
  destruct (exitStatus (process g)) eqn:Hes.
  2:{ rewrite Hc in Hfin. by injection Hfin as <- <-. }
  case_bool_decide as Hcode.
  2:{ destruct (current_step g) as [step|]; rewrite Hc in Hfin; [|done].
      by injection Hfin as <- <-. }
  case_bool_decide as Hdec.
  { rewrite Hc in Hfin. injection Hfin as Hfin.
    destruct (start_export_keeps_form fs (append_log_text
      (nl +:+ nl +:+ "--- DECODE COMPLETE. STARTING EXPORT ---" +:+ nl)
      (set_btn_stop false g))) as [Hform Hwd].
    by rewrite Hfin in Hform, Hwd. }
  case_bool_decide as Hexp.
  - clear Hc. rewrite (process_finished_export fs g Hes Hcode Hexp) in Hfin.
    by injection Hfin as <- <-.
  - rewrite Hc in Hfin. by injection Hfin as <- <-.
Qed.

Lemma dispatch_keeps_form fs ev g g' out :
  edits ev = false → dispatch fs ev g = Return (g', out) →
  form g' = form g ∧ work_dir g' = work_dir g.
Proof.
  intros Hev Hd. destruct ev; try discriminate Hev; cbn [dispatch] in Hd.
  - unfold kill_process in Hd.
    by destruct (btn_stop g), (state (process g)); injection Hd as <- <-.
  - by injection Hd as <- <-.
  - by destruct (state (process g)); injection Hd as <- <-.
  - by destruct (state (process g)); injection Hd as <- <-.
  - destruct (state (process g)); [by injection Hd as <- <-..|].
    by apply process_finished_keeps_form in Hd.
  - by injection Hd as <- <-.
  - by injection Hd as <- <-.
Qed.

Lemma session_keeps_form evs g g' out :
  Forall (λ e, edits e.2 = false) evs → session evs g = Return (g', out) →
  form g' = form g ∧ work_dir g' = work_dir g.
Proof.
  intros Hevs. revert g out.
  induction Hevs as [|[fs ev] evs Hev _ IH]; intros g out; cbn [session].
  - by intros [= <- <-].
  - destruct (dispatch fs ev g) as [[g1 out1]|] eqn:Hd; [|done]. cbn.
    destruct (session evs g1) as [[g2 out2]|] eqn:Hs; [|done]. cbn.
    intros [= <- <-].
    destruct (dispatch_keeps_form _ _ _ _ _ Hev Hd) as [Hform Hwd].
    destruct (IH _ _ Hs) as [-> ->]. by split.
Qed.

(** The turns of a run that succeeds, one by one. *)
Lemma run_starts_decode fs g :
  btn_run g = true → state (process g) = NotRunning →
  run_preconditions fs (form g) = true →
  ∃ g' args,
    dispatch fs RunClicked g =
      Return (g', [SaveConfig (config g');
                   ProcessStart (strip (path_decode (form g))) args
                     (path_dirname (strip (input_file (form g))))])
    ∧ state (process g') = Starting ∧ current_step g' = Some "decode"
    ∧ form g' = form g ∧ work_dir g' = path_dirname (strip (input_file (form g))).
Proof.
  intros Hbtn Hst Hpre. cbn [dispatch]. rewrite Hbtn.
  rewrite (start_process_accepted fs g Hpre). cbv zeta. rewrite Hst. cbv beta iota.
  match goal with |- ∃ g' _, Return (?x, _) = _ ∧ _ => exists x end.
  eexists. split; [reflexivity|]. by split_and!.
Qed.

Lemma started_runs fs g :
  state (process g) = Starting →
  ∃ g', dispatch fs ProcStarted g = Return (g', [])
    ∧ state (process g') = Running ∧ current_step g' = current_step g
    ∧ form g' = form g ∧ work_dir g' = work_dir g
    ∧ btn_run g' = btn_run g ∧ btn_stop g' = btn_stop g.
Proof. intros Hst. cbn [dispatch]. rewrite Hst. by eexists. Qed.

Lemma decode_done_starts_export fs g :
  state (process g) = Running → current_step g = Some "decode" →
  fs (path_join (work_dir g) (tbc_filename g)) = true →
  ∃ g', dispatch fs (exit_with 0) g =
          Return (g', [ProcessStart (strip (path_export (form g)))
                         [tbc_filename g; export_filename g] (work_dir g)])
    ∧ state (process g') = Starting ∧ current_step g' = Some "export"
    ∧ form g' = form g ∧ work_dir g' = work_dir g
    ∧ btn_run g' = btn_run g ∧ btn_stop g' = true.
Proof.
  intros Hst Hstep Htbc. unfold exit_with. rewrite dispatch_finished, Hst.
  pose proof (process_finished_cases fs
    (set_process (finished NormalExit 0 (process g)) g)) as Hc.
  cbn [process exitStatus exitCode set_process finished current_step] in Hc.
  rewrite bool_decide_eq_true_2 in Hc by done.
  rewrite bool_decide_eq_true_2 in Hc by done.
  rewrite Hc. clear Hc.
  rewrite start_export_found by exact Htbc. cbv zeta.
  eexists. split; [reflexivity|]. by split_and!.
Qed.

Lemma export_done_reports fs g :
  state (process g) = Running → current_step g = Some "export" →
  fs (expected_mkv g) = true →
  ∃ g', dispatch fs (exit_with 0) g =
          Return (g', [MessageBox Information "Success" "Workflow Finished!"])
    ∧ state (process g') = NotRunning ∧ current_step g' = None
    ∧ btn_run g' = true ∧ btn_stop g' = false.
Proof.
  intros Hst Hstep Hmkv. unfold exit_with. rewrite dispatch_finished, Hst.
  rewrite process_finished_export by done.
  change (expected_mkv (set_process ?p g)) with (expected_mkv g). rewrite Hmkv.
  eexists. split; [reflexivity|]. by split_and!.
Qed.

(** X6. A whole run that succeeds. In a session, when START is clicked
    with the preconditions met, the decode tool starts and exits with code
    0, the decoded file is then there, the export tool starts and exits with
    code 0 and the exported file is then there, and no field is edited
    meanwhile, the outside sees exactly this, in order: the configuration is
    written, decode is started, export is started on the two file names in
    the directory of the input, and the Success box is shown. The widget is
    idle again with START enabled, STOP disabled and no stage recorded. *)
Theorem whole_run_succeeds fs0 fs1 fs2 fs3 fs4 evs cfg f w h g out :
  session evs (init cfg f w h) = Return (g, out) →
  btn_run g = true →
  run_preconditions fs0 (form g) = true →
  let dir := path_dirname (strip (input_file (form g))) in
  let name := strip (output_name (form g)) in
  fs2 (path_join dir (name +:+ ".tbc")) = true →
  fs4 (path_join dir (name +:+ ".tbcexported.mkv")) = true →
  ∃ g' cfg' args,
    session [ (fs0, RunClicked); (fs1, ProcStarted); (fs2, exit_with 0);
              (fs3, ProcStarted); (fs4, exit_with 0) ] g
    = Return (g', [ SaveConfig cfg';
                    ProcessStart (strip (path_decode (form g))) args dir;
                    ProcessStart (strip (path_export (form g)))
                      [name +:+ ".tbc"; name +:+ ".tbcexported.mkv"] dir;
                    MessageBox Information "Success" "Workflow Finished!" ])
    ∧ state (process g') = NotRunning ∧ current_step g' = None
    ∧ btn_run g' = true ∧ btn_stop g' = false.
Proof.
  intros Hs Hbtn Hpre dir name Htbc Hmkv.
  destruct (session_consistent evs (init cfg f w h) (consistent_init cfg f w h))
    as (g0 & out0 & Hs0 & Hrun & _).
  rewrite Hs in Hs0. injection Hs0 as <- <-. specialize (Hrun Hbtn).
  cbn [session].
  destruct (run_starts_decode fs0 g Hbtn Hrun Hpre)
    as (g1 & args & -> & Hst1 & Hstep1 & Hf1 & Hw1).
  rewrite bind_Return. cbv beta iota.
  destruct (started_runs fs1 g1 Hst1) as (g2 & -> & Hst2 & Hstep2 & Hf2 & Hw2 & Hb2 & _).
  rewrite bind_Return. cbv beta iota.
  destruct (decode_done_starts_export fs2 g2 Hst2) as
    (g3 & -> & Hst3 & Hstep3 & Hf3 & Hw3 & Hb3 & _).
  { by rewrite Hstep2. }
  { unfold tbc_filename. by rewrite Hf2, Hw2, Hf1, Hw1. }
  rewrite bind_Return. cbv beta iota.
  destruct (started_runs fs3 g3 Hst3) as (g4 & -> & Hst4 & Hstep4 & Hf4 & Hw4 & Hb4 & _).
  rewrite bind_Return. cbv beta iota.
  destruct (export_done_reports fs4 g4 Hst4) as (g5 & -> & Hst5 & Hstep5 & Hb5 & Hstop5).
  { by rewrite Hstep4. }
  { unfold expected_mkv, export_filename. by rewrite Hf4, Hw4, Hf3, Hw3, Hf2, Hw2, Hf1, Hw1. }
  cbn [mbind outcome_bind app].
  unfold tbc_filename, export_filename. rewrite Hf2, Hw2, Hf1, Hw1.
  eexists _, _, _. split; [reflexivity|]. by split_and!.
Qed.

End SessionSpec.

(** ** The configuration on disk *)

Section StoreSpec.
Import Py Json Config OsPath Gui Store.
Context {os : os_path}.

Lemma defaults_lookup key : is_Some (defaults !! key) ↔ key ∈ default_keys.
Proof.
  rewrite <-elem_of_dom, defaults_dom. unfold default_keys, defaults_items.
  cbn [fmap list_fmap fst]. set_solver.
Qed.

Lemma complete_union m : complete (m ∪ defaults).
Proof.
  intros key Hkey. apply lookup_union_is_Some. right. by apply defaults_lookup.
Qed.

(** On a record that has the five keys the merging loop adds nothing. *)
Lemma complete_absorb m : complete m → m ∪ defaults = m.
Proof.
  intros Hm. apply map_eq. intros key. rewrite lookup_union.
  destruct (m !! key) as [v|] eqn:Hv; [by destruct (defaults !! key)|].
  destruct (defaults !! key) as [d|] eqn:Hd; [|done].
  assert (key ∈ default_keys) as Hkey by (apply defaults_lookup; by rewrite Hd).
  destruct (Hm key Hkey) as [v Hv']. congruence.
Qed.

(** The merging loop on a JSON value that is no object: the value itself
    when Python finds every key in it, a [TypeError] otherwise. *)
Lemma merge_defaults_other items data :
  is_dict data = false →
  (Forall (λ kv, contains data kv.1 = Return true) items
   ∧ merge_defaults items data = Return data)
  ∨ (¬ Forall (λ kv, contains data kv.1 = Return true) items
     ∧ merge_defaults items data = Raise TypeError).
Proof.
  intros Hd. induction items as [|[key v] items IH]; [by left|].
  cbn [merge_defaults].
  destruct (contains data key) as [[|]|e] eqn:Hc; cbn [mbind outcome_bind negb].
  - destruct IH as [[Hall ->]|[Hall ->]]; [left|right]; split; try done.
    + by constructor.
    + intros Hall'. by inversion Hall'.
  - right. split.
    + intros Hall. inversion Hall as [|? ? Hk _]. cbn in Hk. congruence.
    + by destruct data.
  - right. split.
    + intros Hall. inversion Hall as [|? ? Hk _]. cbn in Hk. congruence.
    + destruct data; cbn in Hc; by simplify_eq.
Qed.

Lemma holds_all_keys_Forall data :
  holds_all_keys data ↔ Forall (λ kv, contains data kv.1 = Return true) defaults_items.
Proof.
  unfold holds_all_keys, default_keys. rewrite Forall_forall. split.
  - intros Hall [key v] Hin. apply Hall. apply list_elem_of_fmap. by exists (key, v).
  - intros Hall key ([key' v] & -> & Hin)%list_elem_of_fmap. by apply (Hall _ Hin).
Qed.

(** A record that [load_config] returns has the five keys. *)
Lemma loaded_dict_complete f m : load_config f = Return (JDict m) → complete m.
Proof.
  assert (complete defaults) as Hdef by (intros key; by rewrite defaults_lookup).
  destruct f as [| | | | | |data].
  1,2,4: intros [= <-]; exact Hdef.
  1,2,3: discriminate.
  destruct (is_dict data) eqn:Hd.
  - destruct data as [| | | | | |m']; try done.
    destruct (load_config_spec) as (_ & Hm & _). rewrite (proj1 (Hm m')).
    intros [= <-]. apply complete_union.
  - unfold load_config. cbn [path_exists negb json_load mbind outcome_bind].
    destruct (merge_defaults_other defaults_items data Hd) as [[_ ->]|[_ ->]]; [|done].
    intros [= ->]. done.
Qed.

(** X7. What [load_config] does on every file: one that is absent, one
    that cannot be read, bytes that are no text, text that is no JSON, JSON
    that [json.load] refuses to build, and JSON values. When it returns,
    the result is a record with the five recognised keys, except for a JSON
    value that is no object and in which Python finds the five key names (a
    list with the five names among its elements, a text with the five names
    inside it): that value is returned as it is. It raises
    [UnicodeDecodeError] on bytes that are no text, the [ValueError] and the
    [RecursionError] of [json.load] on JSON with an integer of too many
    digits and on JSON nested too deeply, and [TypeError] on every other
    JSON value that is no object. *)
Theorem load_config_on_every_file (f : config_file) :
  match load_config f with
  | Return r =>
      (∃ m, r = JDict m ∧ complete m)
      ∨ (f = Holds r ∧ is_dict r = false ∧ holds_all_keys r)
  | Raise e =>
      (f = Undecodable ∧ e = UnicodeDecodeError)
      ∨ (f = TooLong ∧ e = ValueError)
      ∨ (f = TooDeep ∧ e = RecursionError)
      ∨ (∃ data, f = Holds data ∧ is_dict data = false ∧ ¬ holds_all_keys data
                 ∧ e = TypeError)
  end.
Proof.
  destruct f as [| | | | | |data].
  - left. exists defaults. split; [done|]. intros key. by rewrite defaults_lookup.
  - left. exists defaults. split; [done|]. intros key. by rewrite defaults_lookup.
  - by left.
  - left. exists defaults. split; [done|]. intros key. by rewrite defaults_lookup.
  - right. by left.
  - right. right. by left.
  - destruct (is_dict data) eqn:Hd.
    + destruct data as [| | | | | |m]; try done.
      destruct (load_config_spec) as (_ & Hm & _). rewrite (proj1 (Hm m)).
      left. exists (m ∪ defaults). split; [done|]. apply complete_union.
    + unfold load_config. cbn [path_exists negb json_load mbind outcome_bind].
      destruct (merge_defaults_other defaults_items data Hd) as [[Hall ->]|[Hall ->]].
      * right. by rewrite holds_all_keys_Forall.
      * do 3 right. exists data. by rewrite holds_all_keys_Forall.
Qed.

(** X8. What a session writes is what the next session reads. When the
    record of a session was read by [load_config], every record that the
    session hands to [save_config], at a run request or at the close of the
    window, still has the five keys, and once written it is returned by
    [load_config] unchanged: the merging loop replaces nothing by a
    default. *)
Theorem saved_config_is_loaded_back f0 cfg0 evs f w h g out cfg disk :
  load_config f0 = Return (JDict cfg0) →
  session evs (init cfg0 f w h) = Return (g, out) →
  SaveConfig cfg ∈ out →
  complete cfg
  ∧ load_config (save_config Written cfg disk) = Return (JDict cfg).
Proof.
  intros Hload Hs Hin.
  assert (complete cfg0) as H0.
  { by eapply loaded_dict_complete. }
  assert (complete cfg) as Hcfg.
  { intros key Hkey. eapply (proj2 (session_config _ _ _ _ Hs)); [done|].
    by apply H0. }
  split; [done|]. cbn [save_config].
  destruct (load_config_spec) as (_ & Hm & _). rewrite (proj1 (Hm cfg)).
  by rewrite complete_absorb.
Qed.

(** X9. Closing the window and starting again: the record written by
    [closeEvent] is read back by [load_config] with the size that the
    window had when it was closed, and with every other entry of the
    session's record. *)
Theorem close_then_load_restores g fs disk :
  ∃ g' cfg m,
    dispatch fs CloseRequested g = Return (g', [SaveConfig cfg])
    ∧ load_config (save_config Written cfg disk) = Return (JDict m)
    ∧ m !! "window_width" = Some (JInt (width g))
    ∧ m !! "window_height" = Some (JInt (height g))
    ∧ ∀ key v, key ≠ "window_width" → key ≠ "window_height" →
        config g !! key = Some v → m !! key = Some v.
Proof.
  eexists _, _, _. split; [reflexivity|]. cbn [save_config].
  destruct (load_config_spec) as (_ & Hm & _). split; [apply Hm|].
  split_and!.
  - apply lookup_union_Some_l. rewrite lookup_insert_ne by done. apply lookup_insert_eq.
  - apply lookup_union_Some_l. apply lookup_insert_eq.
  - intros key v Hw Hh Hv. apply lookup_union_Some_l.
    by rewrite !lookup_insert_ne.
Qed.

End StoreSpec.

(** ** Where the stages look for their files *)

Section PathSpec.
Import Py Json OsPath Gui Session.

Lemma string_app_assoc (a b c : string) : (a +:+ b) +:+ c = a +:+ b +:+ c.
Proof.
  induction a as [|x a IH]; [done|].
  change ((String x a +:+ b) +:+ c) with (String x ((a +:+ b) +:+ c)). by rewrite IH.
Qed.

(** [posixpath.join] and a suffix that does not start with a slash. *)
Lemma posix_join_suffix a b c s :
  c ≠ sep → posix_join a (b +:+ String c s) = posix_join a b +:+ String c s.
Proof.
  intros Hc. destruct b as [|c' b].
  - change ("" +:+ String c s) with (String c s). cbn [posix_join].
    destruct (Ascii.eqb_spec c sep) as [->|_]; [done|].
    destruct (String.eqb a "" || ends_with_sep a); [done|].
    by rewrite string_app_assoc.
  - change (String c' b +:+ String c s) with (String c' (b +:+ String c s)).
    cbn [posix_join]. destruct (Ascii.eqb c' sep); [done|].
    destruct (String.eqb a "" || ends_with_sep a).
    + by rewrite string_app_assoc.
    + by rewrite string_app_assoc.
Qed.

Lemma rstrip_sep_nil s : rstrip_sep s = "" → all_sep s = true.
Proof.
  induction s as [|c s IH]; [done|]. cbn [rstrip_sep all_sep].
  destruct (rstrip_sep s); [|done]. destruct (Ascii.eqb c sep); [|done].
  intros _. by rewrite IH.
Qed.

(** The directory of an absolute path is absolute, and so is what is
    joined to an absolute directory. *)
Lemma posix_dirname_abs p : is_abs p = true → is_abs (posix_dirname p) = true.
Proof.
  destruct p as [|c p]; [done|]. cbn [is_abs]. intros Hc.
  assert (∃ h, (split_last_sep (String c p)).1 = String c h) as [h Hh].
  { cbn [split_last_sep]. destruct (split_last_sep p) as [[|c' h] t].
    - rewrite Hc. by eexists.
    - by eexists. }
  unfold posix_dirname. cbv zeta. rewrite Hh.
  destruct (negb (String.eqb (String c h) "") && negb (all_sep (String c h))) eqn:Hcase;
    [|done].
  apply andb_prop in Hcase as [_ Hns%negb_true_iff].
  cbn [rstrip_sep]. destruct (rstrip_sep h) as [|c' h'] eqn:Hr; [|done].
  apply rstrip_sep_nil in Hr. cbn [all_sep] in Hns. by rewrite Hc, Hr in Hns.
Qed.

Lemma posix_join_abs a b : is_abs a = true → is_abs (posix_join a b) = true.
Proof.
  destruct a as [|c a]; [done|]. intros Ha. unfold posix_join.
  destruct b as [|c' b].
  - by destruct (String.eqb (String c a) "" || ends_with_sep (String c a)).
  - destruct (Ascii.eqb c' sep) eqn:Hc'; [done|].
    by destruct (String.eqb (String c a) "" || ends_with_sep (String c a)).
Qed.

(** X10. With [posixpath] and an input file given by an absolute path, the
    export stage looks for the decoded file exactly where the decode stage
    was told to write: when a run request is accepted and neither a field
    is edited nor START clicked afterwards, the output path given to decode
    is absolute, the file that [start_export] tests is that path followed by
    [.tbc], and the file that [process_finished] tests is that path followed
    by [.tbcexported.mkv]. Being absolute, the paths name the same files in
    the working directory of the tools and in that of the widget. *)
Theorem export_seeks_what_decode_wrote fs g g1 out1 evs g2 out2 :
  btn_run g = true →
  run_preconditions fs (form g) = true →
  is_abs (strip (input_file (form g))) = true →
  dispatch (os := posixpath) fs RunClicked g = Return (g1, out1) →
  Forall (λ e, edits e.2 = false) evs →
  session (os := posixpath) evs g1 = Return (g2, out2) →
  let output_arg := posix_join (posix_dirname (strip (input_file (form g))))
                               (strip (output_name (form g))) in
  is_abs output_arg = true
  ∧ is_abs (work_dir g2) = true
  ∧ posix_join (work_dir g2) (strip (output_name (form g2)) +:+ ".tbc")
    = output_arg +:+ ".tbc"
  ∧ posix_join (work_dir g2) (strip (output_name (form g2)) +:+ ".tbcexported.mkv")
    = output_arg +:+ ".tbcexported.mkv".
Proof.
  intros Hbtn Hpre Habs Hd Hevs Hs. cbv zeta.
  cbn [dispatch] in Hd. rewrite Hbtn in Hd.
  rewrite (start_process_accepted (os := posixpath) fs g Hpre) in Hd. cbv zeta in Hd.
  injection Hd as <- <-.
  destruct (session_keeps_form (os := posixpath) _ _ _ _ Hevs Hs) as [Hform Hwd].
  cbn [form work_dir] in Hform, Hwd.
  rewrite Hform, Hwd. cbn [path_join path_dirname posixpath].
  pose proof (posix_dirname_abs _ Habs) as Hdir.
  split_and!; [by apply posix_join_abs|done|by apply posix_join_suffix..].
Qed.

(** Without the hypothesis on the input the paths need not name the same
    file: [start_process] on a relative input with a directory part. *)
Lemma relative_input_is_run_in_its_directory :
  ∃ g' cfg args,
    start_process (os := posixpath) (λ _, true) (init Config.defaults Cases.relative_form 900 750)
    = (g', [SaveConfig cfg;
            ProcessStart "/opt/vhs/decode.exe" (args ++ ["tape1.u8"; "caps/tape1"]) "caps"])
    ∧ work_dir g' = "caps"
    ∧ posix_join (work_dir g') (strip (output_name (form g')) +:+ ".tbc") = "caps/tape1.tbc".
Proof.
  eexists _, _, ["vhs"; "--tape_format"; "vhs"; "--system"; "pal"; "--threads"; "8";
                 "--recheck_phase"].
  split; [vm_compute; reflexivity|]. split; vm_compute; reflexivity.
Qed.

End PathSpec.

(** ** The monitor of cxcheck.pyw *)

Section MonitorSpec.
Import Py CxCheck Monitor.

(** A line that the pattern matches holds the marker text: the test for
    the marker never drops a line that the pattern would have matched. *)
Lemma search_marker line group :
  search line = Some group → str_in "lavfi.signalstats.YMIN" line = true.
Proof.
  induction line as [|c line IH]; cbn [search]; unfold match_here.
  - cbn. discriminate.
  - destruct (strip_prefix "lavfi.signalstats.YMIN=" (String c line)) as [rest|] eqn:Hp.
    + intros _. apply strip_prefix_spec in Hp. apply str_in_spec.
      exists "", ("=" +:+ rest). by rewrite Hp.
    + intros Hs. apply IH in Hs. cbn [str_in].
      by destruct (strip_prefix "lavfi.signalstats.YMIN" (String c line)).
Qed.

Lemma read_digits_spec s acc count :
  ∃ n, read_digits s acc count = (n, (count + count_leading s)%nat, skip_digits s).
Proof.
  revert acc count. induction s as [|c s IH]; intros acc count; cbn.
  - exists acc. by rewrite Nat.add_0_r.
  - destruct (is_digit c).
    + destruct (IH (10 * acc + (Z.of_nat (nat_of_ascii c) - 48)) (S count)) as [n ->].
      exists n. by rewrite Nat.add_succ_r.
    + exists acc. by rewrite Nat.add_0_r.
Qed.

Lemma class_after_digits s :
  all_in_class s = true →
  skip_digits s = "" ∨ ∃ r, skip_digits s = String "." r ∧ all_in_class r = true.
Proof.
  induction s as [|c s IH]; [by left|]. cbn [all_in_class skip_digits].
  intros [Hc Hs]%andb_prop. destruct (is_digit c) eqn:Hd; [by apply IH|].
  unfold in_class in Hc. rewrite Hd in Hc. apply Ascii.eqb_eq in Hc as ->. right. by exists s.
Qed.

Lemma digit_is_no_dot c : is_digit c = true → Ascii.eqb c "." = false.
Proof. destruct (Ascii.eqb_spec c ".") as [->|]; [by vm_compute|done]. Qed.

Lemma count_dots_skip s : count_dots s = count_dots (skip_digits s).
Proof.
  induction s as [|c s IH]; [done|]. cbn [count_dots skip_digits].
  destruct (is_digit c) eqn:Hd; [|done]. by rewrite (digit_is_no_dot c Hd).
Qed.

Lemma has_digit_skip s :
  has_digit s = negb (count_leading s =? 0)%nat || has_digit (skip_digits s).
Proof.
  induction s as [|c s IH]; [done|]. cbn [has_digit skip_digits count_leading].
  by destruct (is_digit c) eqn:Hd; [|cbn; rewrite Hd].
Qed.

(** [float] accepts a text of digits and dots exactly when it holds at most
    one dot and at least one digit. *)
Lemma float_of_str_class s :
  all_in_class s = true →
  (returns (float_of_str s) ↔ (count_dots s ≤ 1)%nat ∧ has_digit s = true)
  ∧ (¬ returns (float_of_str s) → float_of_str s = Raise ValueError).
Proof.
  intros Hs. unfold float_of_str.
  destruct (read_digits_spec s 0 0) as [n ->].
  rewrite (count_dots_skip s), (has_digit_skip s). cbn [Nat.add].
  destruct (class_after_digits s Hs) as [->|(r & -> & Hr)].
  - cbn [count_dots has_digit]. rewrite orb_false_r.
    destruct (count_leading s =? 0)%nat; cbn [negb]; split; try done.
    + split; [by intros [? ?]|by intros [_ ?]].
    + split; [intros _; split; [lia|done]|by eexists].
    + intros []. by eexists.
  - rewrite Ascii.eqb_refl. destruct (read_digits_spec r n 0) as [n' ->].
    cbn [count_dots has_digit Nat.add]. rewrite Ascii.eqb_refl.
    change (is_digit ".") with false. cbn [orb].
    rewrite (count_dots_skip r), (has_digit_skip r).
    destruct (class_after_digits r Hr) as [->|(r' & -> & _)].
    + cbn [count_dots has_digit]. rewrite orb_false_r.
      destruct (count_leading s) as [|k], (count_leading r) as [|k']; cbn; split;
        try done; try (split; [by intros [? ?]|by intros [_ ?]]);
        try (split; [intros _; split; [lia|done]|by eexists]);
        try (intros []; by eexists).
    + cbn [count_dots]. rewrite Ascii.eqb_refl. split; [|done].
      split; [by intros [? ?]|]. intros [? _]. lia.
Qed.

(** X11. A line of the error channel gives a metric exactly when the
    pattern matches it and the text that the pattern captures holds at most
    one dot and at least one digit. The test for the marker text drops no
    line that the pattern matches, and texts such as [1.2.3] and [.], which
    the pattern captures and [float] refuses, are dropped by the handler of
    [ValueError]. *)
Theorem line_gives_metric_iff line :
  is_Some (extract_metric line) ↔
    ∃ group, search line = Some group
             ∧ (count_dots group ≤ 1)%nat ∧ has_digit group = true.
Proof.
  unfold extract_metric. destruct (search line) as [group|] eqn:Hs.
  - rewrite (search_marker line group Hs). cbn [negb].
    destruct (search_in_class line group Hs) as [_ Hclass].
    destruct (float_of_str_class group Hclass) as [Hiff _].
    destruct (float_of_str group) as [x|e] eqn:Hf.
    + split; [|by eauto]. intros _. exists group. split; [done|].
      apply Hiff. by exists x.
    + split; [by intros [? ?]|]. intros (group' & [= <-] & Hok).
      apply Hiff in Hok as [? ?]. done.
  - split.
    + destruct (negb _); by intros [? ?].
    + by intros (? & ? & _).
Qed.

Lemma monitor_loop_running device_id lines rest :
  monitor_loop device_id (running lines ++ rest)
  = omap (monitor_line device_id) lines ++ monitor_loop device_id rest.
Proof.
  induction lines as [|line lines IH]; [done|].
  cbn [running fmap list_fmap app monitor_loop negb omap list_omap].
  fold (running lines). rewrite IH. by destruct (monitor_line device_id line).
Qed.

(** X12. The samples that [run] emits are those of the lines read while
    [is_running] holds, one for each line that gives a metric, in the order
    of the lines; the line at which the flag is found cleared is not
    examined, and nothing that follows it is. *)
Theorem samples_follow_lines device_id lines line rest :
  monitor_loop device_id (running lines) = omap (monitor_line device_id) lines
  ∧ monitor_loop device_id (running lines ++ (false, line) :: rest)
    = omap (monitor_line device_id) lines.
Proof.
  split.
  - rewrite <-(app_nil_r (running lines)), monitor_loop_running. cbn. by rewrite app_nil_r.
  - rewrite monitor_loop_running. cbn. by rewrite app_nil_r.
Qed.

(** [int] of a float that [float] gave: there is none for the infinity,
    and otherwise it is not negative and below 60 exactly when the float
    is. *)
Lemma int_of_float_nonneg x :
  nonneg_float x →
  (x = S754_infinity false ∧ int_of_float x = Failed OverflowError)
  ∨ ∃ n, int_of_float x = Done n ∧ 0 ≤ n
         ∧ (float_below x SYNC_THRESHOLD ↔ n < 60).
Proof.
  unfold SYNC_THRESHOLD.
  destruct x as [s|s| |s m e]; cbn [nonneg_float int_of_float float_below].
  - intros _. right. exists 0. split; [done|]. lia.
  - intros ->. by left.
  - intros [].
  - intros [-> _]. right. eexists. split; [done|]. cbv zeta.
    destruct (Z.leb_spec 0 e) as [He|He].
    + split; [|done]. apply Z.mul_nonneg_nonneg; [lia|]. by apply Z.pow_nonneg.
    + assert (0 < 2 ^ (- e)) as Hpow by (apply Z.pow_pos_nonneg; lia).
      split; [apply Z.div_pos; lia|]. split.
      * intros Hlt. apply Z.div_lt_upper_bound; lia.
      * intros Hlt. pose proof (Z.mul_succ_div_gt (Z.pos m) (2 ^ (- e)) Hpow). nia.
Qed.

Lemma setValue_in_range value row :
  0 ≤ value ≤ 255 →
  setValue value row =
    Done {| row_device := row_device row; lbl_name := lbl_name row;
            lbl_status := lbl_status row; status_style := status_style row;
            lbl_value := lbl_value row; progress := value |}.
Proof.
  intros Hv. unfold setValue.
  destruct (Z.leb_spec (-2147483648) value); [|lia].
  destruct (Z.leb_spec value 2147483647); [|lia].
  destruct (Z.leb_spec 0 value); [|lia].
  destruct (Z.leb_spec value 255); [|lia]. done.
Qed.

(** X13. The row of a device on a sample of the monitor. [update_data]
    fails only on a metric that [float] read as infinity, with
    [OverflowError]. Otherwise the bar is set within its range, to 255 less
    the metric without its fraction and not below 0, and the label agrees
    with the bar: the row says SIGNAL exactly when the bar is at 196 or
    more, and NO SIGNAL exactly when it is below. *)
Theorem row_agrees_with_bar device_id line s row :
  monitor_line device_id line = Some s →
  match update_data (sample_ymin s) (sample_has_signal s) row with
  | Done row' =>
      (∃ n, 0 ≤ n ∧ int_of_float (sample_ymin s) = Done n
            ∧ lbl_value row' = "YMIN: " +:+ str_of_int n
            ∧ progress row' = Z.max 0 (255 - n))
      ∧ 0 ≤ progress row' ≤ 255
      ∧ (lbl_status row' = SIGNAL ↔ 196 ≤ progress row')
      ∧ (lbl_status row' = NO_SIGNAL ↔ progress row' < 196)
  | Failed e => e = OverflowError ∧ sample_ymin s = S754_infinity false
  end.
Proof.
  unfold monitor_line. destruct (extract_metric line) as [ymin|] eqn:Hx; [|done].
  intros [= <-]. cbn [sample_ymin sample_has_signal].
  pose proof (extract_metric_nonneg line ymin Hx) as Hnn.
  pose proof (float_lt_threshold ymin Hnn) as Hlt.
  unfold update_data.
  destruct (int_of_float_nonneg ymin Hnn) as [[-> ->]|(n & -> & Hn & Hbelow)]; [done|].
  rewrite setValue_in_range by lia.
  assert (SIGNAL ≠ NO_SIGNAL) as Hne by discriminate.
  destruct (float_lt_int ymin SYNC_THRESHOLD) eqn:Hsig; cbn [lbl_value progress lbl_status].
  - assert (n < 60) by (apply Hbelow, Hlt; done).
    split; [by exists n|]. split; [lia|]. split; [split; [lia|done]|].
    split; [intros Heq; by destruct Hne|lia].
  - assert (¬ n < 60) by (intros Hlt'; apply Hbelow, Hlt in Hlt'; congruence).
    split; [by exists n|]. split; [lia|]. split; [|split; [lia|done]].
    split; [intros Heq; by destruct Hne|lia].
Qed.

Lemma foldl_add_device devices w :
  workers (foldl add_device w devices) = workers w ++ (DeviceMonitorWorker <$> devices)
  ∧ container_layout (foldl add_device w devices)
    = container_layout w ++ (RowOf <$> devices)
  ∧ ∀ dev, device_rows (foldl add_device w devices) !! dev =
      if bool_decide (dev ∈ devices) then Some (DeviceRow_new dev)
      else device_rows w !! dev.
Proof.
  revert w. induction devices as [|d devices IH]; intros w; cbn [foldl fmap list_fmap].
  - rewrite !app_nil_r. split; [done|]. split; [done|]. intros dev.
    rewrite bool_decide_eq_false_2; [done|]. by intros ?%elem_of_nil.
  - destruct (IH (add_device w d)) as (-> & -> & Hrows). cbn [add_device workers container_layout].
    rewrite <-!app_assoc. split; [done|]. split; [done|]. intros dev. rewrite Hrows.
    cbn [add_device device_rows]. destruct (decide (dev = d)) as [->|Hne].
    + rewrite lookup_insert_eq. rewrite (bool_decide_eq_true_2 (d ∈ d :: devices)) by left.
      by case_bool_decide.
    + rewrite lookup_insert_ne by done.
      case_bool_decide as Hin.
      * rewrite bool_decide_eq_true_2; [done|]. by right.
      * rewrite bool_decide_eq_false_2; [done|]. by intros [?|?]%elem_of_cons.
Qed.

(** [handle_update] changes a row and nothing else of the window. *)
Lemma handle_update_frame s w w' :
  handle_update s w = Done w' →
  workers w' = workers w ∧ container_layout w' = container_layout w
  ∧ ∀ dev, is_Some (device_rows w' !! dev) ↔ is_Some (device_rows w !! dev).
Proof.
  unfold handle_update. destruct (device_rows w !! sample_device s) as [row|] eqn:Hrow.
  - destruct (update_data _ _ row) as [row'|e]; [|done]. intros [= <-].
    cbn [workers container_layout device_rows]. split; [done|]. split; [done|].
    intros dev. rewrite lookup_insert_is_Some'.
    split; [intros [<-|?]; [by rewrite Hrow|done]|by right].
  - by intros [= <-].
Qed.

Lemma handle_all_frame samples w w' :
  handle_all samples w = Done w' →
  workers w' = workers w ∧ container_layout w' = container_layout w
  ∧ ∀ dev, is_Some (device_rows w' !! dev) ↔ is_Some (device_rows w !! dev).
Proof.
  revert w. induction samples as [|s samples IH]; intros w; cbn [handle_all].
  - by intros [= <-].
  - destruct (handle_update s w) as [w1|e] eqn:Hs; [|done]. intros Hall.
    destruct (handle_update_frame _ _ _ Hs) as (Hw & Hl & Hr).
    destruct (IH _ Hall) as (-> & -> & Hr'). split; [done|]. split; [done|].
    intros dev. by rewrite Hr', Hr.
Qed.

(** X14. After [init_devices], the window has one worker and one row for
    each device that the detection kept, in ascending order of the devices,
    and none for any other device; with no device it shows the text that
    says so and starts no worker. However many samples the slot has handled
    since, of whatever devices, the window keeps its workers and the devices
    of its rows, and whatever a worker of the window then emits, on any
    error channel, [handle_update] finds the row of its device as the
    earlier samples left it and hands the sample to [update_data] there:
    the test of the slot never drops a sample. *)
Theorem init_devices_rows popen :
  let devices := detect_cxadc_devices popen 8 in
  let w := init_devices popen MainWindow_new in
  workers w = DeviceMonitorWorker <$> devices
  ∧ container_layout w
    = match devices with
      | [] => [Label "No cxadc devices found."]
      | _ => RowOf <$> devices
      end
  ∧ (∀ dev, device_rows w !! dev =
       if bool_decide (0 ≤ dev < 8 ∧ kept popen dev = true)
       then Some (DeviceRow_new dev) else None)
  ∧ StronglySorted Z.lt devices
  ∧ ∀ earlier w',
      handle_all earlier w = Done w' →
      workers w' = workers w
      ∧ (∀ dev, is_Some (device_rows w' !! dev) ↔ dev ∈ devices)
      ∧ ∀ worker stderr s,
          worker ∈ workers w → s ∈ monitor_loop (device_id worker) stderr →
          ∃ row,
            device_rows w' !! device_id worker = Some row
            ∧ handle_update s w' =
                match update_data (sample_ymin s) (sample_has_signal s) row with
                | Done row' =>
                    Done {| workers := workers w';
                            device_rows := <[device_id worker := row']> (device_rows w');
                            container_layout := container_layout w' |}
                | Failed e => Failed e
                end.
Proof.
  cbv zeta.
  assert (∀ dev, dev ∈ detect_cxadc_devices popen 8 ↔ 0 ≤ dev < 8 ∧ kept popen dev = true)
    as Hmem.
  { intros dev. unfold detect_cxadc_devices, range.
    rewrite detect_loop_filter, app_nil_l, list_elem_of_filter, elem_of_seqZ.
    split; [intros [? ?]|intros [? ?]]; split; (done || lia). }
  assert (StronglySorted Z.lt (detect_cxadc_devices popen 8)) as Hsorted.
  { unfold detect_cxadc_devices, range. rewrite detect_loop_filter, app_nil_l.
    apply filter_sorted, range_sorted. }
  assert (∀ dev, device_rows (init_devices popen MainWindow_new) !! dev =
    if bool_decide (dev ∈ detect_cxadc_devices popen 8) then Some (DeviceRow_new dev)
    else None) as Hrows.
  { intros dev. unfold init_devices. cbv zeta.
    destruct (detect_cxadc_devices popen 8) as [|d devices] eqn:Hdev.
    - cbn [device_rows MainWindow_new]. rewrite lookup_empty.
      rewrite bool_decide_eq_false_2; [done|]. by intros ?%elem_of_nil.
    - destruct (foldl_add_device (d :: devices) MainWindow_new) as (_ & _ & ->).
      cbn [device_rows MainWindow_new]. by rewrite lookup_empty. }
  assert (workers (init_devices popen MainWindow_new)
          = DeviceMonitorWorker <$> detect_cxadc_devices popen 8) as Hworkers.
  { unfold init_devices. cbv zeta.
    destruct (detect_cxadc_devices popen 8) as [|d devices] eqn:Hdev; [done|].
    by destruct (foldl_add_device (d :: devices) MainWindow_new) as (-> & _). }
  split_and!.
  - done.
  - unfold init_devices. cbv zeta.
    destruct (detect_cxadc_devices popen 8) as [|d devices] eqn:Hdev; [done|].
    by destruct (foldl_add_device (d :: devices) MainWindow_new) as (_ & -> & _).
  - intros dev. rewrite Hrows. by rewrite (bool_decide_ext _ _ (Hmem dev)).
  - done.
  - intros earlier w' Hall.
    destruct (handle_all_frame _ _ _ Hall) as (Hw & _ & Hdom).
    assert (∀ dev, is_Some (device_rows w' !! dev) ↔ dev ∈ detect_cxadc_devices popen 8)
      as Hdom'.
    { intros dev. etrans; [apply Hdom|]. rewrite Hrows.
      case_bool_decide; [|by split; [intros [? ?]|]].
      split; [done|by eexists]. }
    split; [done|]. split; [done|].
    intros worker stderr s Hin Hs. rewrite Hworkers in Hin.
    apply list_elem_of_fmap in Hin as (dev & -> & Hdev).
    apply monitor_loop_classified in Hs as [Hs _].
    change (device_id (DeviceMonitorWorker dev)) with dev in *.
    destruct (proj2 (Hdom' dev) Hdev) as [row Hrow]. exists row. split; [done|].
    unfold handle_update. by rewrite Hs, Hrow.
Qed.

(** X15. [run] never leaves the child it started unattended. When [Popen]
    gave a child, [run] emits the samples of the error channel and then, in
    its [finally] clause, asks the child to terminate unless it has exited
    already, and kills it exactly when it is still there a second later;
    when [Popen] raised, a worker without a child requests nothing and emits
    nothing. In both cases the worker ends without a child and with
    [is_running] cleared. *)
Theorem run_cleans_up w spawn stderr :
  match spawn with
  | Return p =>
      run w spawn stderr =
        ({| device_id := device_id w; is_running := false; process := None |},
         monitor_loop (device_id w) stderr,
         if exited p then []
         else if exits_in_time p then [Terminate] else [Terminate; Kill])
  | Raise _ =>
      process w = None →
      run w spawn stderr =
        ({| device_id := device_id w; is_running := false; process := None |}, [], [])
  end.
Proof.
  destruct spawn as [p|e].
  - unfold run, stop_process, terminate, kill, wait.
    cbn [process device_id is_running].
    by destruct (exited p), (exits_in_time p).
  - intros Hp. unfold run, stop_process. cbn [process]. rewrite Hp. by rewrite <-Hp.
Qed.

End MonitorSpec.

(** ** Further scenarios *)

Section FurtherScenarios.
Import Py Json Config CxCheck Monitor OsPath Gui Session Store Scenario Cases.

Local Ltac compute_eq := vm_compute; reflexivity.

(** The progress line of the tool reaches the log with its carriage return
    replaced. *)
Lemma log_witness : no_cr (log_output (after progress_events idle)) = true.
Proof.
  apply (session_log_has_no_carriage_return (os := posixpath) progress_events
           Config.defaults form0 900 750 (after progress_events idle)
           (shown progress_events idle)).
  compute_eq.
Defined.

(** The run request of the scenario: decode is started in [/caps] on
    [tape1.u8], to write [/caps/tape1]. *)
Lemma run_witness :
  ∃ g' options,
    dispatch (os := posixpath) inputs RunClicked idle =
      Return (g', [SaveConfig (config g');
                   ProcessStart "/opt/vhs/decode.exe"
                     ("vhs" :: options ++ ["tape1.u8"; "/caps/tape1"]) "/caps"])
    ∧ state (process g') = Starting
    ∧ config g' !! "last_input_file" = Some (JStr "/caps/tape1.u8").
Proof.
  destruct (accepted_run_request_starts_decode (os := posixpath) [] Config.defaults
              form0 900 750 idle [] inputs)
    as (g' & options & Hd & Hst & _ & _ & _ & _ & _ & Hin & _);
    [compute_eq..|].
  exists g', options. split; [exact Hd|]. split; [exact Hst|exact Hin].
Defined.

(** The decode tool cannot be started: START stays disabled whatever is
    clicked afterwards. *)
Lemma stuck_witness :
  btn_run (after ((inputs, ProcFailedToStart) :: clicks) launching) = false
  ∧ state (process (after ((inputs, ProcFailedToStart) :: clicks) launching)) = NotRunning
  ∧ ¬ starts (shown ((inputs, ProcFailedToStart) :: clicks) launching).
Proof.
  apply (failed_start_leaves_widget_stuck (os := posixpath) inputs clicks launching);
    compute_eq.
Defined.

(** STOP during the decode stage of the scenario. *)
Lemma stop_witness :
  ∃ g', session (os := posixpath)
          [(inputs, StopClicked); (inputs, ProcFinished CrashExit 9)] decoding
        = Return (g', [ProcessKill])
    ∧ state (process g') = NotRunning ∧ btn_run g' = true ∧ btn_stop g' = false
    ∧ current_step g' = Some "decode"
    ∧ log_output g' = log_output decoding +:+ stop_message.
Proof.
  apply (stop_then_exit_halts_quietly (os := posixpath) inputs inputs 9 "decode" decoding).
  - split; compute_eq.
  - compute_eq.
Defined.

(** The record that the run request of the scenario writes, in a session
    that started without a configuration file. *)
Lemma reload_witness :
  complete (config launching)
  ∧ load_config (save_config Written (config launching) Absent)
    = Return (JDict (config launching)).
Proof.
  apply (saved_config_is_loaded_back (os := posixpath) Absent Config.defaults
           [(inputs, RunClicked)] form0 900 750 launching
           (shown [(inputs, RunClicked)] idle) (config launching) Absent).
  - reflexivity.
  - compute_eq.
  - vm_compute. left.
Defined.

(** The files of the scenario: decode writes [/caps/tape1], and the export
    stage looks for [/caps/tape1.tbc] and [/caps/tape1.tbcexported.mkv]. *)
Lemma paths_witness :
  is_abs "/caps/tape1" = true
  ∧ is_abs (work_dir decoding) = true
  ∧ posix_join (work_dir decoding) (strip (output_name (form decoding)) +:+ ".tbc")
    = "/caps/tape1" +:+ ".tbc"
  ∧ posix_join (work_dir decoding)
      (strip (output_name (form decoding)) +:+ ".tbcexported.mkv")
    = "/caps/tape1" +:+ ".tbcexported.mkv".
Proof.
  apply (export_seeks_what_decode_wrote inputs idle launching
           (shown [(inputs, RunClicked)] idle) [(inputs, ProcStarted)] decoding []).
  - compute_eq.
  - compute_eq.
  - compute_eq.
  - compute_eq.
  - repeat constructor.
  - compute_eq.
Defined.

(** The run of the scenario from START to the Success box. *)
Lemma whole_run_witness :
  ∃ g' cfg' args,
    session (os := posixpath)
      [ (inputs, RunClicked); (inputs, ProcStarted); (decoded, exit_with 0);
        (decoded, ProcStarted); (exported, exit_with 0) ] idle
    = Return (g', [ SaveConfig cfg';
                    ProcessStart "/opt/vhs/decode.exe" args "/caps";
                    ProcessStart "/opt/vhs/tbc-video-export.exe"
                      ["tape1.tbc"; "tape1.tbcexported.mkv"] "/caps";
                    MessageBox Information "Success" "Workflow Finished!" ])
    ∧ btn_run g' = true ∧ btn_stop g' = false.
Proof.
  pose proof (whole_run_succeeds (os := posixpath) inputs inputs decoded decoded
                exported [] Config.defaults form0 900 750 idle []
                ltac:(compute_eq) ltac:(compute_eq) ltac:(compute_eq)) as Hrun.
  cbv zeta in Hrun.
  destruct (Hrun ltac:(compute_eq) ltac:(compute_eq))
    as (g' & cfg' & args & Hs & _ & _ & Hb & Hstop).
  exists g', cfg', args. split; [exact Hs|]. split; [exact Hb|exact Hstop].
Defined.

(** White space beyond code point 127 around the fields is dropped as
    [str.strip] drops it: the run request on the padded form is accepted
    and names the files without it, and an output name that is a no-break
    space only is refused as an empty one. *)
Example strip_knows_unicode_space :
  strip (wide_space +:+ " tape 1" +:+ nbsp +:+ String (ascii_of_nat 9) nbsp) = "tape 1"
  ∧ strip nbsp = "".
Proof. split; compute_eq. Qed.

Example padded_fields_are_stripped :
  (start_process (os := posixpath) inputs (init Config.defaults padded_form 900 750)).2
  = [ SaveConfig (config launching);
      ProcessStart "/opt/vhs/decode.exe"
        ["vhs"; "--tape_format"; "vhs"; "--system"; "pal"; "--threads"; "8";
         "--recheck_phase"; "tape1.u8"; "/caps/tape1"] "/caps" ]
  ∧ (start_process (os := posixpath) inputs (init Config.defaults blank_name_form 900 750)).2
    = [ MessageBox Warning "Error" "Please specify an output name." ].
Proof. split; compute_eq. Qed.

(** The window of the four probes after a first sample of device 0: a
    second sample of that device reaches the row as the first one left it. *)
Lemma window_witness :
  workers window_later = workers window
  ∧ (∀ dev, is_Some (device_rows window_later !! dev)
            ↔ dev ∈ detect_cxadc_devices four_probes 8)
  ∧ ∃ row,
      device_rows window_later !! 0 = Some row
      ∧ handle_update (sample_of dark_line) window_later =
          match update_data (sample_ymin (sample_of dark_line))
                  (sample_has_signal (sample_of dark_line)) row with
          | Done row' =>
              Done {| workers := workers window_later;
                      device_rows := <[0 := row']> (device_rows window_later);
                      container_layout := container_layout window_later |}
          | Failed e => Failed e
          end.
Proof.
  destruct (init_devices_rows four_probes) as (_ & _ & _ & _ & Hlater).
  destruct (Hlater [sample_of dark_line] window_later ltac:(compute_eq))
    as (Hworkers & Hrows & Hsample).
  split; [exact Hworkers|]. split; [exact Hrows|].
  apply (Hsample (DeviceMonitorWorker 0) (running [dark_line]) (sample_of dark_line)).
  - vm_compute. left.
  - vm_compute. left.
Defined.

(** A metric of 16: the bar is at 239 and the row says SIGNAL. *)
Lemma row_witness :
  match update_data (sample_ymin (sample_of dark_line))
          (sample_has_signal (sample_of dark_line)) (DeviceRow_new 0) with
  | Done row' =>
      (∃ n, 0 ≤ n ∧ int_of_float (sample_ymin (sample_of dark_line)) = Done n
            ∧ lbl_value row' = "YMIN: " +:+ str_of_int n
            ∧ progress row' = Z.max 0 (255 - n))
      ∧ 0 ≤ progress row' ≤ 255
      ∧ (lbl_status row' = SIGNAL ↔ 196 ≤ progress row')
      ∧ (lbl_status row' = NO_SIGNAL ↔ progress row' < 196)
  | Failed e =>
      e = OverflowError ∧ sample_ymin (sample_of dark_line) = S754_infinity false
  end.
Proof.
  apply (row_agrees_with_bar 0 dark_line (sample_of dark_line) (DeviceRow_new 0)).
  compute_eq.
Defined.

Lemma row_of_dark_line :
  ∃ row', update_data (sample_ymin (sample_of dark_line))
            (sample_has_signal (sample_of dark_line)) (DeviceRow_new 0) = Done row'
    ∧ progress row' = 239 ∧ lbl_status row' = SIGNAL ∧ lbl_value row' = "YMIN: 16".
Proof. eexists. split; [vm_compute; reflexivity|]. by vm_compute. Qed.

(** A metric of 310 digits is read as infinity, and the row fails on it. *)
Lemma huge_metric_overflows row :
  ∃ s, monitor_line 0 huge_line = Some s
    ∧ sample_ymin s = S754_infinity false
    ∧ sample_has_signal s = false
    ∧ update_data (sample_ymin s) (sample_has_signal s) row = Failed OverflowError.
Proof. eexists. split; [vm_compute; reflexivity|]. by split_and!. Qed.

(** A list that holds the five key names is returned by [load_config] as
    it is, although it is no record. *)
Lemma list_of_keys_is_loaded :
  load_config (Holds (JList (JStr <$> default_keys))) = Return (JList (JStr <$> default_keys)).
Proof. reflexivity. Qed.

End FurtherScenarios.
